(** * Habit tracker: state normalisation, persistence, streaks and event handlers

    A shallow embedding of [src/unnamed/part_000] (the state module:
    [normalizeState], [loadState], [saveState], [computeStreak], [toKey])
    and of the import and day-toggle handlers of [src/events.js].

    JavaScript values are modelled by [jsval].  Objects are the list of their
    own enumerable properties in enumeration order (keys distinct, as in any
    JavaScript object); numbers are integers; strings are sequences of 8-bit
    code units (the code units U+0000..U+00FF). *)

From Stdlib Require Import String Ascii List ZArith Bool Lia.
From Stdlib Require Import DecimalN.
Import ListNotations.
Open Scope string_scope.

(** ** JavaScript values *)

Set Warnings "-register-all".

Inductive jsval : Type :=
| JUndef
| JNull
| JBool (b : bool)
| JNum (n : Z)
| JStr (s : string)
| JArr (xs : list jsval)
| JObj (props : list (string * jsval)).

(** Results of code that may throw. *)
Inductive res (A : Type) : Type :=
| Ok (a : A)
| Throw (err : string).
Arguments Ok {A} a.
Arguments Throw {A} err.

Definition bind {A B} (m : res A) (f : A -> res B) : res B :=
  match m with Ok a => f a | Throw e => Throw e end.

Notation "'let!' x ':=' m 'in' k" := (bind m (fun x => k))
  (at level 200, x name, m at level 100, k at level 200).

Definition TypeError : string := "TypeError".

(** A state-and-error monad: the state counts the values drawn so far from
    the environment's sources of fresh ids ([crypto.randomUUID()],
    [Date.now()]). *)
Definition M (A : Type) : Type := nat -> res (A * nat).

Definition retM {A} (a : A) : M A := fun k => Ok (a, k).

Definition bindM {A B} (m : M A) (f : A -> M B) : M B :=
  fun k => match m k with Ok (a, k') => f a k' | Throw e => Throw e end.

Definition liftM {A} (r : res A) : M A :=
  fun k => match r with Ok a => Ok (a, k) | Throw e => Throw e end.

Definition draw : M nat := fun k => Ok (k, S k).

Notation "x <- m ;; k" := (bindM m (fun x => k))
  (at level 61, m at next level, right associativity).

(** ** Primitive operations of the language *)

Fixpoint lookup (k : string) (ps : list (string * jsval)) : option jsval :=
  match ps with
  | [] => None
  | (k', v) :: ps' => if String.eqb k k' then Some v else lookup k ps'
  end.

(** [v.k] (and [v[k]]) on a receiver that is not [null] or [undefined].
    Only the property names this program reads are looked up ([habits],
    [id], [name], [log], [toString] and date keys); none of them is an array
    index or [length], so non-objects have none of them. *)
Definition getp (v : jsval) (k : string) : jsval :=
  match v with
  | JObj ps => match lookup k ps with Some x => x | None => JUndef end
  | _ => JUndef
  end.

(** [v.k] on any receiver: [null] and [undefined] throw a TypeError. *)
Definition get_prop (v : jsval) (k : string) : res jsval :=
  match v with
  | JUndef | JNull => Throw TypeError
  | _ => Ok (getp v k)
  end.

(** ToBoolean. *)
Definition truthy (v : jsval) : bool :=
  match v with
  | JUndef | JNull => false
  | JBool b => b
  | JNum n => negb (Z.eqb n 0)
  | JStr s => negb (String.eqb s "")
  | JArr _ | JObj _ => true
  end.

(** [typeof v === "object"]. *)
Definition is_object (v : jsval) : bool :=
  match v with JNull | JArr _ | JObj _ => true | _ => false end.

(** [Array.isArray(v)]. *)
Definition is_array (v : jsval) : bool :=
  match v with JArr _ => true | _ => false end.

(** Decimal notation of numbers (Number::toString on integers). *)
Fixpoint string_of_uint (d : Decimal.uint) : string :=
  match d with
  | Decimal.Nil => ""
  | Decimal.D0 d => String "0" (string_of_uint d)
  | Decimal.D1 d => String "1" (string_of_uint d)
  | Decimal.D2 d => String "2" (string_of_uint d)
  | Decimal.D3 d => String "3" (string_of_uint d)
  | Decimal.D4 d => String "4" (string_of_uint d)
  | Decimal.D5 d => String "5" (string_of_uint d)
  | Decimal.D6 d => String "6" (string_of_uint d)
  | Decimal.D7 d => String "7" (string_of_uint d)
  | Decimal.D8 d => String "8" (string_of_uint d)
  | Decimal.D9 d => String "9" (string_of_uint d)
  end.

Definition string_of_N (n : N) : string := string_of_uint (N.to_uint n).

Definition string_of_Z (z : Z) : string :=
  match z with
  | Z0 => "0"
  | Zpos p => string_of_N (Npos p)
  | Zneg p => "-" ++ string_of_N (Npos p)
  end.

Fixpoint has_key (k : string) (ps : list (string * jsval)) : bool :=
  match ps with
  | [] => false
  | (k', _) :: ps' => String.eqb k k' || has_key k ps'
  end.

(** [String(v)].  An array is joined with ",", [null] and [undefined]
    elements giving "".  A plain object converts through
    [Object.prototype.toString] to "[object Object]"; when it has an own
    [toString] property (never callable in data built by [JSON.parse]),
    OrdinaryToPrimitive finds neither a callable [toString] nor a [valueOf]
    returning a primitive and throws a TypeError. *)
Fixpoint js_String (v : jsval) : res string :=
  match v with
  | JUndef => Ok "undefined"
  | JNull => Ok "null"
  | JBool true => Ok "true"
  | JBool false => Ok "false"
  | JNum n => Ok (string_of_Z n)
  | JStr s => Ok s
  | JArr xs =>
      let fix elems (xs : list jsval) : res (list string) :=
        match xs with
        | [] => Ok []
        | x :: xs' =>
            let! s := match x with
                      | JUndef | JNull => Ok ""
                      | _ => js_String x
                      end in
            let! ss := elems xs' in
            Ok (s :: ss)
        end in
      let! ss := elems xs in
      Ok (String.concat "," ss)
  | JObj ps =>
      if has_key "toString" ps then Throw TypeError else Ok "[object Object]"
  end.

(** WhiteSpace and LineTerminator code units removed by
    [String.prototype.trim]: TAB, LF, VT, FF, CR, SPACE and NO-BREAK SPACE. *)
Definition is_js_space (c : ascii) : bool :=
  let n := nat_of_ascii c in
  (((9 <=? n) && (n <=? 13)) || (n =? 32) || (n =? 160))%nat.

Fixpoint ltrim (s : string) : string :=
  match s with
  | EmptyString => EmptyString
  | String c s' => if is_js_space c then ltrim s' else s
  end.

Fixpoint rtrim (s : string) : string :=
  match s with
  | EmptyString => EmptyString
  | String c s' =>
      let r := rtrim s' in
      if is_js_space c && String.eqb r "" then "" else String c r
  end.

(** [s.trim()]. *)
Definition trim (s : string) : string := rtrim (ltrim s).

(** [{ ...v }]: the own enumerable properties of [v], copied in
    enumeration order.  Strings and arrays spread their indices; other
    primitives have none. *)
Definition index_props {A} (f : A -> jsval) (xs : list A) : list (string * jsval) :=
  map (fun p => (string_of_Z (Z.of_nat (fst p)), f (snd p)))
      (combine (seq 0 (length xs)) xs).

Definition spread (v : jsval) : list (string * jsval) :=
  match v with
  | JObj ps => ps
  | JArr xs => index_props (fun x => x) xs
  | JStr s => index_props (fun c => JStr (String c "")) (list_ascii_of_string s)
  | _ => []
  end.

(** ** Fresh ids *)

(** The environment [normalizeState] reads: whether [crypto.randomUUID]
    exists, the 128 random bits behind the [j]-th UUID, and the value of
    [Date.now()] at the [j]-th draw. *)
Record Env : Type := {
  env_crypto : bool;
  env_random : nat -> Z;
  env_clock : nat -> Z
}.

Definition hex_char (z : Z) : ascii :=
  ascii_of_nat (if Z.ltb z 10 then 48 + Z.to_nat z else 87 + Z.to_nat z).

(** The [n] low hexadecimal digits of [z], most significant first. *)
Fixpoint hex_digits (n : nat) (z : Z) : string :=
  match n with
  | O => ""
  | S n' => hex_digits n' (Z.shiftr z 4) ++ String (hex_char (Z.land z 15)) ""
  end.

(** [crypto.randomUUID()]: a version-4 UUID
    [xxxxxxxx-xxxx-4xxx-yxxx-xxxxxxxxxxxx] built from random bits. *)
Definition random_uuid (r : Z) : string :=
  hex_digits 8 (Z.shiftr r 96) ++ "-" ++ hex_digits 4 (Z.shiftr r 80) ++ "-4"
  ++ hex_digits 3 (Z.shiftr r 64) ++ "-"
  ++ String (hex_char (8 + Z.land (Z.shiftr r 62) 3)) ""
  ++ hex_digits 3 (Z.shiftr r 48) ++ "-" ++ hex_digits 12 r.

(** [typeof crypto !== "undefined" && crypto.randomUUID
       ? crypto.randomUUID() : `habit-${Date.now()}-${index}`] *)
Definition fresh_value (env : Env) (index j : nat) : string :=
  if env_crypto env then random_uuid (env_random env j)
  else "habit-" ++ string_of_Z (env_clock env j) ++ "-" ++ string_of_Z (Z.of_nat index).

Definition fresh_id (env : Env) (index : nat) : M string :=
  j <- draw ;; retM (fresh_value env index j).

(** ** [normalizeState] *)

Definition placeholder_name : string := "Untitled habit".

(** [id: (h && h.id && String(h.id)) || <fresh id>] *)
Definition habit_id (env : Env) (index : nat) (h : jsval) : M string :=
  let hid := getp h "id" in
  if truthy h && truthy hid then
    s <- liftM (js_String hid) ;;
    if String.eqb s "" then fresh_id env index else retM s
  else fresh_id env index.

(** [name: (h && typeof h.name === "string" && h.name.trim()) || "Untitled habit"] *)
Definition habit_name (h : jsval) : string :=
  if truthy h then
    match getp h "name" with
    | JStr s => if String.eqb (trim s) "" then placeholder_name else trim s
    | _ => placeholder_name
    end
  else placeholder_name.

(** [log: h && h.log && typeof h.log === "object" && !Array.isArray(h.log)
          ? { ...h.log } : {}] *)
Definition habit_log (h : jsval) : jsval :=
  let hlog := getp h "log" in
  if truthy h && truthy hlog && is_object hlog && negb (is_array hlog)
  then JObj (spread hlog) else JObj [].

(** The callback of [habitsInput.map((h, index) => ({ id, name, log }))]. *)
Definition normalize_habit (env : Env) (index : nat) (h : jsval) : M jsval :=
  id <- habit_id env index h ;;
  retM (JObj [("id", JStr id); ("name", JStr (habit_name h)); ("log", habit_log h)]).

(** [xs.map(f)] with the index passed to the callback, left to right. *)
Fixpoint map_index (f : nat -> jsval -> M jsval) (index : nat) (xs : list jsval)
  : M (list jsval) :=
  match xs with
  | [] => retM []
  | x :: xs' =>
      y <- f index x ;;
      ys <- map_index f (S index) xs' ;;
      retM (y :: ys)
  end.

(** [const raw = source && typeof source === "object" ? source : {};
     const habitsInput = Array.isArray(raw.habits) ? raw.habits : [];] *)
Definition habits_input (source : jsval) : list jsval :=
  let raw := if truthy source && is_object source then source else JObj [] in
  match getp raw "habits" with JArr xs => xs | _ => [] end.

Definition normalizeState (env : Env) (source : jsval) : M jsval :=
  hs <- map_index (normalize_habit env) 0 (habits_input source) ;;
  retM (JObj [("habits", JArr hs)]).

Definition env_node : Env :=
  {| env_crypto := false; env_random := fun _ => 0%Z;
     env_clock := fun j => (1700000000000 + Z.of_nat j)%Z |}.

(** The shape [normalizeState] produces: [{ habits: [...] }] whose entries are
    [{ id, name, log }] with a non-empty string id, a non-empty trimmed string
    name and a plain-object log. *)
Definition normalized_habit (h : jsval) : bool :=
  match h with
  | JObj [(ki, JStr i); (kn, JStr n); (kl, JObj _)] =>
      String.eqb ki "id" && String.eqb kn "name" && String.eqb kl "log"
      && negb (String.eqb i "") && negb (String.eqb n "")
      && String.eqb (trim n) n
  | _ => false
  end.

Definition normalized_state (s : jsval) : bool :=
  match s with
  | JObj [(k, JArr hs)] => String.eqb k "habits" && forallb normalized_habit hs
  | _ => false
  end.

(** ** JSON text *)

Definition dq : ascii := ascii_of_nat 34.
Definition bslash : ascii := ascii_of_nat 92.

(** QuoteJSONString, one code unit. *)
Definition json_quote_char (c : ascii) : string :=
  let n := nat_of_ascii c in
  if (n =? 34)%nat then String bslash (String dq "")
  else if (n =? 92)%nat then String bslash (String bslash "")
  else if (n =? 8)%nat then String bslash "b"
  else if (n =? 9)%nat then String bslash "t"
  else if (n =? 10)%nat then String bslash "n"
  else if (n =? 12)%nat then String bslash "f"
  else if (n =? 13)%nat then String bslash "r"
  else if (n <? 32)%nat then String bslash ("u" ++ hex_digits 4 (Z.of_nat n))
  else String c "".

Fixpoint json_quote_body (s : string) : string :=
  match s with
  | EmptyString => ""
  | String c s' => json_quote_char c ++ json_quote_body s'
  end.

Definition json_quote (s : string) : string :=
  String dq (json_quote_body s ++ String dq "").

(** [JSON.stringify(v)]: [None] is the result [undefined].  In an array an
    [undefined] element is written [null]; in an object a property whose
    value is [undefined] is left out. *)
Fixpoint json_stringify (v : jsval) : option string :=
  match v with
  | JUndef => None
  | JNull => Some "null"
  | JBool true => Some "true"
  | JBool false => Some "false"
  | JNum n => Some (string_of_Z n)
  | JStr s => Some (json_quote s)
  | JArr xs =>
      let fix elems (xs : list jsval) : list string :=
        match xs with
        | [] => []
        | x :: xs' =>
            match json_stringify x with Some t => t | None => "null" end
            :: elems xs'
        end in
      Some ("[" ++ String.concat "," (elems xs) ++ "]")
  | JObj ps =>
      let fix members (ps : list (string * jsval)) : list string :=
        match ps with
        | [] => []
        | (k, x) :: ps' =>
            match json_stringify x with
            | Some t => (json_quote k ++ ":" ++ t) :: members ps'
            | None => members ps'
            end
        end in
      Some ("{" ++ String.concat "," (members ps) ++ "}")
  end.

Definition is_json_ws (c : ascii) : bool :=
  let n := nat_of_ascii c in
  ((n =? 32) || (n =? 9) || (n =? 10) || (n =? 13))%nat.

Fixpoint skip_ws (s : string) : string :=
  match s with
  | String c s' => if is_json_ws c then skip_ws s' else s
  | EmptyString => EmptyString
  end.

Definition is_digit (c : ascii) : bool :=
  let n := nat_of_ascii c in ((48 <=? n) && (n <=? 57))%nat.

(** The longest prefix of decimal digits, and what follows it. *)
Fixpoint take_digits (s : string) : string * string :=
  match s with
  | String c s' =>
      if is_digit c then let (ds, r) := take_digits s' in (String c ds, r)
      else ("", s)
  | EmptyString => ("", "")
  end.

Fixpoint uint_of_digits (s : string) : option Decimal.uint :=
  match s with
  | EmptyString => Some Decimal.Nil
  | String c s' =>
      match uint_of_digits s' with
      | None => None
      | Some d =>
          let n := (nat_of_ascii c - 48)%nat in
          match n with
          | 0 => Some (Decimal.D0 d) | 1 => Some (Decimal.D1 d)
          | 2 => Some (Decimal.D2 d) | 3 => Some (Decimal.D3 d)
          | 4 => Some (Decimal.D4 d) | 5 => Some (Decimal.D5 d)
          | 6 => Some (Decimal.D6 d) | 7 => Some (Decimal.D7 d)
          | 8 => Some (Decimal.D8 d) | 9 => Some (Decimal.D9 d)
          | _ => None
          end
      end
  end%nat.

(** The largest magnitude up to which every integer is a JavaScript number:
    2^53. *)
Definition exact_int_bound : Z := 9007199254740992%Z.

(** The numbers of the model are the integers [JSON.parse] yields exactly,
    [-0] apart: a literal [-0] (which gives [-0]) or a magnitude above 2^53
    (which may be rounded) is outside the model. *)
Definition num_in_model (neg : bool) (n : N) : bool :=
  negb (neg && N.eqb n 0) && Z.leb (Z.of_N n) exact_int_bound.

(** A JSON number: [-]? followed by [0] or a digit run with no leading
    zero.  A fraction or an exponent part, [-0] and integers beyond 2^53 are
    valid JSON outside the model: they are refused here, and [json_parse]
    then reports them apart from a syntax error. *)
Definition parse_number (s : string) : option (jsval * string) :=
  let '(neg, s1) := match s with
                    | String c s' => if Ascii.eqb c "-" then (true, s') else (false, s)
                    | EmptyString => (false, s)
                    end in
  let '(ds, rest) := take_digits s1 in
  match uint_of_digits ds with
  | Some u =>
      let n := N.of_uint u in
      if String.eqb ds "" || negb (String.eqb (string_of_N n) ds) then None
      else if negb (num_in_model neg n) then None
      else
        match rest with
        | String c _ =>
            if Ascii.eqb c "." || Ascii.eqb c "e" || Ascii.eqb c "E" then None
            else Some (JNum (if neg then Z.opp (Z.of_N n) else Z.of_N n), rest)
        | EmptyString => Some (JNum (if neg then Z.opp (Z.of_N n) else Z.of_N n), rest)
        end
  | None => None
  end.

Definition hex_val (c : ascii) : option nat :=
  let n := nat_of_ascii c in
  (if (48 <=? n) && (n <=? 57) then Some (n - 48)
  else if (97 <=? n) && (n <=? 102) then Some (n - 87)
  else if (65 <=? n) && (n <=? 70) then Some (n - 55)
  else None)%nat.

(** The body of a JSON string after its opening quote, up to and including
    the closing quote.  A [\u] escape naming a code unit above U+00FF is
    valid JSON outside the 8-bit model and refused. *)
Fixpoint parse_str_body (s : string) : option (string * string) :=
  match s with
  | EmptyString => None
  | String c s' =>
      let n := nat_of_ascii c in
      if (n =? 34)%nat then Some ("", s')
      else if (n <? 32)%nat then None
      else if (n =? 92)%nat then
        match s' with
        | EmptyString => None
        | String e s'' =>
            let esc := fun (d : ascii) =>
              match parse_str_body s'' with
              | Some (t, r) => Some (String d t, r)
              | None => None
              end in
            let m := nat_of_ascii e in
            if (m =? 34)%nat then esc dq
            else if (m =? 92)%nat then esc bslash
            else if (m =? 47)%nat then esc "/"%char
            else if (m =? 98)%nat then esc (ascii_of_nat 8)
            else if (m =? 102)%nat then esc (ascii_of_nat 12)
            else if (m =? 110)%nat then esc (ascii_of_nat 10)
            else if (m =? 114)%nat then esc (ascii_of_nat 13)
            else if (m =? 116)%nat then esc (ascii_of_nat 9)
            else if (m =? 117)%nat then
              match s'' with
              | String h1 (String h2 (String h3 (String h4 r))) =>
                  match hex_val h1, hex_val h2, hex_val h3, hex_val h4 with
                  | Some a, Some b, Some c3, Some d =>
                      let code := (((a * 16 + b) * 16 + c3) * 16 + d)%nat in
                      if (code <? 256)%nat then
                        match parse_str_body r with
                        | Some (t, r') => Some (String (ascii_of_nat code) t, r')
                        | None => None
                        end
                      else None
                  | _, _, _, _ => None
                  end
              | _ => None
              end
            else None
        end
      else
        match parse_str_body s' with
        | Some (t, r) => Some (String c t, r)
        | None => None
        end
  end.

(** CreateDataProperty on a fresh object: a repeated key keeps its place
    and takes the new value; a new key goes last.  (The enumeration of
    array-index keys ahead of the others is not modelled; no property of
    this development depends on the order of a log's keys.) *)
Fixpoint define (k : string) (v : jsval) (ps : list (string * jsval))
  : list (string * jsval) :=
  match ps with
  | [] => [(k, v)]
  | (k', v') :: ps' =>
      if String.eqb k k' then (k, v) :: ps' else (k', v') :: define k v ps'
  end.

Definition starts_with_char (s : string) (c : ascii) : option string :=
  match s with
  | String c' s' => if Ascii.eqb c c' then Some s' else None
  | EmptyString => None
  end.

(** A JSON value after optional white space; [fuel] bounds the nesting and
    the number of elements. *)
Fixpoint parse_value (fuel : nat) (s : string) : option (jsval * string) :=
  match fuel with
  | O => None
  | S f =>
      match skip_ws s with
      | EmptyString => None
      | String c r =>
          if Ascii.eqb c "n" then
            match r with
            | String "u" (String "l" (String "l" r')) => Some (JNull, r')
            | _ => None
            end
          else if Ascii.eqb c "t" then
            match r with
            | String "r" (String "u" (String "e" r')) => Some (JBool true, r')
            | _ => None
            end
          else if Ascii.eqb c "f" then
            match r with
            | String "a" (String "l" (String "s" (String "e" r'))) => Some (JBool false, r')
            | _ => None
            end
          else if Ascii.eqb c dq then
            match parse_str_body r with
            | Some (t, r') => Some (JStr t, r')
            | None => None
            end
          else if Ascii.eqb c "[" then
            match starts_with_char (skip_ws r) "]" with
            | Some r' => Some (JArr [], r')
            | None => parse_elems f r []
            end
          else if Ascii.eqb c "{" then
            match starts_with_char (skip_ws r) "}" with
            | Some r' => Some (JObj [], r')
            | None => parse_members f r []
            end
          else if Ascii.eqb c "-" || is_digit c then parse_number (String c r)
          else None
      end
  end
with parse_elems (fuel : nat) (s : string) (acc : list jsval)
  : option (jsval * string) :=
  match fuel with
  | O => None
  | S f =>
      match parse_value f s with
      | None => None
      | Some (v, r) =>
          match skip_ws r with
          | String c r' =>
              if Ascii.eqb c "," then parse_elems f r' (acc ++ [v])
              else if Ascii.eqb c "]" then Some (JArr (acc ++ [v]), r')
              else None
          | EmptyString => None
          end
      end
  end
with parse_members (fuel : nat) (s : string) (acc : list (string * jsval))
  : option (jsval * string) :=
  match fuel with
  | O => None
  | S f =>
      match starts_with_char (skip_ws s) dq with
      | None => None
      | Some r =>
          match parse_str_body r with
          | None => None
          | Some (k, r1) =>
              match starts_with_char (skip_ws r1) ":" with
              | None => None
              | Some r2 =>
                  match parse_value f r2 with
                  | None => None
                  | Some (v, r3) =>
                      let acc' := define k v acc in
                      match skip_ws r3 with
                      | String c r4 =>
                          if Ascii.eqb c "," then parse_members f r4 acc'
                          else if Ascii.eqb c "}" then Some (JObj acc', r4)
                          else None
                      | EmptyString => None
                      end
                  end
              end
          end
      end
  end.

(** ** The JSON grammar

    A recognizer of the whole grammar of JSON text (ECMA-404), fractions,
    exponents, [-0], integers of any size and every [\u] escape included:
    what follows a valid value at the head of the text, if there is one. *)

(** [-]? ([0] | [1-9][0-9]* ) ([.] [0-9]+)? ([eE] [+-]? [0-9]+)? *)
Definition valid_number (s : string) : option string :=
  let s1 := match s with
            | String c s' => if Ascii.eqb c "-" then s' else s
            | EmptyString => s
            end in
  let s2 := match s1 with
            | String c r =>
                if Ascii.eqb c "0" then Some r
                else if is_digit c then Some (snd (take_digits r))
                else None
            | EmptyString => None
            end in
  match s2 with
  | None => None
  | Some s2 =>
      let s3 := match s2 with
                | String c r =>
                    if Ascii.eqb c "." then
                      let (ds, r') := take_digits r in
                      if String.eqb ds "" then None else Some r'
                    else Some s2
                | EmptyString => Some s2
                end in
      match s3 with
      | None => None
      | Some s3 =>
          match s3 with
          | String c r =>
              if Ascii.eqb c "e" || Ascii.eqb c "E" then
                let r1 := match r with
                          | String c' r' => if Ascii.eqb c' "+" || Ascii.eqb c' "-" then r' else r
                          | EmptyString => r
                          end in
                let (ds, r2) := take_digits r1 in
                if String.eqb ds "" then None else Some r2
              else Some s3
          | EmptyString => Some s3
          end
      end
  end.

Definition is_hex (c : ascii) : bool :=
  match hex_val c with Some _ => true | None => false end.

(** A string body: code units from U+0020 on other than the quote and the
    backslash, and escapes: a backslash followed by the quote, a backslash,
    [/], [b], [f], [n], [r], [t], or [u] and four hex digits; up to and
    including the closing quote. *)
Fixpoint valid_str_body (s : string) : option string :=
  match s with
  | EmptyString => None
  | String c s' =>
      let n := nat_of_ascii c in
      if (n =? 34)%nat then Some s'
      else if (n <? 32)%nat then None
      else if (n =? 92)%nat then
        match s' with
        | EmptyString => None
        | String e s'' =>
            let m := nat_of_ascii e in
            if ((m =? 34) || (m =? 92) || (m =? 47) || (m =? 98) || (m =? 102)
                || (m =? 110) || (m =? 114) || (m =? 116))%nat
            then valid_str_body s''
            else if (m =? 117)%nat then
              match s'' with
              | String h1 (String h2 (String h3 (String h4 r))) =>
                  if is_hex h1 && is_hex h2 && is_hex h3 && is_hex h4
                  then valid_str_body r else None
              | _ => None
              end
            else None
        end
      else valid_str_body s'
  end.

Fixpoint valid_value (fuel : nat) (s : string) : option string :=
  match fuel with
  | O => None
  | S f =>
      match skip_ws s with
      | EmptyString => None
      | String c r =>
          if Ascii.eqb c "n" then
            match r with
            | String "u" (String "l" (String "l" r')) => Some r'
            | _ => None
            end
          else if Ascii.eqb c "t" then
            match r with
            | String "r" (String "u" (String "e" r')) => Some r'
            | _ => None
            end
          else if Ascii.eqb c "f" then
            match r with
            | String "a" (String "l" (String "s" (String "e" r'))) => Some r'
            | _ => None
            end
          else if Ascii.eqb c dq then valid_str_body r
          else if Ascii.eqb c "[" then
            match starts_with_char (skip_ws r) "]" with
            | Some r' => Some r'
            | None => valid_elems f r
            end
          else if Ascii.eqb c "{" then
            match starts_with_char (skip_ws r) "}" with
            | Some r' => Some r'
            | None => valid_members f r
            end
          else if Ascii.eqb c "-" || is_digit c then valid_number (String c r)
          else None
      end
  end
with valid_elems (fuel : nat) (s : string) : option string :=
  match fuel with
  | O => None
  | S f =>
      match valid_value f s with
      | None => None
      | Some r =>
          match skip_ws r with
          | String c r' =>
              if Ascii.eqb c "," then valid_elems f r'
              else if Ascii.eqb c "]" then Some r'
              else None
          | EmptyString => None
          end
      end
  end
with valid_members (fuel : nat) (s : string) : option string :=
  match fuel with
  | O => None
  | S f =>
      match starts_with_char (skip_ws s) dq with
      | None => None
      | Some r =>
          match valid_str_body r with
          | None => None
          | Some r1 =>
              match starts_with_char (skip_ws r1) ":" with
              | None => None
              | Some r2 =>
                  match valid_value f r2 with
                  | None => None
                  | Some r3 =>
                      match skip_ws r3 with
                      | String c r4 =>
                          if Ascii.eqb c "," then valid_members f r4
                          else if Ascii.eqb c "}" then Some r4
                          else None
                      | EmptyString => None
                      end
                  end
              end
          end
      end
  end.

(** Whether [text] is a JSON text: one value between optional white space.
    Every step of the recognizer reads at least one character, so the fuel
    [1 + length text] is enough. *)
Definition json_valid (text : string) : bool :=
  match valid_value (S (String.length text)) text with
  | Some r => String.eqb (skip_ws r) ""
  | None => false
  end.

Definition SyntaxError : string := "SyntaxError".

(** The outcome of a case the model does not represent: a JSON text whose
    value the model has no value for, or a log that is an array and would
    get a named property, which [JArr] cannot hold.  The theorems say
    nothing about it. *)
Definition unmodelled : string := "unmodelled".

(** The exception of a text the parser refuses. *)
Definition json_parse_failure (text : string) : res jsval :=
  if json_valid text then Throw unmodelled else Throw SyntaxError.

(** [JSON.parse(text)]: a text that is not JSON throws a SyntaxError; a JSON
    text with a value outside the model (see [parse_number] and
    [parse_str_body]) throws [unmodelled]. *)
Definition json_parse (text : string) : res jsval :=
  match parse_value (S (String.length text)) text with
  | Some (v, r) => if String.eqb (skip_ws r) "" then Ok v else json_parse_failure text
  | None => json_parse_failure text
  end.

(** ** Persistence *)

Definition STORAGE_KEY : string := "habit-tracker-state-v1".

(** [localStorage]: string keys to string values. *)
Definition Storage : Type := string -> option string.

Definition storage_set (st : Storage) (k v : string) : Storage :=
  fun k' => if String.eqb k' k then Some v else st k'.

(** What the user sees of the page outside the state: notices and
    re-renders. *)
Inductive effect : Type :=
| EAlert (msg : string)
| ERender.

(** The module state [state], the browser's storage and the user-visible
    effects so far. *)
Record App : Type := {
  app_state : jsval;
  app_storage : Storage;
  app_trace : list effect
}.

Definition catchM {A} (m : M A) (handler : string -> M A) : M A :=
  fun k => match m k with Ok r => Ok r | Throw e => handler e k end.

Definition empty_state : jsval := JObj [("habits", JArr [])].

(** [saveState(nextState)]: [state = normalizeState(nextState)], then
    [localStorage.setItem(STORAGE_KEY, JSON.stringify(state))] (a result
    [undefined] would be stored as the text "undefined").  Storage writes
    are modelled as succeeding. *)
Definition saveState (env : Env) (nextState : jsval) (app : App) : M App :=
  s <- normalizeState env nextState ;;
  let text := match json_stringify s with Some t => t | None => "undefined" end in
  retM {| app_state := s;
          app_storage := storage_set (app_storage app) STORAGE_KEY text;
          app_trace := app_trace app |}.

(** [loadState()]: a missing or empty item gives [{ habits: [] }]; so does
    any exception of [JSON.parse] or of [normalizeState] (caught, with a
    console warning). *)
Definition loadState (env : Env) (st : Storage) : M jsval :=
  catchM
    (match st STORAGE_KEY with
     | None => retM empty_state
     | Some raw =>
         if String.eqb raw "" then retM empty_state
         else parsed <- liftM (json_parse raw) ;; normalizeState env parsed
     end)
    (fun _ => retM empty_state).

(** ** Event handlers of [src/events.js] *)

Definition alert (msg : string) (app : App) : App :=
  {| app_state := app_state app; app_storage := app_storage app;
     app_trace := app_trace app ++ [EAlert msg] |}.

(** [render()] redraws the page from [state]; it changes no state. *)
Definition render (app : App) : App :=
  {| app_state := app_state app; app_storage := app_storage app;
     app_trace := app_trace app ++ [ERender] |}.

Definition import_ok_msg : string := "Import complete. Data loaded.".
Definition import_failed_msg : string := "Import failed. Please check the JSON file format.".

(** The [change] handler of the import input, given the text of the chosen
    file ([None]: no file chosen). *)
Definition event_import (env : Env) (file : option string) (app : App) : M App :=
  match file with
  | None => retM app
  | Some text =>
      catchM
        (data <- liftM (json_parse text) ;;
         habits <- liftM (get_prop data "habits") ;;
         if negb (is_array habits) then liftM (Throw "Error: Invalid format")
         else
           app1 <- saveState env data app ;;
           retM (alert import_ok_msg (render app1)))
        (fun _ => retM (alert import_failed_msg app))
  end.

(** [h.id !== habitId] for a string [habitId]. *)
Definition strict_neq_str (v : jsval) (s : string) : bool :=
  match v with JStr t => negb (String.eqb t s) | _ => true end.

(** The properties of [Object.prototype], which a plain object inherits. *)
Definition object_proto_keys : list string :=
  ["constructor"; "__defineGetter__"; "__defineSetter__"; "hasOwnProperty";
   "__lookupGetter__"; "__lookupSetter__"; "isPrototypeOf";
   "propertyIsEnumerable"; "toString"; "valueOf"; "__proto__"; "toLocaleString"].

Definition is_proto_key (k : string) : bool :=
  existsb (String.eqb k) object_proto_keys.

(** [!!o[k]] on a plain object whose own properties are [ps]: an own
    property is read; otherwise the lookup goes on to [Object.prototype],
    whose properties are all functions except [__proto__], whose getter
    returns [Object.prototype] itself: all truthy. *)
Definition plain_truthy (ps : list (string * jsval)) (k : string) : bool :=
  match lookup k ps with
  | Some v => truthy v
  | None => is_proto_key k
  end.

(** [o[k] = b], [b] a boolean, on a plain object whose own properties are
    [ps]: an own property is overwritten in place, and a new key is added
    last (the methods of [Object.prototype] are writable data properties,
    so the assignment creates an own one), except [__proto__]: the setter
    of [Object.prototype.__proto__] ignores a value that is neither an
    object nor [null], and the object is left as it was. *)
Definition plain_set_bool (k : string) (b : bool) (ps : list (string * jsval))
  : list (string * jsval) :=
  match lookup k ps with
  | Some _ => define k (JBool b) ps
  | None => if String.eqb k "__proto__" then ps else define k (JBool b) ps
  end.

(** The callback of [state.habits.map(h => ...)] in the day-cell click
    handler: [const log = { ...h.log }; log[dayKey] = !log[dayKey];
    return { ...h, log };]. *)
Definition toggle_habit (habitId dayKey : string) (h : jsval) : res jsval :=
  let! hid := get_prop h "id" in
  if strict_neq_str hid habitId then Ok h
  else
    let! hlog := get_prop h "log" in
    let log := spread hlog in
    let log := plain_set_bool dayKey (negb (plain_truthy log dayKey)) log in
    Ok (JObj (define "log" (JObj log) (spread h))).

Fixpoint map_res (f : jsval -> res jsval) (xs : list jsval) : res (list jsval) :=
  match xs with
  | [] => Ok []
  | x :: xs' => let! y := f x in let! ys := map_res f xs' in Ok (y :: ys)
  end.

(** A click on a day cell carrying [data-habit-id] and [data-day-key]. *)
Definition event_day_click (env : Env) (habitId dayKey : string) (app : App) : M App :=
  match getp (app_state app) "habits" with
  | JArr hs =>
      nextHabits <- liftM (map_res (toggle_habit habitId dayKey) hs) ;;
      app1 <- saveState env (JObj [("habits", JArr nextHabits)]) app ;;
      retM (render app1)
  | _ => liftM (Throw TypeError)
  end.

(** ** Local dates and [computeStreak] *)

(** A local calendar date as [Date] reports it: [getFullYear()],
    [getMonth()] (0 to 11) and [getDate()] (1 to 31). *)
Record LocalDate : Type := {
  ld_year : Z;
  ld_month : Z;
  ld_date : Z
}.

(** Days since 1970-01-01 of a proleptic Gregorian date (month 1 to 12). *)
Definition days_from_civil (y m d : Z) : Z :=
  (let y := if Z.leb m 2 then y - 1 else y in
  let era := Z.div y 400 in
  let yoe := y - era * 400 in
  let mp := Z.modulo (m + 9) 12 in
  let doy := Z.div (153 * mp + 2) 5 + d - 1 in
  let doe := yoe * 365 + Z.div yoe 4 - Z.div yoe 100 + doy in
  era * 146097 + doe - 719468)%Z.

Definition civil_from_days (z : Z) : LocalDate :=
  (let z := z + 719468 in
  let era := Z.div z 146097 in
  let doe := z - era * 146097 in
  let yoe := Z.div (doe - Z.div doe 1460 + Z.div doe 36524 - Z.div doe 146096) 365 in
  let doy := doe - (365 * yoe + Z.div yoe 4 - Z.div yoe 100) in
  let mp := Z.div (5 * doy + 2) 153 in
  let d := doy - Z.div (153 * mp + 2) 5 + 1 in
  let m := if Z.ltb mp 10 then mp + 3 else mp - 9 in
  let y := yoe + era * 400 + (if Z.leb m 2 then 1 else 0) in
  {| ld_year := y; ld_month := m - 1; ld_date := d |})%Z.

(** [d = new Date(today); d.setDate(dt)]: MakeDay(year, month, dt), so a
    [dt] outside the month moves into the months around it. *)
Definition set_date (today : LocalDate) (dt : Z) : LocalDate :=
  civil_from_days (days_from_civil (ld_year today) (ld_month today + 1) 1 + dt - 1)%Z.

(** [String(n).padStart(2, "0")]. *)
Definition pad2 (s : string) : string :=
  match String.length s with
  | O => "00"
  | 1 => "0" ++ s
  | _ => s
  end.

Definition toKey (d : LocalDate) : string :=
  string_of_Z (ld_year d) ++ "-" ++ pad2 (string_of_Z (ld_month d + 1)%Z) ++ "-"
  ++ pad2 (string_of_Z (ld_date d)).

(** The key of the day [i] days before [today]:
    [d.setDate(today.getDate() - i); toKey(d)]. *)
Definition day_key (today : LocalDate) (i : nat) : string :=
  toKey (set_date today (ld_date today - Z.of_nat i)%Z).

(** [for (let i = 0; i < 365; i++) { ... if (habit.log[key]) streak++;
    else break; }], with [fuel = 365 - i]. *)
Fixpoint streak_loop (log : jsval) (today : LocalDate) (i : nat) (streak : nat)
  (fuel : nat) : nat :=
  match fuel with
  | O => streak
  | S fuel' =>
      if truthy (getp log (day_key today i))
      then streak_loop log today (S i) (S streak) fuel'
      else streak
  end.

Definition computeStreak (today : LocalDate) (habit : jsval) : nat :=
  if negb (truthy habit) || negb (truthy (getp habit "log")) then 0
  else streak_loop (getp habit "log") today 0 0 365.

Definition date_2024_03_01 : LocalDate :=
  {| ld_year := 2024%Z; ld_month := 2%Z; ld_date := 1%Z |}.

(** ** Concrete inputs *)

(** A habit whose log marks the 400 days ending on 2024-03-01. *)
Definition log400 : jsval :=
  JObj (map (fun i => (day_key date_2024_03_01 i, JBool true)) (seq 0 400)).

Definition habit400 : jsval :=
  JObj [("id", JStr "h1"); ("name", JStr "Water"); ("log", log400)].

Definition app_empty : App :=
  {| app_state := empty_state; app_storage := fun _ => None; app_trace := [] |}.

(** The text of [{"habits":"not-an-array"}]. *)
Definition text_not_an_array : string :=
  match json_stringify (JObj [("habits", JStr "not-an-array")]) with
  | Some t => t | None => "" end.

(** [{"id":{"toString":1}}]: a habit whose id is an object with an own
    [toString] property. *)
Definition entry_bad_id : jsval := JObj [("id", JObj [("toString", JNum 1)])].

Definition state_bad_id : jsval := JObj [("habits", JArr [entry_bad_id])].

(** [{habits: [{id: 7, name: " Water "}, {id: []}, null]}] *)
Definition input_ids : jsval :=
  JObj [("habits", JArr [JObj [("id", JNum 7); ("name", JStr " Water ")];
                         JObj [("id", JArr [])]; JNull])].

Definition output_ids : jsval :=
  JObj [("habits", JArr [
    JObj [("id", JStr "7"); ("name", JStr "Water"); ("log", JObj [])];
    JObj [("id", JStr "habit-1700000000000-1"); ("name", JStr "Untitled habit");
          ("log", JObj [])];
    JObj [("id", JStr "habit-1700000000001-2"); ("name", JStr "Untitled habit");
          ("log", JObj [])]])].

(** The habits array of a state. *)
Definition habits_of (s : jsval) : list jsval :=
  match getp s "habits" with JArr hs => hs | _ => [] end.

(** What one step of the toggle may change in a habit: nothing but the
    [dayKey] entry of the targeted habit's log. *)
Definition toggled_only (habitId dayKey : string) (h h' : jsval) : Prop :=
  (getp h "id" <> JStr habitId -> h' = h) /\
  getp h' "id" = getp h "id" /\ getp h' "name" = getp h "name" /\
  (forall d, d <> dayKey -> getp (getp h' "log") d = getp (getp h "log") d).

Definition app_two_habits : App :=
  {| app_state := JObj [("habits", JArr
       [JObj [("id", JStr "a"); ("name", JStr "Water"); ("log", JObj [("2024-03-01", JBool true)])];
        JObj [("id", JStr "b"); ("name", JStr "Read"); ("log", JObj [])]])];
     app_storage := fun _ => None; app_trace := [] |}.

(** ** Values that survive a JSON round trip *)

Fixpoint nodup_str (l : list string) : bool :=
  match l with
  | [] => true
  | k :: l' => negb (existsb (String.eqb k) l') && nodup_str l'
  end.

(** A value that [JSON.stringify] writes out in full: no [undefined]
    anywhere (in an object it would be left out), and no key twice in an
    object (which a JavaScript object never has); its numbers are integers
    of magnitude at most 2^53, which [JSON.parse] reads back exactly. *)
Fixpoint json_ok (v : jsval) : bool :=
  match v with
  | JUndef => false
  | JArr xs =>
      (fix all (xs : list jsval) : bool :=
         match xs with [] => true | x :: xs' => json_ok x && all xs' end) xs
  | JObj ps =>
      nodup_str (map fst ps) &&
      (fix all (ps : list (string * jsval)) : bool :=
         match ps with [] => true | (_, x) :: ps' => json_ok x && all ps' end) ps
  | JNum n => Z.leb (Z.abs n) exact_int_bound
  | _ => true
  end.

(** The number of nodes of a value, which bounds the fuel its parse needs. *)
Fixpoint jsize (v : jsval) : nat :=
  match v with
  | JArr xs =>
      S ((fix sz (xs : list jsval) : nat :=
            match xs with [] => 0 | x :: xs' => S (jsize x) + sz xs' end) xs)
  | JObj ps =>
      S ((fix sz (ps : list (string * jsval)) : nat :=
            match ps with [] => 0 | (_, x) :: ps' => S (jsize x) + sz ps' end) ps)
  | _ => 1
  end%nat.

(** The text [JSON.stringify] gives an array element. *)
Definition ser_total (v : jsval) : string :=
  match json_stringify v with Some t => t | None => "null" end.

Definition json_member (k : string) (v : jsval) : string :=
  json_quote k ++ ":" ++ ser_total v.

(** What may follow a value inside JSON text written by [JSON.stringify]. *)
Definition rest_ok (r : string) : bool :=
  match r with
  | EmptyString => true
  | String c _ => Ascii.eqb c "," || Ascii.eqb c "]" || Ascii.eqb c "}"
  end.

(** Induction on values through the elements of arrays and objects. *)
Fixpoint jsval_ind' (P : jsval -> Prop)
  (HU : P JUndef) (HN : P JNull) (HB : forall b, P (JBool b))
  (HZ : forall n, P (JNum n)) (HS : forall s, P (JStr s))
  (HA : forall xs, Forall P xs -> P (JArr xs))
  (HO : forall ps, Forall (fun kv => P (snd kv)) ps -> P (JObj ps))
  (v : jsval) {struct v} : P v :=
  let F := jsval_ind' P HU HN HB HZ HS HA HO in
  match v with
  | JUndef => HU
  | JNull => HN
  | JBool b => HB b
  | JNum n => HZ n
  | JStr s => HS s
  | JArr xs =>
      HA xs ((fix G (xs : list jsval) : Forall P xs :=
                match xs with
                | [] => Forall_nil P
                | x :: xs' => Forall_cons x (F x) (G xs')
                end) xs)
  | JObj ps =>
      HO ps ((fix G (ps : list (string * jsval)) : Forall (fun kv => P (snd kv)) ps :=
                match ps with
                | [] => Forall_nil _
                | kv :: ps' => Forall_cons kv (F (snd kv)) (G ps')
                end) ps)
  end.

(** ** The other handlers of [src/events.js] *)

(** [s.slice(2)]. *)
Fixpoint str_drop (n : nat) (s : string) : string :=
  match n, s with
  | O, _ => s
  | S _, EmptyString => EmptyString
  | S n', String _ s' => str_drop n' s'
  end.

(** [newHabit(name)] of [state.js]; [rnd j] is the text of
    [Math.random().toString(16)] at the [j]-th draw (the leading "0." is
    what [.slice(2)] drops). *)
Definition newHabit (env : Env) (rnd : nat -> string) (name : string) : M jsval :=
  j <- draw ;;
  let id := if env_crypto env then random_uuid (env_random env j)
            else "habit-" ++ string_of_Z (env_clock env j) ++ "-" ++ str_drop 2 (rnd j) in
  retM (JObj [("id", JStr id); ("name", JStr name); ("log", JObj [])]).

(** The elements [[...v]] iterates: an array's elements, a string's
    characters; no other value of the model has an iterator. *)
Definition iterate (v : jsval) : res (list jsval) :=
  match v with
  | JArr xs => Ok xs
  | JStr s => Ok (map (fun c => JStr (String c "")) (list_ascii_of_string s))
  | _ => Throw TypeError
  end.

(** The [submit] handler of the add form, given the input's value; it
    returns the page and the input's value afterwards. *)
Definition event_add_habit (env : Env) (rnd : nat -> string) (value : string) (app : App)
  : M (App * string) :=
  let name := trim value in
  if String.eqb name "" then retM (app, value)
  else
    hs <- liftM (let! v := get_prop (app_state app) "habits" in iterate v) ;;
    nh <- newHabit env rnd name ;;
    app1 <- saveState env (JObj [("habits", JArr (hs ++ [nh])%list)]) app ;;
    retM (render app1, "").

Fixpoint filter_res (p : jsval -> res bool) (xs : list jsval) : res (list jsval) :=
  match xs with
  | [] => Ok []
  | x :: xs' =>
      let! b := p x in
      let! ys := filter_res p xs' in
      Ok (if b then x :: ys else ys)
  end.

(** The delete branch of the row click handler; [confirmed] is the answer
    to [confirm("Delete this habit?")]. *)
Definition event_delete (env : Env) (habitId : string) (confirmed : bool) (app : App) : M App :=
  if negb confirmed then retM app
  else
    match getp (app_state app) "habits" with
    | JArr hs =>
        nextHabits <- liftM (filter_res (fun h => let! hid := get_prop h "id" in
                                                  Ok (strict_neq_str hid habitId)) hs) ;;
        app1 <- saveState env (JObj [("habits", JArr nextHabits)]) app ;;
        retM (render app1)
    | _ => liftM (Throw TypeError)
    end.

Definition reset_msg : string := "All data reset.".

(** The reset button; [confirmed] is the answer to the confirmation. *)
Definition event_reset (env : Env) (confirmed : bool) (app : App) : M App :=
  if negb confirmed then retM app
  else
    app1 <- saveState env (JObj [("habits", JArr [])]) app ;;
    retM (alert reset_msg (render app1)).

(** ** [toggleLog] of [render.js] *)

(** [x.id === habitId] for a string [habitId]. *)
Definition strict_eq_str (v : jsval) (s : string) : bool :=
  match v with JStr t => String.eqb t s | _ => false end.

(** [xs.find(p)], with the index of the element found. *)
Fixpoint find_res (p : jsval -> res bool) (xs : list jsval) (i : nat)
  : res (option (nat * jsval)) :=
  match xs with
  | [] => Ok None
  | x :: xs' => let! b := p x in if b then Ok (Some (i, x)) else find_res p xs' (S i)
  end.

(** Replacing the element at index [i] of an array by [x] (what an
    in-place update of [xs[i]] amounts to). *)
Fixpoint set_nth (i : nat) (x : jsval) (xs : list jsval) : list jsval :=
  match xs, i with
  | [], _ => []
  | _ :: xs', O => x :: xs'
  | y :: xs', S i' => y :: set_nth i' x xs'
  end.

(** [delete o[k]] on the own properties of an object. *)
Definition remove_key (k : string) (ps : list (string * jsval)) : list (string * jsval) :=
  filter (fun p => negb (String.eqb (fst p) k)) ps.

(** [toggleLog(habitId, dateKey)]: the habit found is mutated in place (its
    log gets or loses the key), so the state object now holds the updated
    habit at the same index; then [saveState(state)] and [render()].  No
    habit found: nothing is saved or drawn.  A log that is [null] or
    [undefined] throws on [h.log[dateKey]]; a primitive log throws on the
    write ([delete] or assignment on a primitive, module code being strict
    mode code).  When [saveState] throws, the model reports the exception
    alone, without the mutated state left behind. *)
Definition toggleLog (env : Env) (habitId dateKey : string) (app : App) : M App :=
  match get_prop (app_state app) "habits" with
  | Throw e => liftM (Throw e)
  | Ok (JArr hs) =>
      found <- liftM (find_res (fun x => let! xid := get_prop x "id" in
                                          Ok (strict_eq_str xid habitId)) hs 0) ;;
      match found with
      | None => retM app
      | Some (i, h) =>
          if negb (truthy h) then retM app
          else
            hlog <- liftM (get_prop h "log") ;;
            match hlog with
            | JObj lps =>
                let lps' := if truthy (getp (JObj lps) dateKey)
                            then remove_key dateKey lps
                            else define dateKey (JBool true) lps in
                let h' := JObj (define "log" (JObj lps') (spread h)) in
                let st := JObj (define "habits" (JArr (set_nth i h' hs))
                                       (spread (app_state app))) in
                app1 <- saveState env st app ;;
                retM (render app1)
            | JArr _ => liftM (Throw unmodelled)
            | _ => liftM (Throw TypeError)
            end
      end
  | Ok _ => liftM (Throw TypeError)
  end.

(** The log of a habit after one [toggleLog] on [dateKey]. *)
Definition toggled_log (dateKey : string) (lps : list (string * jsval)) :=
  if truthy (getp (JObj lps) dateKey) then remove_key dateKey lps
  else define dateKey (JBool true) lps.

(** A state whose only log entry is [undefined]. *)
Definition state_undef_log : jsval :=
  JObj [("habits", JArr [JObj [("id", JStr "a"); ("name", JStr "Run");
                               ("log", JObj [("2024-03-01", JUndef)])]])].

(** ** The export handler of [src/events.js] *)

(** The indentation step of [JSON.stringify(value, null, 2)], and the line
    break between its lines. *)
Definition json_gap : string := "  ".
Definition nl : string := String (ascii_of_nat 10) "".

(** [JSON.stringify(value, null, 2)] at the current indentation [indent]: a
    non-empty array or object is written one element or property per line,
    indented one step more than [indent], with [": "] after a key; the
    closing bracket goes on a line of its own at [indent]. *)
Fixpoint json_stringify_gap (indent : string) (v : jsval) : option string :=
  match v with
  | JArr xs =>
      let stepback := indent in
      let indent' := indent ++ json_gap in
      let fix elems (xs : list jsval) : list string :=
        match xs with
        | [] => []
        | x :: xs' =>
            match json_stringify_gap indent' x with Some t => t | None => "null" end
            :: elems xs'
        end in
      match elems xs with
      | [] => Some "[]"
      | partial =>
          Some ("[" ++ nl ++ indent' ++ String.concat ("," ++ nl ++ indent') partial
                ++ nl ++ stepback ++ "]")
      end
  | JObj ps =>
      let stepback := indent in
      let indent' := indent ++ json_gap in
      let fix members (ps : list (string * jsval)) : list string :=
        match ps with
        | [] => []
        | (k, x) :: ps' =>
            match json_stringify_gap indent' x with
            | Some t => (json_quote k ++ ":" ++ " " ++ t) :: members ps'
            | None => members ps'
            end
        end in
      match members ps with
      | [] => Some "{}"
      | partial =>
          Some ("{" ++ nl ++ indent' ++ String.concat ("," ++ nl ++ indent') partial
                ++ nl ++ stepback ++ "}")
      end
  | _ => json_stringify v
  end.

(** The content of the Blob that the click handler of the export button
    ([event_export]) downloads: [JSON.stringify(state, null, 2)]. *)
Definition export_text (app : App) : string :=
  match json_stringify_gap "" (app_state app) with Some t => t | None => "undefined" end.

(** The text of an array element or property value inside the indented text. *)
Definition pp_total (indent : string) (v : jsval) : string :=
  match json_stringify_gap indent v with Some t => t | None => "null" end.

Definition pp_member (indent : string) (k : string) (v : jsval) : string :=
  json_quote k ++ ":" ++ " " ++ pp_total indent v.

(** A text of JSON white space only. *)
Fixpoint all_ws (s : string) : bool :=
  match s with
  | EmptyString => true
  | String c s' => is_json_ws c && all_ws s'
  end.

(** What may follow the digits of a number: a character that does not
    continue it. *)
Definition num_end (r : string) : Prop :=
  match r with
  | EmptyString => True
  | String c _ => is_digit c = false /\ Ascii.eqb c "." = false /\
                  Ascii.eqb c "e" = false /\ Ascii.eqb c "E" = false
  end.

(** ** [render()] and [onToggleDay] of [render.js] *)

(** The listeners [render] attaches: [onToggleDay] and the keydown handler
    of a day button, and the click handlers of "Tick today" and "Delete",
    which close over the habit [h] of their row. *)
Inductive listener : Type :=
| LToggleDay
| LKeyActivate
| LTickToday (h : jsval)
| LDeleteHabit (h : jsval).

(** An element built by [render]: tag name, attributes in the order they
    were first set, [textContent] as last assigned, listeners (event type
    and handler) in the order they were added, and children. *)
Inductive elem : Type :=
| Elem (tag : string) (attrs : list (string * string)) (text : string)
       (listeners : list (string * listener)) (children : list elem).

Definition el_attrs (e : elem) : list (string * string) :=
  match e with Elem _ a _ _ _ => a end.
Definition el_text (e : elem) : string :=
  match e with Elem _ _ x _ _ => x end.
Definition el_listeners (e : elem) : list (string * listener) :=
  match e with Elem _ _ _ l _ => l end.
Definition el_children (e : elem) : list elem :=
  match e with Elem _ _ _ _ c => c end.

(** [document.createElement(tag)]. *)
Definition createElement (tag : string) : elem := Elem tag [] "" [] [].

Fixpoint set_attr (n v : string) (a : list (string * string)) : list (string * string) :=
  match a with
  | [] => [(n, v)]
  | (n', v') :: a' => if String.eqb n n' then (n, v) :: a' else (n', v') :: set_attr n v a'
  end.

(** [e.setAttribute(n, v)]. *)
Definition setAttribute (n v : string) (e : elem) : elem :=
  match e with Elem t a x l c => Elem t (set_attr n v a) x l c end.

(** [e.textContent = x]: the children are replaced by the text. *)
Definition setTextContent (x : string) (e : elem) : elem :=
  match e with Elem t a _ l _ => Elem t a x l [] end.

(** [e.addEventListener(ev, f)]. *)
Definition addEventListener (ev : string) (f : listener) (e : elem) : elem :=
  match e with Elem t a x l c => Elem t a x (l ++ [(ev, f)]) c end.

(** [parent.appendChild(child)]. *)
Definition appendChild (child : elem) (e : elem) : elem :=
  match e with Elem t a x l c => Elem t a x l (c ++ [child]) end.

Fixpoint attr_lookup (n : string) (a : list (string * string)) : option string :=
  match a with
  | [] => None
  | (n', v) :: a' => if String.eqb n n' then Some v else attr_lookup n a'
  end.

(** [e.getAttribute(n)] ([None] for [null]). *)
Definition getAttribute (n : string) (e : elem) : option string :=
  attr_lookup n (el_attrs e).

Definition is_ascii_upper (c : ascii) : bool :=
  let n := nat_of_ascii c in ((65 <=? n) && (n <=? 90))%nat.

Definition ascii_lower (c : ascii) : ascii := ascii_of_nat (nat_of_ascii c + 32).

(** The attribute behind [dataset[name]]: "data-" and the name with each
    ASCII upper case letter replaced by "-" and its lower case. *)
Fixpoint kebab (s : string) : string :=
  match s with
  | EmptyString => EmptyString
  | String c s' =>
      if is_ascii_upper c then String "-" (String (ascii_lower c) (kebab s'))
      else String c (kebab s')
  end.

Definition dataset_attr (name : string) : string := "data-" ++ kebab name.

(** [e.dataset[name] = v]. *)
Definition setDataset (name v : string) (e : elem) : elem :=
  setAttribute (dataset_attr name) v e.

(** [btn.type = t] reflects the [type] attribute. *)
Definition setType (t : string) (e : elem) : elem := setAttribute "type" t e.

(** The [textContent] setter (of IDL type [DOMString?]): [null] and
    [undefined] give the empty text, any other value its [String(v)]. *)
Definition text_of (v : jsval) : res string :=
  match v with JUndef | JNull => Ok "" | _ => js_String v end.

(** [v.length] as [render] reads it from [state.habits]. *)
Definition js_length (v : jsval) : res jsval :=
  match v with
  | JUndef | JNull => Throw TypeError
  | JArr xs => Ok (JNum (Z.of_nat (length xs)))
  | JStr s => Ok (JNum (Z.of_nat (String.length s)))
  | JObj _ => Ok (getp v "length")
  | _ => Ok JUndef
  end.

(** [v === 0]. *)
Definition strict_eq_zero (v : jsval) : bool :=
  match v with JNum n => Z.eqb n 0 | _ => false end.

Fixpoint traverse_res {A B} (f : A -> res B) (xs : list A) : res (list B) :=
  match xs with
  | [] => Ok []
  | x :: xs' => let! y := f x in let! ys := traverse_res f xs' in Ok (y :: ys)
  end.

Definition row_style : string :=
  "display:grid;grid-template-columns:1.6fr repeat(7,.9fr) .8fr 1fr;align-items:center;border-bottom:1px solid #eef2f6;".
Definition name_style : string :=
  "padding:10px;white-space:nowrap;overflow:hidden;text-overflow:ellipsis;".
Definition day_style : string := "padding:10px;text-align:center;".
Definition streak_style : string := "padding:10px;font-variant-numeric:tabular-nums;".
Definition btn_style (checked : bool) : string :=
  "display:flex;align-items:center;justify-content:center;width:36px;height:36px;margin:auto;border-radius:8px;border:1px solid #dbe7f0;cursor:pointer;user-select:none;background:"
  ++ (if checked then "#e9f8ef" else "#fff") ++ ";color:"
  ++ (if checked then "#1e9e4a" else "inherit") ++ ";font-weight:"
  ++ (if checked then "700" else "400") ++ ";".
Definition actions_style : string := "padding:10px;display:flex;gap:8px;flex-wrap:wrap;".
Definition tick_style : string :=
  "background:#fff;border:1px solid #dbe7f0;color:#0b3b58;padding:6px 10px;border-radius:8px;cursor:pointer;".
Definition del_style : string :=
  "background:#fff;border:1px solid #f2c9cd;color:#c71f23;padding:6px 10px;border-radius:8px;cursor:pointer;".
Definition placeholder_actions_style : string := "padding:10px;color:#66788a;".

(** The placeholder row drawn when there is no habit. *)
Definition placeholder_row (weekKeys : list string) : elem :=
  let row := setAttribute "style" row_style (createElement "div") in
  let nameCol := setTextContent "No habits yet"
                   (setAttribute "style" name_style (createElement "div")) in
  let row := appendChild nameCol row in
  let row := fold_left (fun row _ =>
               appendChild (setAttribute "style" day_style (createElement "div")) row)
               weekKeys row in
  let streakCol := setTextContent "0" (setAttribute "style" streak_style (createElement "div")) in
  let row := appendChild streakCol row in
  let actionsCol := setTextContent "Add a habit"
                      (setAttribute "style" placeholder_actions_style (createElement "div")) in
  appendChild actionsCol row.

(** The callback of [weekKeys.forEach(k => ...)] for the habit [h]: the day
    cell with its checkbox button. *)
Definition day_cell (h : jsval) (k : string) : res elem :=
  let col := setAttribute "style" day_style (createElement "div") in
  let btn := setType "button" (createElement "button") in
  let! hname := get_prop h "name" in
  let! label := js_String hname in
  let btn := setAttribute "aria-label" (label ++ " on " ++ k) btn in
  let btn := setAttribute "role" "checkbox" btn in
  let! hlog := get_prop h "log" in
  let! entry := get_prop hlog k in
  let checked := truthy entry in
  let btn := setAttribute "aria-checked" (if checked then "true" else "false") btn in
  let btn := setTextContent (if checked then "Yes" else "") btn in
  let! hid := get_prop h "id" in
  let! sid := js_String hid in
  let btn := setDataset "habitId" sid btn in
  let btn := setDataset "dateKey" k btn in
  let btn := setAttribute "style" (btn_style checked) btn in
  let btn := addEventListener "click" LToggleDay btn in
  let btn := addEventListener "keydown" LKeyActivate btn in
  Ok (appendChild btn col).

(** The callback of [state.habits.forEach(h => ...)]: the row of [h];
    [today] is the date [computeStreak] reads. *)
Definition habit_row (today : LocalDate) (weekKeys : list string) (h : jsval) : res elem :=
  let row := setAttribute "style" row_style (createElement "div") in
  let nameCol := setAttribute "style" name_style (createElement "div") in
  let! hname := get_prop h "name" in
  let! t := text_of hname in
  let nameCol := setTextContent t nameCol in
  let row := appendChild nameCol row in
  let! cols := traverse_res (day_cell h) weekKeys in
  let row := fold_left (fun row col => appendChild col row) cols row in
  let streakCol := setAttribute "style" streak_style (createElement "div") in
  let streakCol := setTextContent (string_of_Z (Z.of_nat (computeStreak today h))) streakCol in
  let row := appendChild streakCol row in
  let actions := setAttribute "style" actions_style (createElement "div") in
  let tick := setType "button" (createElement "button") in
  let tick := setTextContent "Tick today" tick in
  let tick := setAttribute "style" tick_style tick in
  let tick := addEventListener "click" (LTickToday h) tick in
  let del := setType "button" (createElement "button") in
  let del := setTextContent "Delete" del in
  let del := setAttribute "style" del_style del in
  let del := addEventListener "click" (LDeleteHabit h) del in
  let actions := appendChild tick actions in
  let actions := appendChild del actions in
  Ok (appendChild actions row).

(** The rows appended by [forEach] until a callback throws. *)
Fixpoint render_habits (today : LocalDate) (weekKeys : list string) (hs : list jsval)
  (acc : list elem) : list elem * option string :=
  match hs with
  | [] => (acc, None)
  | h :: hs' =>
      match habit_row today weekKeys h with
      | Ok row => render_habits today weekKeys hs' (acc ++ [row])
      | Throw e => (acc, Some e)
      end
  end.

(** [render()]: the children of the rows container afterwards ([innerHTML]
    cleared first), and the exception it throws, if any. *)
Definition render_rows (today : LocalDate) (weekKeys : list string) (state : jsval)
  : list elem * option string :=
  match get_prop state "habits" with
  | Throw e => ([], Some e)
  | Ok habits =>
      match js_length habits with
      | Throw e => ([], Some e)
      | Ok len =>
          if strict_eq_zero len then ([placeholder_row weekKeys], None)
          else match habits with
               | JArr hs => render_habits today weekKeys hs []
               | _ => ([], Some TypeError)
               end
      end
  end.

(** [onToggleDay(e)] on the button [btn] clicked: [toggleLog] with its
    [data-habit-id] and [data-date-key] attributes.  A button without them
    (which [render] never draws) is outside the model. *)
Definition onToggleDay (env : Env) (btn : elem) (app : App) : M App :=
  match getAttribute (dataset_attr "habitId") btn, getAttribute (dataset_attr "dateKey") btn with
  | Some habitId, Some dateKey => toggleLog env habitId dateKey app
  | _, _ => liftM (Throw unmodelled)
  end.

(** The day button of column [j] of a row. *)
Definition day_button (row : elem) (j : nat) : option elem :=
  match nth_error (el_children row) (S j) with
  | Some col => hd_error (el_children col)
  | None => None
  end.


(** The click handler of "Tick today": [toggleLog(h.id, todayKey())], with
    [todayKey] the key of the day of the click.  An id that is not a string
    is outside the model. *)
Definition tick_today (env : Env) (todayKey : string) (h : jsval) (app : App) : M App :=
  match getp h "id" with
  | JStr habitId => toggleLog env habitId todayKey app
  | _ => liftM (Throw unmodelled)
  end.

(** The click handler of "Delete" in [render]; [confirmed] is the answer to
    [confirm(`Delete habit "${h.name}"?`)].  It filters [state.habits] in
    place, then [saveState(state)] and [render()]. *)
Definition delete_habit (env : Env) (confirmed : bool) (h : jsval) (app : App) : M App :=
  _ <- liftM (let! n := get_prop h "name" in js_String n) ;;
  if negb confirmed then retM app
  else
    habits <- liftM (get_prop (app_state app) "habits") ;;
    match habits with
    | JArr hs =>
        nextHabits <- liftM (filter_res (fun x => let! xid := get_prop x "id" in
                                                  let! hid := get_prop h "id" in
                                                  match hid with
                                                  | JStr t => Ok (strict_neq_str xid t)
                                                  | _ => Throw unmodelled
                                                  end) hs) ;;
        let st := JObj (define "habits" (JArr nextHabits) (spread (app_state app))) in
        app1 <- saveState env st app ;;
        retM (render app1)
    | _ => liftM (Throw TypeError)
    end.

(** A listener run for a click on [target] (whose [key] is [undefined]). *)
Definition on_click (env : Env) (todayKey : string) (confirmed : bool) (target : elem)
  (f : listener) (app : App) : M App :=
  match f with
  | LToggleDay => onToggleDay env target app
  | LKeyActivate => retM app
  | LTickToday h => tick_today env todayKey h app
  | LDeleteHabit h => delete_habit env confirmed h app
  end.

Fixpoint run_click (env : Env) (todayKey : string) (confirmed : bool) (target : elem)
  (ls : list (string * listener)) (app : App) : M App :=
  match ls with
  | [] => retM app
  | (ev, f) :: ls' =>
      if String.eqb ev "click" then
        app1 <- on_click env todayKey confirmed target f app ;;
        run_click env todayKey confirmed target ls' app1
      else run_click env todayKey confirmed target ls' app
  end.

(** [target.click()]: its click listeners, in the order they were added. *)
Definition click (env : Env) (todayKey : string) (confirmed : bool) (target : elem)
  (app : App) : M App :=
  run_click env todayKey confirmed target (el_listeners target) app.

(** A listener run for a key press [key] on [target]: the keydown handler
    of a day button clicks it on Space or Enter. *)
Definition on_keydown (env : Env) (todayKey : string) (confirmed : bool) (key : string)
  (target : elem) (f : listener) (app : App) : M App :=
  match f with
  | LKeyActivate =>
      if String.eqb key " " || String.eqb key "Enter"
      then click env todayKey confirmed target app
      else retM app
  | _ => on_click env todayKey confirmed target f app
  end.

Fixpoint run_keydown (env : Env) (todayKey : string) (confirmed : bool) (key : string)
  (target : elem) (ls : list (string * listener)) (app : App) : M App :=
  match ls with
  | [] => retM app
  | (ev, f) :: ls' =>
      if String.eqb ev "keydown" then
        app1 <- on_keydown env todayKey confirmed key target f app ;;
        run_keydown env todayKey confirmed key target ls' app1
      else run_keydown env todayKey confirmed key target ls' app
  end.

(** A key press [key] on [target]. *)
Definition keydown (env : Env) (todayKey : string) (confirmed : bool) (key : string)
  (target : elem) (app : App) : M App :=
  run_keydown env todayKey confirmed key target (el_listeners target) app.

(** An element and all the elements below it. *)
Fixpoint subtree (e : elem) : list elem :=
  match e with
  | Elem _ _ _ _ c =>
      e :: (fix subs (c : list elem) : list elem :=
              match c with [] => [] | x :: c' => (subtree x ++ subs c')%list end) c
  end.

(** The habit object with the fields of a normalised habit. *)
Definition habit_obj (i n : string) (lps : list (string * jsval)) : jsval :=
  JObj [("id", JStr i); ("name", JStr n); ("log", JObj lps)].

(** The day button [render] draws for a normalised habit and the key [k]. *)
Definition norm_day_button (i n : string) (lps : list (string * jsval)) (k : string) : elem :=
  let checked := truthy (getp (JObj lps) k) in
  Elem "button" [("type", "button"); ("aria-label", n ++ " on " ++ k); ("role", "checkbox");
                 ("aria-checked", if checked then "true" else "false");
                 ("data-habit-id", i); ("data-date-key", k); ("style", btn_style checked)]
       (if checked then "Yes" else "") [("click", LToggleDay); ("keydown", LKeyActivate)] [].

(** The row [render] draws for a normalised habit. *)
Definition norm_row (today : LocalDate) (weekKeys : list string) (i n : string)
  (lps : list (string * jsval)) : elem :=
  let h := habit_obj i n lps in
  Elem "div" [("style", row_style)] "" []
    (Elem "div" [("style", name_style)] n [] []
     :: (map (fun k => Elem "div" [("style", day_style)] "" [] [norm_day_button i n lps k]) weekKeys
     ++ [Elem "div" [("style", streak_style)] (string_of_Z (Z.of_nat (computeStreak today h))) [] [];
         Elem "div" [("style", actions_style)] "" []
           [Elem "button" [("type", "button"); ("style", tick_style)] "Tick today"
                 [("click", LTickToday h)] [];
            Elem "button" [("type", "button"); ("style", del_style)] "Delete"
                 [("click", LDeleteHabit h)] []]])%list).

(** The row [render] draws for [h] (an empty [div] when drawing it throws). *)
Definition row_of (today : LocalDate) (weekKeys : list string) (h : jsval) : elem :=
  match habit_row today weekKeys h with Ok r => r | Throw _ => createElement "div" end.

(** The button [m] of the last column of a row: "Tick today" (0) and
    "Delete" (1). *)
Definition action_button (row : elem) (m : nat) : option elem :=
  match last (map Some (el_children row)) None with
  | Some col => nth_error (el_children col) m
  | None => None
  end.

(** No attribute matched by the selectors of the row click handler of
    [src/events.js]. *)
Definition no_selector_attr (x : elem) : Prop :=
  getAttribute "data-day-key" x = None /\ getAttribute "data-action" x = None.

(** ** [buildWeek] and [todayKey] of [state.js] *)

(** [buildWeek()]: [for (let offset = 6; offset >= 0; offset--)], each key
    [toKey(d)] of [d = new Date(today); d.setDate(today.getDate() - offset)]
    pushed on [keys]. *)
Fixpoint buildWeek_loop (today : LocalDate) (offset : nat) (keys : list string) : list string :=
  let keys := (keys ++ [day_key today offset])%list in
  match offset with
  | O => keys
  | S offset' => buildWeek_loop today offset' keys
  end.

Definition buildWeek (today : LocalDate) : list string := buildWeek_loop today 6 [].

(** [todayKey()]: [toKey(new Date())]. *)
Definition todayKey (today : LocalDate) : string := toKey today.

(** The part of [civil_from_days] below one era of 400 years: the day
    [doe] of the era gives a year of the era, a month index and a date in
    range. *)
Definition civil_doe_ok (doe : Z) : bool :=
  (let yoe := Z.div (doe - Z.div doe 1460 + Z.div doe 36524 - Z.div doe 146096) 365 in
  let doy := doe - (365 * yoe + Z.div yoe 4 - Z.div yoe 100) in
  let mp := Z.div (5 * doy + 2) 153 in
  let d := doy - Z.div (153 * mp + 2) 5 + 1 in
  (0 <=? yoe) && (yoe <? 400) && (0 <=? mp) && (mp <? 12) && (1 <=? d) && (d <=? 31))%Z.

(** [f] holds on every day [0 <= doe < 146097] of an era, checked in
    blocks of 365 days. *)
Definition check_era (f : Z -> bool) : bool :=
  forallb (fun a => forallb (fun b =>
    let doe := (365 * Z.of_nat a + Z.of_nat b)%Z in
    (146097 <=? doe)%Z || f doe) (seq 0 365)) (seq 0 401).

(** The text of [toKey] after the year. *)
Definition key_suffix (m d : Z) : string :=
  "-" ++ pad2 (string_of_Z (m + 1)%Z) ++ "-" ++ pad2 (string_of_Z d).

Definition months_Z : list Z := map Z.of_nat (seq 0 12).
Definition dates_Z : list Z := map Z.of_nat (seq 1 31).

Definition all2 (ms ds : list Z) (p : Z -> Z -> bool) : bool :=
  forallb (fun m => forallb (fun d => p m d) ds) ms.

(** Reads back the text of [string_of_Z]. *)
Definition Z_of_string (s : string) : option Z :=
  match s with
  | String c r =>
      if Ascii.eqb c "-" then option_map (fun d => Z.opp (Z.of_N (N.of_uint d))) (uint_of_digits r)
      else option_map (fun d => Z.of_N (N.of_uint d)) (uint_of_digits s)
  | EmptyString => option_map (fun d => Z.of_N (N.of_uint d)) (uint_of_digits s)
  end.

(** ** Examples *)

Example normalize_ex1 :
  normalizeState env_node
    (JObj [("habits", JArr [JNull; JObj [("id", JNum 7); ("name", JStr "  Run ");
                                          ("log", JArr [])]])]) 0
  = Ok (JObj [("habits", JArr [
          JObj [("id", JStr "habit-1700000000000-0"); ("name", JStr "Untitled habit");
                ("log", JObj [])];
          JObj [("id", JStr "7"); ("name", JStr "Run"); ("log", JObj [])]])], 1%nat).
Proof. reflexivity. Qed.

Example json_roundtrip_ex :
  let v := JObj [("a", JArr [JNum 1; JNum (-20); JBool true; JNull; JStr "x"]);
                 ("b", JObj []); ("c", JStr (String dq (String (ascii_of_nat 7) "\/")))] in
  match json_stringify v with Some t => json_parse t = Ok v | None => False end.
Proof. vm_compute. reflexivity. Qed.

(** Texts that are not JSON, and JSON texts outside the model. *)
Example json_parse_failures :
  json_parse "oops" = Throw SyntaxError /\ json_parse "[1,]" = Throw SyntaxError /\
  json_parse "01" = Throw SyntaxError /\ json_parse "1." = Throw SyntaxError /\
  json_parse "-" = Throw SyntaxError /\ json_parse "" = Throw SyntaxError /\
  json_parse ("{" ++ json_quote "habits" ++ ":[0.5]}") = Throw unmodelled /\
  json_parse "1e3" = Throw unmodelled /\ json_parse "-0" = Throw unmodelled /\
  json_parse "9007199254740993" = Throw unmodelled /\
  json_parse (String dq (String bslash ("u0100" ++ String dq ""))) = Throw unmodelled /\
  json_parse "-9007199254740992" = Ok (JNum (-9007199254740992)) /\
  json_parse (String dq (String bslash ("u00e9" ++ String dq ""))) = Ok (JStr (String (ascii_of_nat 233) "")).
Proof. vm_compute. repeat split. Qed.

Example day_key_ex :
  map (day_key date_2024_03_01) [0; 1; 2; 61]%nat
  = ["2024-03-01"; "2024-02-29"; "2024-02-28"; "2023-12-31"].
Proof. reflexivity. Qed.

(** The week of two days, and the row and the day button [render] draws for
    the first habit of [app_two_habits]. *)
Definition week_ex : list string := ["2024-02-29"; "2024-03-01"].
Definition row_ex : elem :=
  norm_row date_2024_03_01 week_ex "a" "Water" [("2024-03-01", JBool true)].
Definition day_button_ex : elem :=
  norm_day_button "a" "Water" [("2024-03-01", JBool true)] "2024-03-01".

(** ** Lemmas on the primitives *)

Lemma ltrim_head : forall s c r, ltrim s = String c r -> is_js_space c = false.
Proof.
  induction s as [|c0 s IH]; simpl; intros c r H; [discriminate|].
  destruct (is_js_space c0) eqn:E; [eauto|].
  injection H as <- _; exact E.
Qed.

Lemma rtrim_idem : forall s, rtrim (rtrim s) = rtrim s.
Proof.
  induction s as [|c s IH]; simpl; [reflexivity|].
  destruct (is_js_space c && String.eqb (rtrim s) "") eqn:E; [reflexivity|].
  simpl. rewrite IH, E. reflexivity.
Qed.

Lemma ltrim_rtrim_nospace : forall t,
  (forall c r, t = String c r -> is_js_space c = false) ->
  ltrim (rtrim t) = rtrim t.
Proof.
  intros [|c r] H; simpl; [reflexivity|].
  rewrite (H c r eq_refl); simpl.
  destruct (String.eqb (rtrim r) ""); simpl; rewrite (H c r eq_refl); reflexivity.
Qed.

Lemma trim_idem : forall s, trim (trim s) = trim s.
Proof.
  intro s. unfold trim.
  rewrite ltrim_rtrim_nospace by (intros c r H; exact (ltrim_head s c r H)).
  apply rtrim_idem.
Qed.

Lemma eqb_refl_string : forall s, String.eqb s s = true.
Proof. intro s. apply String.eqb_refl. Qed.

Lemma fresh_id_spec : forall env index k s k',
  fresh_id env index k = Ok (s, k') ->
  k' = S k /\ String.eqb s "" = false /\
  s = fresh_value env index k.
Proof.
  unfold fresh_id, bindM, draw, retM; intros env index k s k' H.
  injection H as <- <-. split; [reflexivity|]. split; [|reflexivity].
  unfold fresh_value. destruct (env_crypto env); reflexivity.
Qed.

(** ** Shape of the result of [normalizeState] *)

Lemma habit_id_spec : forall env index h j id j',
  habit_id env index h j = Ok (id, j') ->
  String.eqb id "" = false /\
  (forall sid, truthy h = true -> truthy (getp h "id") = true ->
     js_String (getp h "id") = Ok sid -> String.eqb sid "" = false -> id = sid) /\
  ((truthy h = false \/ truthy (getp h "id") = false \/ js_String (getp h "id") = Ok "") ->
     id = fresh_value env index j).
Proof.
  intros env index h j id j' Hk. unfold habit_id in Hk.
  destruct (truthy h) eqn:Eh; [destruct (truthy (getp h "id")) eqn:Ei|]; cbn [andb] in Hk.
  - unfold bindM, liftM in Hk. destruct (js_String (getp h "id")) as [s|e] eqn:Es; [|discriminate].
    destruct (String.eqb s "") eqn:E.
    + apply fresh_id_spec in Hk as (_ & Hne & Hv).
      apply String.eqb_eq in E. subst s.
      split; [exact Hne|]. split; [intros sid _ _ Hs Hsid; injection Hs as <-; discriminate|].
      intros _; exact Hv.
    + unfold retM in Hk. injection Hk as <- _.
      split; [exact E|]. split; [intros sid _ _ Hs _; injection Hs as <-; reflexivity|].
      intros [H|[H|H]]; [discriminate|discriminate|injection H as ->; discriminate].
  - apply fresh_id_spec in Hk as (_ & Hne & Hv).
    split; [exact Hne|]. split; [intros sid _ H; discriminate|]. intros _; exact Hv.
  - apply fresh_id_spec in Hk as (_ & Hne & Hv).
    split; [exact Hne|]. split; [intros sid H; discriminate|]. intros _; exact Hv.
Qed.

Lemma habit_name_spec : forall h,
  String.eqb (habit_name h) "" = false /\ trim (habit_name h) = habit_name h.
Proof.
  intro h. unfold habit_name.
  destruct (truthy h); [|split; reflexivity].
  destruct (getp h "name") as [| | | |nm| |]; try (split; reflexivity).
  destruct (String.eqb (trim nm) "") eqn:Es; [split; reflexivity|].
  split; [exact Es|apply trim_idem].
Qed.

Lemma habit_log_obj : forall h, exists ps, habit_log h = JObj ps.
Proof. intro h. unfold habit_log. destruct (_ && _); eauto. Qed.

Lemma normalize_habit_ok : forall env index h j h' j',
  normalize_habit env index h j = Ok (h', j') ->
  exists id, habit_id env index h j = Ok (id, j') /\
    h' = JObj [("id", JStr id); ("name", JStr (habit_name h)); ("log", habit_log h)].
Proof.
  intros env index h j h' j' H. unfold normalize_habit, bindM in H.
  destruct (habit_id env index h j) as [[id j1]|e]; [|discriminate].
  unfold retM in H. injection H as <- <-. eauto.
Qed.

Lemma normalize_habit_normalized : forall env index h k h' k',
  normalize_habit env index h k = Ok (h', k') -> normalized_habit h' = true.
Proof.
  intros env index h k h' k' H.
  apply normalize_habit_ok in H as (id & Hid & ->).
  apply habit_id_spec in Hid as (Hne & _).
  destruct (habit_log_obj h) as [ps Hps]. destruct (habit_name_spec h) as [Hn Ht].
  cbn [normalized_habit]. rewrite Hps, Hne, Hn, Ht, !eqb_refl_string. reflexivity.
Qed.

Lemma normalized_habit_inv : forall h, normalized_habit h = true ->
  exists i n ps, h = JObj [("id", JStr i); ("name", JStr n); ("log", JObj ps)]
    /\ String.eqb i "" = false /\ String.eqb n "" = false /\ trim n = n.
Proof.
  intros h H.
  destruct h as [| | | | | |props]; try discriminate.
  destruct props as [|[ki vi] props]; try discriminate.
  destruct vi as [| | | |i| |]; try discriminate.
  destruct props as [|[kn vn] props]; try discriminate.
  destruct vn as [| | | |n| |]; try discriminate.
  destruct props as [|[kl vl] props]; try discriminate.
  destruct vl as [| | | | | |ps]; try discriminate.
  destruct props; try discriminate.
  simpl in H. repeat rewrite andb_true_iff in H.
  destruct H as [[[[[Hi Hn] Hl] Hi'] Hn'] Ht].
  apply String.eqb_eq in Hi, Hn, Hl, Ht. subst.
  exists i, n, ps. apply negb_true_iff in Hi', Hn'. auto.
Qed.

Lemma normalize_habit_fixed : forall env index h k,
  normalized_habit h = true -> normalize_habit env index h k = Ok (h, k).
Proof.
  intros env index h k H.
  destruct (normalized_habit_inv h H) as (i & n & ps & -> & Hi & Hn & Ht).
  unfold normalize_habit, habit_id, habit_name, habit_log, bindM, liftM, retM.
  cbn. rewrite Hi. cbn. rewrite ?Hi, ?Ht, ?Hn. reflexivity.
Qed.

Lemma map_index_normalized : forall env xs index k ys k',
  map_index (normalize_habit env) index xs k = Ok (ys, k') ->
  forallb normalized_habit ys = true.
Proof.
  induction xs as [|x xs IH]; simpl; intros index k ys k' H.
  - injection H as <- _. reflexivity.
  - unfold bindM at 1 in H.
    destruct (normalize_habit env index x k) as [[y k1]|e] eqn:E; [|discriminate].
    unfold bindM in H.
    destruct (map_index (normalize_habit env) (S index) xs k1) as [[ys' k2]|e] eqn:E'; [|discriminate].
    unfold retM in H. injection H as <- _. simpl.
    rewrite (normalize_habit_normalized _ _ _ _ _ _ E). simpl. eapply IH; eauto.
Qed.

Lemma map_index_fixed : forall env xs index k,
  forallb normalized_habit xs = true ->
  map_index (normalize_habit env) index xs k = Ok (xs, k).
Proof.
  induction xs as [|x xs IH]; simpl; intros index k H; [reflexivity|].
  apply andb_true_iff in H as [Hx Hxs].
  unfold bindM. rewrite normalize_habit_fixed by exact Hx.
  rewrite IH by exact Hxs. reflexivity.
Qed.

(** Whatever [normalizeState] returns is in normalised shape. *)
Lemma normalizeState_normalized : forall env x k s k',
  normalizeState env x k = Ok (s, k') -> normalized_state s = true.
Proof.
  intros env x k s k' H. unfold normalizeState, bindM in H.
  match type of H with
  | context [match ?m k with _ => _ end] => destruct (m k) as [[hs k1]|e] eqn:E
  end; [|discriminate].
  unfold retM in H. injection H as <- _. simpl.
  eapply map_index_normalized; eauto.
Qed.

(** A state in normalised shape is a fixed point, and draws no fresh id. *)
Lemma normalizeState_fixed : forall env s k,
  normalized_state s = true -> normalizeState env s k = Ok (s, k).
Proof.
  intros env s k H.
  destruct s as [| | | | | |props]; try discriminate.
  destruct props as [|[kh vh] props]; try discriminate.
  destruct vh as [| | | | |hs|]; try discriminate.
  destruct props; try discriminate.
  simpl in H. apply andb_true_iff in H as [Hk Hhs].
  apply String.eqb_eq in Hk. subst kh.
  unfold normalizeState, habits_input. cbn -[map_index].
  unfold bindM. rewrite map_index_fixed by exact Hhs. reflexivity.
Qed.

(** ** The streak loop *)

Lemma streak_loop_spec : forall log today fuel i streak,
  let r := streak_loop log today i streak fuel in
  (streak <= r <= streak + fuel)%nat /\
  (forall j, (i <= j < i + (r - streak))%nat ->
     truthy (getp log (day_key today j)) = true) /\
  ((r - streak < fuel)%nat ->
     truthy (getp log (day_key today (i + (r - streak)))) = false).
Proof.
  induction fuel as [|fuel IH]; intros i streak; simpl.
  - split; [lia|]. split; [intros j Hj; lia|]. intro H; lia.
  - destruct (truthy (getp log (day_key today i))) eqn:E.
    + destruct (IH (S i) (S streak)) as [Hb [Hall Hstop]].
      set (r := streak_loop log today (S i) (S streak) fuel) in *.
      split; [lia|]. split.
      * intros j Hj. destruct (Nat.eq_dec j i) as [->|Hne]; [exact E|].
        apply Hall. lia.
      * intro Hlt. replace (i + (r - streak))%nat with (S i + (r - S streak))%nat by lia.
        apply Hstop. lia.
    + split; [lia|]. split; [intros j Hj; lia|].
      intros _. rewrite Nat.sub_diag, Nat.add_0_r. exact E.
Qed.

Lemma streak_loop_full : forall log today fuel i streak,
  (forall j, (i <= j < i + fuel)%nat -> truthy (getp log (day_key today j)) = true) ->
  streak_loop log today i streak fuel = (streak + fuel)%nat.
Proof.
  induction fuel as [|fuel IH]; intros i streak H; simpl; [lia|].
  rewrite H by lia. rewrite IH by (intros j Hj; apply H; lia). lia.
Qed.

Lemma getp_log_truthy : forall h key,
  truthy (getp (getp h "log") key) = true -> truthy h = true /\ truthy (getp h "log") = true.
Proof.
  intros h key H. destruct h; try discriminate.
  split; [reflexivity|]. destruct (getp (JObj props) "log"); try discriminate; reflexivity.
Qed.

Lemma forall_lt_of_forallb : forall (P : nat -> bool) n,
  forallb P (seq 0 n) = true -> forall i, (i < n)%nat -> P i = true.
Proof.
  intros P n H i Hi. rewrite forallb_forall in H. apply H.
  apply in_seq. lia.
Qed.

Lemma map_index_entries : forall env xs index k ys k',
  map_index (normalize_habit env) index xs k = Ok (ys, k') ->
  length ys = length xs /\
  forall i y, nth_error ys i = Some y ->
    exists x j j', nth_error xs i = Some x /\
      normalize_habit env (index + i) x j = Ok (y, j').
Proof.
  induction xs as [|x xs IH]; simpl; intros index k ys k' H.
  - injection H as <- _. split; [reflexivity|]. intros [|i] y Hy; discriminate.
  - unfold bindM at 1 in H.
    destruct (normalize_habit env index x k) as [[y k1]|e] eqn:E; [|discriminate].
    unfold bindM in H.
    destruct (map_index (normalize_habit env) (S index) xs k1) as [[ys' k2]|e] eqn:E'; [|discriminate].
    unfold retM in H. injection H as <- _.
    destruct (IH _ _ _ _ E') as [Hlen Hall].
    split; [simpl; congruence|].
    intros [|i] z Hz; simpl in Hz.
    + injection Hz as <-. exists x, k, k1. rewrite Nat.add_0_r. auto.
    + destruct (Hall i z Hz) as (x' & j & j' & Hx & Hn).
      exists x', j, j'. split; [exact Hx|]. rewrite <- Nat.add_succ_comm. exact Hn.
Qed.

(** When [normalizeState] returns, its [i]-th habit is the [i]-th input
    entry normalised with index [i]. *)
Lemma normalizeState_entries : forall env x k s k',
  normalizeState env x k = Ok (s, k') ->
  s = JObj [("habits", JArr (habits_of s))] /\
  length (habits_of s) = length (habits_input x) /\
  forall i h', nth_error (habits_of s) i = Some h' ->
    exists h j j', nth_error (habits_input x) i = Some h /\
      normalize_habit env i h j = Ok (h', j').
Proof.
  intros env x k s k' H. unfold normalizeState, bindM in H.
  destruct (map_index (normalize_habit env) 0 (habits_input x) k) as [[hs k1]|e] eqn:E;
    [|discriminate].
  unfold retM in H. injection H as <- _.
  apply map_index_entries in E as [Hlen Hall].
  split; [reflexivity|]. split; [exact Hlen|]. exact Hall.
Qed.

(** ** The day-cell toggle *)

Lemma lookup_define : forall d k v ps,
  lookup d (define k v ps) = if String.eqb d k then Some v else lookup d ps.
Proof.
  intros d k v ps. induction ps as [|[k' v'] ps IH]; simpl.
  - reflexivity.
  - destruct (String.eqb k k') eqn:E; simpl.
    + apply String.eqb_eq in E. subst k'. destruct (String.eqb d k); reflexivity.
    + rewrite IH. destruct (String.eqb d k) eqn:Ed; [|reflexivity].
      apply String.eqb_eq in Ed. subst d. rewrite E. reflexivity.
Qed.

Lemma lookup_plain_set_bool : forall d k b ps, d <> k ->
  lookup d (plain_set_bool k b ps) = lookup d ps.
Proof.
  intros d k b ps Hd. apply String.eqb_neq in Hd. unfold plain_set_bool.
  destruct (lookup k ps); [|destruct (String.eqb k "__proto__")];
    rewrite ?lookup_define, ?Hd; reflexivity.
Qed.

Lemma plain_set_bool_own : forall k b ps, is_proto_key k = false ->
  plain_set_bool k b ps = define k (JBool b) ps.
Proof.
  intros k b ps H. unfold plain_set_bool.
  destruct (lookup k ps); [reflexivity|].
  destruct (String.eqb k "__proto__") eqn:E; [|reflexivity].
  apply String.eqb_eq in E. subst k. discriminate.
Qed.

Lemma plain_truthy_own : forall ps k, is_proto_key k = false ->
  plain_truthy ps k = truthy (getp (JObj ps) k).
Proof.
  intros ps k H. unfold plain_truthy. simpl. destruct (lookup k ps); [reflexivity|]. exact H.
Qed.

Lemma toggle_habit_normalized : forall habitId dayKey h,
  normalized_habit h = true ->
  exists h', toggle_habit habitId dayKey h = Ok h' /\ normalized_habit h' = true /\
    toggled_only habitId dayKey h h'.
Proof.
  intros habitId dayKey h Hh.
  destruct (normalized_habit_inv h Hh) as (i & n & ps & -> & Hi & Hn & Ht).
  unfold toggle_habit. cbn [get_prop getp lookup bind].
  cbn [String.eqb Ascii.eqb Bool.eqb andb].
  destruct (strict_neq_str (JStr i) habitId) eqn:E.
  - exists (JObj [("id", JStr i); ("name", JStr n); ("log", JObj ps)]).
    split; [reflexivity|]. split; [exact Hh|].
    split; [auto|]. split; [reflexivity|]. split; [reflexivity|]. auto.
  - simpl in E. apply negb_false_iff, String.eqb_eq in E. subst habitId.
    eexists. split; [reflexivity|]. split.
    + cbn. rewrite Hi, Hn, Ht, eqb_refl_string. reflexivity.
    + split; [intro C; exfalso; apply C; reflexivity|].
      split; [reflexivity|]. split; [reflexivity|].
      intros d Hd. cbn -[plain_set_bool]. rewrite lookup_plain_set_bool by exact Hd.
      reflexivity.
Qed.

Lemma map_res_toggle : forall habitId dayKey hs,
  forallb normalized_habit hs = true ->
  exists hs', map_res (toggle_habit habitId dayKey) hs = Ok hs' /\
    forallb normalized_habit hs' = true /\ length hs' = length hs /\
    forall i h h', nth_error hs i = Some h -> nth_error hs' i = Some h' ->
      toggled_only habitId dayKey h h'.
Proof.
  intros habitId dayKey hs. induction hs as [|h hs IH]; simpl; intro H.
  - exists []. split; [reflexivity|]. split; [reflexivity|]. split; [reflexivity|].
    intros [|i] h h' Hh; discriminate.
  - apply andb_true_iff in H as [Hh Hhs].
    destruct (toggle_habit_normalized habitId dayKey h Hh) as (h' & E & Hn & Hf).
    destruct (IH Hhs) as (hs' & E' & Hn' & Hlen & Hall).
    exists (h' :: hs'). rewrite E. simpl. rewrite E'. simpl.
    split; [reflexivity|]. split; [rewrite Hn, Hn'; reflexivity|].
    split; [simpl; congruence|].
    intros [|i] g g' Hg Hg'; simpl in Hg, Hg'.
    + injection Hg as <-. injection Hg' as <-. exact Hf.
    + eauto.
Qed.

(** ** JSON round trip *)

Lemma sapp_assoc : forall a b c : string, (a ++ b) ++ c = a ++ (b ++ c).
Proof. induction a as [|x a IH]; intros b c; simpl; [reflexivity|]. rewrite IH. reflexivity. Qed.

Lemma sapp_nil_r : forall a : string, a ++ "" = a.
Proof. induction a as [|x a IH]; simpl; [reflexivity|]. rewrite IH. reflexivity. Qed.

Lemma slen_app : forall a b : string, String.length (a ++ b) = (String.length a + String.length b)%nat.
Proof. induction a as [|x a IH]; intros b; simpl; [reflexivity|]. rewrite IH. reflexivity. Qed.

Lemma json_ok_arr : forall xs, json_ok (JArr xs) = forallb json_ok xs.
Proof.
  induction xs as [|x xs IH]; [reflexivity|].
  simpl in IH |- *. rewrite IH. reflexivity.
Qed.

Lemma json_ok_obj : forall ps,
  json_ok (JObj ps) = nodup_str (map fst ps) && forallb (fun kv => json_ok (snd kv)) ps.
Proof.
  intros ps. simpl. f_equal.
  induction ps as [|[k x] ps IH]; [reflexivity|]. simpl. rewrite IH. reflexivity.
Qed.

Lemma jsize_arr : forall xs,
  jsize (JArr xs) = S (list_sum (map (fun x => S (jsize x)) xs)).
Proof.
  intros xs. simpl. f_equal.
  induction xs as [|x xs IH]; [reflexivity|]. simpl. rewrite IH. reflexivity.
Qed.

Lemma jsize_obj : forall ps,
  jsize (JObj ps) = S (list_sum (map (fun kv => S (jsize (snd kv))) ps)).
Proof.
  intros ps. simpl. f_equal.
  induction ps as [|[k x] ps IH]; [reflexivity|]. simpl. rewrite IH. reflexivity.
Qed.

Lemma jsize_pos : forall v, (1 <= jsize v)%nat.
Proof. destruct v; simpl; lia. Qed.

Lemma stringify_arr : forall xs,
  json_stringify (JArr xs) = Some ("[" ++ String.concat "," (map ser_total xs) ++ "]").
Proof.
  reflexivity.
Qed.

Lemma stringify_obj : forall ps,
  forallb (fun kv => json_ok (snd kv)) ps = true ->
  json_stringify (JObj ps)
  = Some ("{" ++ String.concat "," (map (fun kv => json_member (fst kv) (snd kv)) ps) ++ "}").
Proof.
  intros ps H. cbn [json_stringify].
  match goal with |- context [String.concat "," (?F ps)] => set (G := F) end.
  enough (E : G ps = map (fun kv => json_member (fst kv) (snd kv)) ps)
    by (rewrite E; reflexivity).
  induction ps as [|[k x] ps IH]; [reflexivity|].
  simpl in H. apply andb_true_iff in H as [Hx H].
  change (G ((k, x) :: ps)) with
    (match json_stringify x with
     | Some t => (json_quote k ++ ":" ++ t) :: G ps | None => G ps end).
  rewrite IH by exact H.
  destruct x as [| |[]| | | |]; try discriminate; reflexivity.
Qed.

Lemma parse_str_quote_char : forall c t,
  parse_str_body (json_quote_char c ++ t)
  = match parse_str_body t with Some (u, r) => Some (String c u, r) | None => None end.
Proof. intros c t. destruct c as [[] [] [] [] [] [] [] []]; reflexivity. Qed.

Lemma parse_str_quote_body : forall s r,
  parse_str_body (json_quote_body s ++ String dq r) = Some (s, r).
Proof.
  induction s as [|c s IH]; intros r; [reflexivity|].
  simpl json_quote_body. rewrite sapp_assoc, parse_str_quote_char, IH. reflexivity.
Qed.

Lemma rest_ok_cases : forall r, rest_ok r = true ->
  r = "" \/ exists c r', r = String c r' /\ (c = ","%char \/ c = "]"%char \/ c = "}"%char).
Proof.
  intros [|c r] H; [left; reflexivity|right; exists c, r; split; [reflexivity|]].
  simpl in H. apply orb_true_iff in H as [H|H]; [apply orb_true_iff in H as [H|H]|];
  apply Ascii.eqb_eq in H; auto.
Qed.

Lemma take_digits_uint : forall d r, rest_ok r = true ->
  take_digits (string_of_uint d ++ r) = (string_of_uint d, r).
Proof.
  induction d; intros r Hr; simpl; try (rewrite IHd by exact Hr; reflexivity).
  destruct (rest_ok_cases r Hr) as [->|(c & r' & -> & [->|[->| ->]])]; reflexivity.
Qed.

Lemma uint_of_digits_uint : forall d, uint_of_digits (string_of_uint d) = Some d.
Proof. induction d; simpl; try rewrite IHd; reflexivity. Qed.

Lemma to_uint_not_nil : forall m, N.to_uint m <> Decimal.Nil.
Proof.
  intros m E. pose proof (DecimalN.Unsigned.of_to m) as H.
  rewrite E in H. simpl in H. subst m. discriminate.
Qed.

Lemma parse_number_N : forall (neg : bool) m r, rest_ok r = true -> num_in_model neg m = true ->
  parse_number ((if neg then "-" else "") ++ string_of_N m ++ r)
  = Some (JNum (if neg then Z.opp (Z.of_N m) else Z.of_N m), r).
Proof.
  intros neg m r Hr Hin. unfold parse_number.
  assert (Hm := DecimalN.Unsigned.of_to m).
  assert (Hd := to_uint_not_nil m).
  unfold string_of_N. remember (N.to_uint m) as d eqn:Ed.
  assert (Hs : match string_of_uint d ++ r with
               | String c _ => Ascii.eqb c "-" | EmptyString => false end = false).
  { destruct d; [contradiction|..]; reflexivity. }
  assert (Hne : String.eqb (string_of_uint d) "" = false).
  { destruct d; [contradiction|..]; reflexivity. }
  assert (Hfirst : match (if neg then "-" else "") ++ string_of_uint d ++ r with
            | String c s' => if Ascii.eqb c "-" then (true, s')
                             else (false, (if neg then "-" else "") ++ string_of_uint d ++ r)
            | EmptyString => (false, (if neg then "-" else "") ++ string_of_uint d ++ r)
            end = (neg, string_of_uint d ++ r)).
  { destruct neg; [reflexivity|]. simpl.
    destruct (string_of_uint d ++ r) as [|c s'] eqn:E; [reflexivity|].
    rewrite Hs. reflexivity. }
  rewrite Hfirst. cbv beta iota.
  rewrite take_digits_uint by exact Hr. cbv beta iota.
  rewrite uint_of_digits_uint. cbv beta iota zeta.
  rewrite Hm, <- Ed, Hne, String.eqb_refl, Hin. cbn [orb negb].
  destruct (rest_ok_cases r Hr) as [->|(c & r' & -> & [->|[->| ->]])]; reflexivity.
Qed.

Lemma pv_uint : forall f d r, d <> Decimal.Nil ->
  parse_value (S f) (string_of_uint d ++ r) = parse_number (string_of_uint d ++ r).
Proof. intros f d r H. destruct d; [contradiction|..]; reflexivity. Qed.

Lemma pv_num : forall f n r, rest_ok r = true -> Z.leb (Z.abs n) exact_int_bound = true ->
  parse_value (S f) (string_of_Z n ++ r) = Some (JNum n, r).
Proof.
  intros f n r Hr Hb. destruct n as [|p|p].
  - exact (parse_number_N false 0 r Hr eq_refl).
  - simpl string_of_Z. unfold string_of_N at 1.
    rewrite pv_uint by apply to_uint_not_nil.
    exact (parse_number_N false (Npos p) r Hr Hb).
  - simpl string_of_Z.
    change (parse_value (S f) (String "-" (string_of_N (Npos p) ++ r))
            = Some (JNum (Zneg p), r)).
    exact (parse_number_N true (Npos p) r Hr Hb).
Qed.

Lemma pv_str : forall f s r,
  parse_value (S f) (json_quote s ++ r) = Some (JStr s, r).
Proof.
  intros f s r. unfold json_quote. cbn [String.append].
  rewrite sapp_assoc. cbn [String.append].
  change (parse_value (S f) (String dq (json_quote_body s ++ String dq r)))
    with (match parse_str_body (json_quote_body s ++ String dq r) with
          | Some (t, r') => Some (JStr t, r') | None => None end).
  rewrite parse_str_quote_body. reflexivity.
Qed.

Lemma sconcat_cons : forall sep a l,
  String.concat sep (a :: l)
  = a ++ match l with [] => "" | _ => sep ++ String.concat sep l end.
Proof. intros sep a [|b l]; simpl; [symmetry; apply sapp_nil_r|reflexivity]. Qed.

Lemma string_of_uint_head : forall d, d <> Decimal.Nil ->
  exists c s, string_of_uint d = String c s /\
  is_json_ws c = false /\ Ascii.eqb c "]" = false /\ Ascii.eqb c "}" = false.
Proof.
  intros d H. destruct d; [contradiction|..];
    (eexists; eexists; split; [reflexivity|]; repeat split; reflexivity).
Qed.

(** The first character of a value's JSON text opens a token. *)
Lemma ser_head : forall v, exists c s, ser_total v = String c s /\
  is_json_ws c = false /\ Ascii.eqb c "]" = false /\ Ascii.eqb c "}" = false.
Proof.
  intros v. destruct v as [| | |[|p|p]|s|xs|ps].
  - eexists; eexists; split; [reflexivity|]; repeat split; reflexivity.
  - eexists; eexists; split; [reflexivity|]; repeat split; reflexivity.
  - destruct b; (eexists; eexists; split; [reflexivity|]; repeat split; reflexivity).
  - eexists; eexists; split; [reflexivity|]; repeat split; reflexivity.
  - exact (string_of_uint_head _ (to_uint_not_nil (Npos p))).
  - eexists; eexists; split; [reflexivity|]; repeat split; reflexivity.
  - eexists; eexists; split; [reflexivity|]; repeat split; reflexivity.
  - unfold ser_total. rewrite stringify_arr.
    eexists; eexists; split; [reflexivity|]; repeat split; reflexivity.
  - eexists; eexists; split; [reflexivity|]; repeat split; reflexivity.
Qed.

Lemma define_fresh : forall k v acc,
  existsb (String.eqb k) (map fst acc) = false -> define k v acc = (acc ++ [(k, v)])%list.
Proof.
  intros k v acc. induction acc as [|[k' v'] acc IH]; simpl; intro H; [reflexivity|].
  apply orb_false_iff in H as [H1 H2]. rewrite H1, IH by exact H2. reflexivity.
Qed.

Lemma nodup_str_app_cons : forall l1 k l2,
  nodup_str (l1 ++ k :: l2)%list = true -> existsb (String.eqb k) l1 = false.
Proof.
  induction l1 as [|a l1 IH]; intros k l2 H; [reflexivity|].
  simpl in H |- *. apply andb_true_iff in H as [H1 H2].
  rewrite (IH k l2 H2), orb_false_r.
  destruct (String.eqb k a) eqn:E; [|reflexivity].
  apply String.eqb_eq in E. subst a.
  rewrite existsb_app in H1. simpl in H1. rewrite String.eqb_refl in H1.
  rewrite orb_true_r in H1. discriminate.
Qed.

Lemma pe_comma : forall f s acc v r,
  parse_value f s = Some (v, String "," r) ->
  parse_elems (S f) s acc = parse_elems f r (acc ++ [v])%list.
Proof. intros f s acc v r H. simpl. rewrite H. reflexivity. Qed.

Lemma pe_close : forall f s acc v r,
  parse_value f s = Some (v, String "]" r) ->
  parse_elems (S f) s acc = Some (JArr (acc ++ [v])%list, r).
Proof. intros f s acc v r H. simpl. rewrite H. reflexivity. Qed.

Lemma pm_entry : forall f k v R acc,
  parse_members (S f) (json_member k v ++ R) acc
  = match parse_value f (ser_total v ++ R) with
    | None => None
    | Some (v', r3) =>
        match skip_ws r3 with
        | String c r4 =>
            if Ascii.eqb c "," then parse_members f r4 (define k v' acc)
            else if Ascii.eqb c "}" then Some (JObj (define k v' acc), r4)
            else None
        | EmptyString => None
        end
    end.
Proof.
  intros f k v R acc. unfold json_member, json_quote.
  rewrite !sapp_assoc. cbn [String.append]. rewrite !sapp_assoc. cbn [String.append].
  simpl parse_members. rewrite parse_str_quote_body. reflexivity.
Qed.

Section Containers.

Variable F : nat.
Hypothesis IHv : forall f v rest, (f < F)%nat -> (jsize v <= f)%nat -> json_ok v = true ->
  rest_ok rest = true -> parse_value f (ser_total v ++ rest) = Some (v, rest).

Lemma parse_elems_ser : forall xs acc f rest,
  (f <= F)%nat -> xs <> [] -> forallb json_ok xs = true ->
  (list_sum (map (fun x => S (jsize x)) xs) <= f)%nat ->
  parse_elems f (String.concat "," (map ser_total xs) ++ "]" ++ rest) acc
  = Some (JArr (acc ++ xs)%list, rest).
Proof.
  induction xs as [|x xs IH]; intros acc f rest Hf Hne Hok Hs; [contradiction|].
  simpl in Hok. apply andb_true_iff in Hok as [Hx Hxs].
  simpl in Hs. destruct f as [|f]; [lia|].
  cbn [map]. rewrite sconcat_cons, sapp_assoc.
  destruct xs as [|y xs].
  - cbn [String.append]. erewrite pe_close; [reflexivity|].
    apply IHv; [lia|lia|exact Hx|reflexivity].
  - cbn [String.append]. erewrite pe_comma.
    + replace (acc ++ x :: y :: xs)%list with ((acc ++ [x]) ++ y :: xs)%list
        by (rewrite <- app_assoc; reflexivity).
      apply IH; [lia|discriminate|exact Hxs|simpl in Hs |- *; lia].
    + apply IHv; [lia|lia|exact Hx|reflexivity].
Qed.

Lemma parse_members_ser : forall ps acc f rest,
  (f <= F)%nat -> ps <> [] -> forallb (fun kv => json_ok (snd kv)) ps = true ->
  nodup_str (map fst acc ++ map fst ps)%list = true ->
  (list_sum (map (fun kv => S (jsize (snd kv))) ps) <= f)%nat ->
  parse_members f (String.concat "," (map (fun kv => json_member (fst kv) (snd kv)) ps)
                   ++ "}" ++ rest) acc
  = Some (JObj (acc ++ ps)%list, rest).
Proof.
  induction ps as [|[k v] ps IH]; intros acc f rest Hf Hne Hok Hnd Hs; [contradiction|].
  simpl in Hok. apply andb_true_iff in Hok as [Hv Hps].
  simpl in Hs. destruct f as [|f]; [lia|].
  assert (Hk : existsb (String.eqb k) (map fst acc) = false)
    by (simpl in Hnd; exact (nodup_str_app_cons _ _ _ Hnd)).
  cbn [map fst snd]. rewrite sconcat_cons, sapp_assoc, pm_entry.
  destruct ps as [|[k' v'] ps].
  - cbn [String.append]. rewrite IHv; [|lia|lia|exact Hv|reflexivity].
    rewrite define_fresh by exact Hk. reflexivity.
  - cbn [String.append]. rewrite IHv; [|lia|lia|exact Hv|reflexivity].
    rewrite define_fresh by exact Hk.
    cbn [skip_ws]. simpl is_json_ws. cbv iota.
    change (Ascii.eqb "," ",") with true. cbv iota.
    replace (acc ++ (k, v) :: (k', v') :: ps)%list
      with ((acc ++ [(k, v)]) ++ (k', v') :: ps)%list
      by (rewrite <- app_assoc; reflexivity).
    apply IH; [lia|discriminate|exact Hps| |simpl in Hs |- *; lia].
    rewrite map_app, <- app_assoc. exact Hnd.
Qed.

End Containers.

Lemma pv_open_arr : forall f c t, is_json_ws c = false -> Ascii.eqb c "]" = false ->
  parse_value (S f) (String "[" (String c t)) = parse_elems f (String c t) [].
Proof.
  intros f c t Hws Hc.
  change (match starts_with_char (skip_ws (String c t)) "]" with
          | Some r' => Some (JArr [], r') | None => parse_elems f (String c t) [] end
          = parse_elems f (String c t) []).
  assert (E : skip_ws (String c t) = String c t) by (simpl; rewrite Hws; reflexivity).
  rewrite E. unfold starts_with_char. rewrite Ascii.eqb_sym, Hc. reflexivity.
Qed.

Lemma pv_open_obj : forall f t,
  parse_value (S f) (String "{" (String dq t)) = parse_members f (String dq t) [].
Proof. reflexivity. Qed.

Lemma parse_value_ser : forall N f v rest, (f <= N)%nat -> (jsize v <= f)%nat ->
  json_ok v = true -> rest_ok rest = true ->
  parse_value f (ser_total v ++ rest) = Some (v, rest).
Proof.
  induction N as [|N IHN]; intros f v rest Hf Hs Hok Hr;
    pose proof (jsize_pos v); [lia|].
  destruct f as [|f]; [lia|].
  assert (IHv : forall f' v rest, (f' < S f)%nat -> (jsize v <= f')%nat ->
            json_ok v = true -> rest_ok rest = true ->
            parse_value f' (ser_total v ++ rest) = Some (v, rest))
    by (intros; apply (IHN f'); auto; lia).
  destruct v as [| | |n|s|xs|ps].
  - discriminate.
  - reflexivity.
  - destruct b; reflexivity.
  - apply pv_num; [exact Hr|exact Hok].
  - apply pv_str.
  - rewrite json_ok_arr in Hok. rewrite jsize_arr in Hs.
    unfold ser_total. rewrite stringify_arr.
    cbn [String.append]. rewrite sapp_assoc.
    destruct xs as [|x xs]; [reflexivity|].
    assert (E := parse_elems_ser (S f) IHv (x :: xs) [] f rest).
    destruct (ser_head x) as (c & t & Ht & Hws & Hc1 & _).
    revert E. cbn [map]. rewrite sconcat_cons, Ht. cbn [String.append]. intro E.
    rewrite pv_open_arr by assumption. apply E; [lia|discriminate|exact Hok|simpl in Hs |- *; lia].
  - rewrite json_ok_obj in Hok. apply andb_true_iff in Hok as [Hnd Hok].
    rewrite jsize_obj in Hs.
    unfold ser_total. rewrite stringify_obj by exact Hok.
    cbn [String.append]. rewrite sapp_assoc.
    destruct ps as [|[k x] ps]; [reflexivity|].
    assert (E := parse_members_ser (S f) IHv ((k, x) :: ps) [] f rest).
    revert E. cbn [map fst snd]. rewrite sconcat_cons. intro E.
    unfold json_member at 1, json_quote at 1. cbn [String.append].
    rewrite pv_open_obj. apply E; [lia|discriminate|exact Hok|exact Hnd|simpl in Hs |- *; lia].
Qed.

Lemma sum_le : forall (A : Type) (f g : A -> nat) l,
  (forall x, In x l -> (f x <= g x)%nat) ->
  (list_sum (map f l) <= list_sum (map g l))%nat.
Proof.
  intros A f g l H. induction l as [|a l IH]; simpl; [lia|].
  pose proof (H a (or_introl eq_refl)).
  assert (list_sum (map f l) <= list_sum (map g l))%nat by (apply IH; intros; apply H; right; assumption).
  lia.
Qed.

Lemma concat_len : forall l,
  (list_sum (map (fun s => S (String.length s)) l) <= S (String.length (String.concat "," l)))%nat.
Proof.
  induction l as [|a l IH]; simpl; [lia|].
  destruct l as [|b l].
  - simpl. lia.
  - rewrite slen_app. simpl in IH |- *. lia.
Qed.

Lemma jsize_le_len : forall v, json_ok v = true -> (jsize v <= String.length (ser_total v))%nat.
Proof.
  induction v as [| | | | |xs IH|ps IH] using jsval_ind'; intro Hok;
    try (match goal with |- (jsize ?v <= _)%nat =>
           destruct (ser_head v) as (c' & t' & Ht' & _); rewrite Ht'; simpl; lia end).
  - rewrite json_ok_arr in Hok. rewrite jsize_arr. unfold ser_total. rewrite stringify_arr.
    rewrite slen_app. simpl. rewrite slen_app. simpl.
    pose proof (concat_len (map ser_total xs)) as C. rewrite map_map in C.
    assert (S: (list_sum (map (fun x => S (jsize x)) xs)
               <= list_sum (map (fun x => S (String.length (ser_total x))) xs))%nat).
    { apply sum_le. intros x Hx. rewrite Forall_forall in IH.
      rewrite forallb_forall in Hok. specialize (IH x Hx (Hok x Hx)). lia. }
    lia.
  - rewrite json_ok_obj in Hok. apply andb_true_iff in Hok as [_ Hok].
    rewrite jsize_obj. unfold ser_total. rewrite stringify_obj by exact Hok.
    rewrite slen_app. simpl. rewrite slen_app. simpl.
    pose proof (concat_len (map (fun kv => json_member (fst kv) (snd kv)) ps)) as C.
    rewrite map_map in C.
    assert (S: (list_sum (map (fun kv => S (jsize (snd kv))) ps)
               <= list_sum (map (fun kv => S (String.length (json_member (fst kv) (snd kv)))) ps))%nat).
    { apply sum_le. intros [k x] Hx. rewrite Forall_forall in IH.
      rewrite forallb_forall in Hok. specialize (IH (k, x) Hx (Hok (k, x) Hx)).
      unfold json_member. rewrite !slen_app. simpl in IH |- *. lia. }
    lia.
Qed.

Lemma json_parse_ser : forall v, json_ok v = true -> json_parse (ser_total v) = Ok v.
Proof.
  intros v Hok. unfold json_parse.
  assert (H := parse_value_ser (S (String.length (ser_total v))) (S (String.length (ser_total v)))
                 v "" (le_n _) ltac:(pose proof (jsize_le_len v Hok); lia) Hok eq_refl).
  rewrite sapp_nil_r in H. rewrite H. reflexivity.
Qed.

Lemma json_ok_stringify : forall v, json_ok v = true -> json_stringify v = Some (ser_total v).
Proof. intros v H. destruct v as [| |[]| | | |]; [discriminate|reflexivity..]. Qed.


(** ** Lemmas on the handlers and on [toggleLog] *)

Lemma normalized_state_inv : forall s, normalized_state s = true ->
  s = JObj [("habits", JArr (habits_of s))] /\ forallb normalized_habit (habits_of s) = true.
Proof.
  intros s H.
  destruct s as [| | | | |xs|ps]; try discriminate.
  destruct ps as [|[key v] tl]; simpl in H; try discriminate.
  destruct v as [| | | | |hs|]; simpl in H; try discriminate.
  destruct tl; simpl in H; try discriminate.
  apply andb_true_iff in H as [Hk Hhs]. apply String.eqb_eq in Hk. subst key.
  split; reflexivity || exact Hhs.
Qed.

Lemma saveState_fixed : forall env s app k,
  normalized_state s = true ->
  saveState env s app k
  = Ok ({| app_state := s;
           app_storage := storage_set (app_storage app) STORAGE_KEY
                            (match json_stringify s with Some t => t | None => "undefined" end);
           app_trace := app_trace app |}, k).
Proof.
  intros env s app k H. unfold saveState, bindM. rewrite normalizeState_fixed by exact H.
  reflexivity.
Qed.

Lemma random_uuid_nonempty : forall r, String.eqb (random_uuid r) "" = false.
Proof. intro r. unfold random_uuid. destruct (hex_digits 8 _); reflexivity. Qed.

Lemma newHabit_spec : forall env rnd name k,
  exists id, newHabit env rnd name k
             = Ok (JObj [("id", JStr id); ("name", JStr name); ("log", JObj [])], S k)
    /\ String.eqb id "" = false.
Proof.
  intros env rnd name k.
  exists (if env_crypto env then random_uuid (env_random env k)
          else "habit-" ++ string_of_Z (env_clock env k) ++ "-" ++ str_drop 2 (rnd k)).
  split; [reflexivity|].
  destruct (env_crypto env); [apply random_uuid_nonempty|reflexivity].
Qed.

Lemma filter_res_id : forall habitId hs,
  forallb normalized_habit hs = true ->
  filter_res (fun h => let! hid := get_prop h "id" in Ok (strict_neq_str hid habitId)) hs
  = Ok (filter (fun h => strict_neq_str (getp h "id") habitId) hs).
Proof.
  intros habitId hs. induction hs as [|h hs IH]; simpl; intro H; [reflexivity|].
  apply andb_true_iff in H as [Hh Hhs].
  destruct (normalized_habit_inv h Hh) as (i & n & ps & -> & _).
  simpl. rewrite IH by exact Hhs. reflexivity.
Qed.

Lemma forallb_filter : forall (A : Type) (p q : A -> bool) l,
  forallb p l = true -> forallb p (filter q l) = true.
Proof.
  intros A p q l H. rewrite forallb_forall in H |- *. intros x Hx.
  apply filter_In in Hx as [Hx _]. auto.
Qed.

Lemma toggle_habit_flip : forall habitId dayKey h h',
  normalized_habit h = true -> getp h "id" = JStr habitId -> is_proto_key dayKey = false ->
  toggle_habit habitId dayKey h = Ok h' ->
  getp (getp h' "log") dayKey = JBool (negb (truthy (getp (getp h "log") dayKey))).
Proof.
  intros habitId dayKey h h' Hh Hid Hp E.
  destruct (normalized_habit_inv h Hh) as (i & n & ps & -> & _).
  cbn in Hid. injection Hid as ->.
  unfold toggle_habit in E. cbn [get_prop getp lookup bind String.eqb Ascii.eqb Bool.eqb andb] in E.
  unfold strict_neq_str in E. rewrite String.eqb_refl in E. simpl negb in E. cbv iota in E.
  cbn [get_prop getp lookup bind String.eqb Ascii.eqb Bool.eqb andb spread] in E.
  injection E as <-.
  rewrite plain_truthy_own, plain_set_bool_own by exact Hp.
  cbn [getp lookup String.eqb Ascii.eqb Bool.eqb andb].
  rewrite lookup_define, String.eqb_refl. reflexivity.
Qed.

Lemma map_res_toggle_flip : forall habitId dayKey hs hs',
  forallb normalized_habit hs = true ->
  map_res (toggle_habit habitId dayKey) hs = Ok hs' ->
  forall i h h', nth_error hs i = Some h -> nth_error hs' i = Some h' ->
    getp h "id" = JStr habitId -> is_proto_key dayKey = false ->
    getp (getp h' "log") dayKey = JBool (negb (truthy (getp (getp h "log") dayKey))).
Proof.
  intros habitId dayKey hs. induction hs as [|x hs IH]; intros hs' H E i h h' Hi Hi' Hid Hp.
  - destruct i; discriminate.
  - simpl in H. apply andb_true_iff in H as [Hx Hhs]. simpl in E.
    destruct (toggle_habit habitId dayKey x) as [y|e] eqn:Ey; [|discriminate]. simpl in E.
    destruct (map_res (toggle_habit habitId dayKey) hs) as [ys|e] eqn:Eys; [|discriminate].
    simpl in E. injection E as <-.
    destruct i as [|i]; simpl in Hi, Hi'.
    + injection Hi as <-. injection Hi' as <-. eapply toggle_habit_flip; eauto.
    + eauto.
Qed.

Lemma event_day_click_spec : forall env habitId dayKey app k,
  normalized_state (app_state app) = true ->
  exists app', event_day_click env habitId dayKey app k = Ok (app', k) /\
    normalized_state (app_state app') = true /\
    app_trace app' = (app_trace app ++ [ERender])%list /\
    length (habits_of (app_state app')) = length (habits_of (app_state app)) /\
    forall i h h', nth_error (habits_of (app_state app)) i = Some h ->
      nth_error (habits_of (app_state app')) i = Some h' ->
      toggled_only habitId dayKey h h' /\
      (getp h "id" = JStr habitId -> is_proto_key dayKey = false ->
       getp (getp h' "log") dayKey = JBool (negb (truthy (getp (getp h "log") dayKey)))).
Proof.
  intros env habitId dayKey app k H.
  destruct (normalized_state_inv _ H) as [Hs Hhs].
  remember (habits_of (app_state app)) as hs eqn:Ehs. clear Ehs.
  destruct (map_res_toggle habitId dayKey hs Hhs) as (hs' & E & Hn & Hlen & Hall).
  assert (Hn' : normalized_state (JObj [("habits", JArr hs')]) = true) by exact Hn.
  eexists. split.
  - unfold event_day_click. rewrite Hs.
    change (getp (JObj [("habits", JArr hs)]) "habits") with (JArr hs).
    unfold bindM, liftM. rewrite E. cbv beta iota.
    rewrite saveState_fixed by exact Hn'. reflexivity.
  - split; [exact Hn'|]. split; [reflexivity|]. split; [exact Hlen|].
    intros i h h' Hi Hi'. split; [exact (Hall i h h' Hi Hi')|].
    exact (map_res_toggle_flip habitId dayKey hs hs' Hhs E i h h' Hi Hi').
Qed.

Lemma find_pred_norm : forall habitId x,
  normalized_habit x = true ->
  exists b, (let! xid := get_prop x "id" in Ok (strict_eq_str xid habitId)) = Ok b /\
    (b = true <-> getp x "id" = JStr habitId).
Proof.
  intros habitId x Hx.
  destruct (normalized_habit_inv x Hx) as (i & n & ps & -> & _).
  exists (String.eqb i habitId). split; [reflexivity|]. cbn.
  rewrite String.eqb_eq. split; [intros ->; reflexivity|congruence].
Qed.

Lemma find_res_none : forall habitId hs j,
  forallb normalized_habit hs = true ->
  (forall h, In h hs -> getp h "id" <> JStr habitId) ->
  find_res (fun x => let! xid := get_prop x "id" in Ok (strict_eq_str xid habitId)) hs j = Ok None.
Proof.
  intros habitId hs. induction hs as [|x hs IH]; intros j H Hno; [reflexivity|].
  simpl in H. apply andb_true_iff in H as [Hx Hhs].
  destruct (find_pred_norm habitId x Hx) as (b & Eb & Hb).
  simpl. rewrite Eb. simpl. destruct b.
  - exfalso. apply (Hno x); [left; reflexivity|]. apply Hb. reflexivity.
  - apply IH; [exact Hhs|]. intros h Hin. apply Hno. right. exact Hin.
Qed.

Lemma find_res_first : forall habitId hs i h j,
  forallb normalized_habit hs = true ->
  nth_error hs i = Some h -> getp h "id" = JStr habitId ->
  (forall j' h0, (j' < i)%nat -> nth_error hs j' = Some h0 -> getp h0 "id" <> JStr habitId) ->
  find_res (fun x => let! xid := get_prop x "id" in Ok (strict_eq_str xid habitId)) hs j
  = Ok (Some ((j + i)%nat, h)).
Proof.
  intros habitId hs. induction hs as [|x hs IH]; intros i h j H Hi Hid Hbefore.
  - destruct i; discriminate.
  - simpl in H. apply andb_true_iff in H as [Hx Hhs].
    destruct (find_pred_norm habitId x Hx) as (b & Eb & Hb).
    simpl. rewrite Eb. simpl. destruct i as [|i]; simpl in Hi.
    + injection Hi as <-. assert (b = true) as -> by (apply Hb; exact Hid).
      rewrite Nat.add_0_r. reflexivity.
    + destruct b.
      * exfalso. apply (Hbefore O x); [lia|reflexivity|]. apply Hb. reflexivity.
      * rewrite (IH i h (S j) Hhs Hi Hid). { f_equal. f_equal. f_equal. lia. }
        intros j' h0 Hj' Hh0. apply (Hbefore (S j') h0); [lia|exact Hh0].
Qed.

Lemma nth_set_nth_same : forall i x xs,
  (i < length xs)%nat -> nth_error (set_nth i x xs) i = Some x.
Proof.
  induction i as [|i IH]; intros x [|y xs] Hl; simpl in *; try lia; try reflexivity.
  apply IH. lia.
Qed.

Lemma nth_set_nth_other : forall i j x xs,
  i <> j -> nth_error (set_nth i x xs) j = nth_error xs j.
Proof.
  induction i as [|i IH]; intros j x [|y xs] Hij; simpl; try reflexivity.
  - destruct j; [lia|reflexivity].
  - destruct j; simpl; [reflexivity|]. apply IH. lia.
Qed.

Lemma length_set_nth : forall i x xs, length (set_nth i x xs) = length xs.
Proof. induction i as [|i IH]; intros x [|y xs]; simpl; auto. Qed.

Lemma set_nth_same : forall i x xs, nth_error xs i = Some x -> set_nth i x xs = xs.
Proof.
  induction i as [|i IH]; intros x [|y xs] H; simpl in *; try discriminate.
  - congruence.
  - f_equal. apply IH. exact H.
Qed.

Lemma forallb_set_nth : forall (p : jsval -> bool) i x xs,
  forallb p xs = true -> p x = true -> forallb p (set_nth i x xs) = true.
Proof.
  intros p. induction i as [|i IH]; intros x [|y xs] H Hx; simpl in *; auto.
  - apply andb_true_iff in H as [_ H]. rewrite Hx, H. reflexivity.
  - apply andb_true_iff in H as [Hy H]. rewrite Hy, IH; auto.
Qed.

Lemma lookup_remove_key : forall d k ps,
  lookup d (remove_key k ps) = if String.eqb d k then None else lookup d ps.
Proof.
  intros d k ps. unfold remove_key. induction ps as [|[k' v'] ps IH]; simpl.
  - destruct (String.eqb d k); reflexivity.
  - destruct (String.eqb k' k) eqn:E; simpl.
    + apply String.eqb_eq in E. subst k'. rewrite IH.
      destruct (String.eqb d k); reflexivity.
    + rewrite IH. destruct (String.eqb d k) eqn:Ed; [|reflexivity].
      apply String.eqb_eq in Ed. subst d. rewrite (String.eqb_sym k k'), E. reflexivity.
Qed.

Lemma remove_key_define_fresh : forall k v ps,
  lookup k ps = None -> remove_key k (define k v ps) = ps.
Proof.
  intros k v ps. induction ps as [|[k' v'] ps IH]; simpl; intro H.
  - unfold remove_key. simpl. rewrite String.eqb_refl. reflexivity.
  - destruct (String.eqb k k') eqn:E; [discriminate|].
    unfold remove_key in *. simpl. rewrite String.eqb_sym, E. simpl. f_equal. apply IH. exact H.
Qed.

Lemma toggleLog_found_eq : forall env habitId dateKey app k hs n lps idx,
  app_state app = JObj [("habits", JArr hs)] ->
  forallb normalized_habit hs = true ->
  nth_error hs idx = Some (JObj [("id", JStr habitId); ("name", JStr n); ("log", JObj lps)]) ->
  String.eqb habitId "" = false -> String.eqb n "" = false -> trim n = n ->
  (forall j' h0, (j' < idx)%nat -> nth_error hs j' = Some h0 -> getp h0 "id" <> JStr habitId) ->
  normalized_state (JObj [("habits", JArr (set_nth idx
    (JObj [("id", JStr habitId); ("name", JStr n); ("log", JObj (toggled_log dateKey lps))]) hs))]) = true /\
  toggleLog env habitId dateKey app k
  = Ok (render {| app_state := JObj [("habits", JArr (set_nth idx
                    (JObj [("id", JStr habitId); ("name", JStr n);
                           ("log", JObj (toggled_log dateKey lps))]) hs))];
                  app_storage := storage_set (app_storage app) STORAGE_KEY
                    (match json_stringify (JObj [("habits", JArr (set_nth idx
                    (JObj [("id", JStr habitId); ("name", JStr n);
                           ("log", JObj (toggled_log dateKey lps))]) hs))]) with
                     Some t => t | None => "undefined" end);
                  app_trace := app_trace app |}, k).
Proof.
  intros env habitId dateKey app k hs n lps idx Hs Hhs Hidx Hi Hn Ht Hbefore.
  set (st := JObj [("habits", JArr (set_nth idx
    (JObj [("id", JStr habitId); ("name", JStr n); ("log", JObj (toggled_log dateKey lps))]) hs))]).
  assert (Hst : normalized_state st = true).
  { unfold st. simpl. apply forallb_set_nth; [exact Hhs|].
    simpl. rewrite Hi, Hn, Ht, String.eqb_refl. reflexivity. }
  split; [exact Hst|].
  unfold toggleLog. rewrite Hs.
  change (get_prop (JObj [("habits", JArr hs)]) "habits") with (Ok (JArr hs : jsval)).
  cbv beta iota. unfold bindM, liftM.
  rewrite (find_res_first habitId hs idx _ 0 Hhs Hidx) by (reflexivity || exact Hbefore).
  cbv beta iota. cbn [truthy negb]. cbv beta iota.
  cbn [get_prop getp lookup String.eqb Ascii.eqb Bool.eqb andb spread define]. cbv beta iota.
  rewrite saveState_fixed by exact Hst. reflexivity.
Qed.

Lemma set_nth_set_nth : forall i x y xs, set_nth i x (set_nth i y xs) = set_nth i x xs.
Proof. induction i as [|i IH]; intros x y [|z xs]; simpl; f_equal; auto. Qed.

Lemma toggleLog_found_spec : forall env habitId dateKey app k idx h,
  normalized_state (app_state app) = true ->
  nth_error (habits_of (app_state app)) idx = Some h -> getp h "id" = JStr habitId ->
  (forall j h0, (j < idx)%nat -> nth_error (habits_of (app_state app)) j = Some h0 ->
     getp h0 "id" <> JStr habitId) ->
  exists n lps app',
    h = JObj [("id", JStr habitId); ("name", JStr n); ("log", JObj lps)] /\
    toggleLog env habitId dateKey app k = Ok (app', k) /\
    app_state app' = JObj [("habits", JArr (set_nth idx
      (JObj [("id", JStr habitId); ("name", JStr n); ("log", JObj (toggled_log dateKey lps))])
      (habits_of (app_state app))))] /\
    normalized_state (app_state app') = true /\
    app_trace app' = (app_trace app ++ [ERender])%list.
Proof.
  intros env habitId dateKey app k idx h H Hidx Hid Hbefore.
  destruct (normalized_state_inv _ H) as [Hs Hhs].
  remember (habits_of (app_state app)) as hs eqn:Ehs. clear Ehs.
  assert (Hh : normalized_habit h = true).
  { rewrite forallb_forall in Hhs. apply Hhs. eapply nth_error_In. exact Hidx. }
  destruct (normalized_habit_inv h Hh) as (i & n & lps & -> & Hi & Hn & Ht).
  cbn in Hid. injection Hid as ->.
  destruct (toggleLog_found_eq env habitId dateKey app k hs n lps idx Hs Hhs Hidx Hi Hn Ht Hbefore)
    as [Hst E].
  exists n, lps. eexists. split; [reflexivity|]. split; [exact E|].
  split; [reflexivity|]. split; [exact Hst|reflexivity].
Qed.

Lemma lookup_not_in : forall k ps, ~ In k (map fst ps) -> lookup k ps = None.
Proof.
  intros k ps. induction ps as [|[k' v] ps IH]; simpl; intro H; [reflexivity|].
  destruct (String.eqb k k') eqn:E.
  - apply String.eqb_eq in E. subst. exfalso. apply H. left. reflexivity.
  - apply IH. intro Hin. apply H. right. exact Hin.
Qed.

Lemma toggled_log_twice : forall dateKey lps,
  truthy (getp (JObj (toggled_log dateKey (toggled_log dateKey lps))) dateKey)
  = truthy (getp (JObj lps) dateKey) /\
  (lookup dateKey lps = None -> toggled_log dateKey (toggled_log dateKey lps) = lps).
Proof.
  intros dateKey lps. unfold toggled_log at 2 4.
  destruct (truthy (getp (JObj lps) dateKey)) eqn:Et; unfold toggled_log; cbn [getp].
  - rewrite lookup_remove_key, String.eqb_refl. cbn [truthy].
    rewrite lookup_define, String.eqb_refl. split; [reflexivity|].
    intro Hn. cbn [getp] in Et. rewrite Hn in Et. discriminate.
  - rewrite lookup_define, String.eqb_refl. cbn [truthy].
    rewrite lookup_remove_key, String.eqb_refl. split; [reflexivity|].
    intro Hn. apply remove_key_define_fresh. exact Hn.
Qed.

(** ** The indented export text parses back *)

Lemma pp_arr : forall ind x xs,
  json_stringify_gap ind (JArr (x :: xs))
  = Some ("[" ++ nl ++ (ind ++ json_gap) ++
          String.concat ("," ++ nl ++ (ind ++ json_gap)) (map (pp_total (ind ++ json_gap)) (x :: xs))
          ++ nl ++ ind ++ "]").
Proof. reflexivity. Qed.

Lemma pp_some : forall ind v, v <> JUndef -> json_stringify_gap ind v = Some (pp_total ind v).
Proof.
  intros ind v H. unfold pp_total.
  destruct v as [| |[]|n|str|xs|ps]; try (exfalso; apply H; reflexivity); try reflexivity;
    cbn [json_stringify_gap];
    match goal with |- context [match ?e with [] => _ | _ :: _ => _ end] => destruct e end;
    reflexivity.
Qed.

Lemma pp_obj : forall ind ps,
  forallb (fun kv => json_ok (snd kv)) ps = true -> ps <> [] ->
  json_stringify_gap ind (JObj ps)
  = Some ("{" ++ nl ++ (ind ++ json_gap) ++
          String.concat ("," ++ nl ++ (ind ++ json_gap))
            (map (fun kv => pp_member (ind ++ json_gap) (fst kv) (snd kv)) ps)
          ++ nl ++ ind ++ "}").
Proof.
  intros ind ps H Hne. cbn [json_stringify_gap].
  match goal with |- context [match ?F ps with [] => _ | _ :: _ => _ end] => set (G := F) end.
  enough (E : G ps = map (fun kv => pp_member (ind ++ json_gap) (fst kv) (snd kv)) ps)
    by (rewrite E; destruct ps; [contradiction|reflexivity]).
  clear Hne.
  induction ps as [|[k x] ps IH]; [reflexivity|].
  simpl in H. apply andb_true_iff in H as [Hx H].
  change (G ((k, x) :: ps)) with
    (match json_stringify_gap (ind ++ json_gap) x with
     | Some t => (json_quote k ++ ":" ++ " " ++ t) :: G ps | None => G ps end).
  rewrite IH by exact H.
  assert (Hu : x <> JUndef) by (intro; subst; discriminate).
  rewrite (pp_some _ x Hu). reflexivity.
Qed.

Lemma skip_ws_app : forall w s, all_ws w = true -> skip_ws (w ++ s) = skip_ws s.
Proof.
  induction w as [|c w IH]; intros s H; [reflexivity|].
  simpl in H. apply andb_true_iff in H as [Hc Hw]. simpl. rewrite Hc. apply IH. exact Hw.
Qed.

Lemma all_ws_app : forall a b, all_ws a = true -> all_ws b = true -> all_ws (a ++ b) = true.
Proof.
  induction a as [|c a IH]; intros b Ha Hb; [exact Hb|].
  simpl in Ha |- *. apply andb_true_iff in Ha as [Hc Ha]. rewrite Hc. apply IH; assumption.
Qed.

Lemma all_ws_indent : forall ind, all_ws ind = true -> all_ws (ind ++ json_gap) = true.
Proof. intros ind H. apply all_ws_app; [exact H|reflexivity]. Qed.

Lemma all_ws_nl : forall ind, all_ws ind = true -> all_ws (nl ++ ind) = true.
Proof. intros ind H. exact H. Qed.

Lemma pv_ws : forall f w s, all_ws w = true -> parse_value f (w ++ s) = parse_value f s.
Proof.
  intros [|f] w s H; [reflexivity|].
  cbn [parse_value]. rewrite (skip_ws_app w s H). reflexivity.
Qed.

Lemma rest_ws_num_end : forall r, rest_ok (skip_ws r) = true -> num_end r.
Proof.
  intros [|c r] H; [exact I|]. simpl in H |- *.
  destruct (is_json_ws c) eqn:Hws.
  - clear H. destruct c as [[] [] [] [] [] [] [] []]; vm_compute in Hws; try discriminate Hws;
      vm_compute; repeat split; reflexivity.
  - simpl in H. apply orb_true_iff in H as [H|H]; [apply orb_true_iff in H as [H|H]|];
      apply Ascii.eqb_eq in H; subst c; vm_compute; repeat split; reflexivity.
Qed.

Lemma take_digits_uint_end : forall d r, num_end r ->
  take_digits (string_of_uint d ++ r) = (string_of_uint d, r).
Proof.
  induction d; intros r Hr; simpl; try (rewrite IHd by exact Hr; reflexivity).
  destruct r as [|c r]; [reflexivity|]. destruct Hr as [Hd _]. simpl. rewrite Hd. reflexivity.
Qed.

Lemma parse_number_N_end : forall (neg : bool) m r, num_end r -> num_in_model neg m = true ->
  parse_number ((if neg then "-" else "") ++ string_of_N m ++ r)
  = Some (JNum (if neg then Z.opp (Z.of_N m) else Z.of_N m), r).
Proof.
  intros neg m r Hr Hin. unfold parse_number.
  assert (Hm := DecimalN.Unsigned.of_to m).
  assert (Hd := to_uint_not_nil m).
  unfold string_of_N. remember (N.to_uint m) as d eqn:Ed.
  assert (Hs : match string_of_uint d ++ r with
               | String c _ => Ascii.eqb c "-" | EmptyString => false end = false).
  { destruct d; [contradiction|..]; reflexivity. }
  assert (Hne : String.eqb (string_of_uint d) "" = false).
  { destruct d; [contradiction|..]; reflexivity. }
  assert (Hfirst : match (if neg then "-" else "") ++ string_of_uint d ++ r with
            | String c s' => if Ascii.eqb c "-" then (true, s')
                             else (false, (if neg then "-" else "") ++ string_of_uint d ++ r)
            | EmptyString => (false, (if neg then "-" else "") ++ string_of_uint d ++ r)
            end = (neg, string_of_uint d ++ r)).
  { destruct neg; [reflexivity|]. simpl.
    destruct (string_of_uint d ++ r) as [|c s'] eqn:E; [reflexivity|].
    rewrite Hs. reflexivity. }
  rewrite Hfirst. cbv beta iota.
  rewrite take_digits_uint_end by exact Hr. cbv beta iota.
  rewrite uint_of_digits_uint. cbv beta iota zeta.
  rewrite Hm, <- Ed, Hne, String.eqb_refl, Hin. cbn [orb negb].
  destruct r as [|c r']; [reflexivity|].
  destruct Hr as (_ & H1 & H2 & H3). rewrite H1, H2, H3. reflexivity.
Qed.

Lemma pv_num_end : forall f n r, num_end r -> Z.leb (Z.abs n) exact_int_bound = true ->
  parse_value (S f) (string_of_Z n ++ r) = Some (JNum n, r).
Proof.
  intros f n r Hr Hb. destruct n as [|p|p].
  - exact (parse_number_N_end false 0 r Hr eq_refl).
  - simpl string_of_Z. unfold string_of_N at 1.
    rewrite pv_uint by apply to_uint_not_nil.
    exact (parse_number_N_end false (Npos p) r Hr Hb).
  - simpl string_of_Z.
    change (parse_value (S f) (String "-" (string_of_N (Npos p) ++ r))
            = Some (JNum (Zneg p), r)).
    exact (parse_number_N_end true (Npos p) r Hr Hb).
Qed.

Lemma pp_head : forall ind v, exists c s, pp_total ind v = String c s /\
  is_json_ws c = false /\ Ascii.eqb c "]" = false /\ Ascii.eqb c "}" = false.
Proof.
  intros ind v. destruct v as [| | |n|s|[|x xs]|[|kv ps]].
  - eexists; eexists; split; [reflexivity|]; repeat split; reflexivity.
  - eexists; eexists; split; [reflexivity|]; repeat split; reflexivity.
  - destruct b; (eexists; eexists; split; [reflexivity|]; repeat split; reflexivity).
  - exact (ser_head (JNum n)).
  - eexists; eexists; split; [reflexivity|]; repeat split; reflexivity.
  - eexists; eexists; split; [reflexivity|]; repeat split; reflexivity.
  - unfold pp_total. rewrite pp_arr.
    eexists; eexists; split; [reflexivity|]; repeat split; reflexivity.
  - eexists; eexists; split; [reflexivity|]; repeat split; reflexivity.
  - unfold pp_total. cbn [json_stringify_gap].
    match goal with |- context [match ?e with [] => _ | _ :: _ => _ end] => destruct e end;
      (eexists; eexists; split; [reflexivity|]; repeat split; reflexivity).
Qed.

Lemma pe_step_comma : forall f s acc v r r',
  parse_value f s = Some (v, r) -> skip_ws r = String "," r' ->
  parse_elems (S f) s acc = parse_elems f r' (acc ++ [v])%list.
Proof. intros f s acc v r r' H H'. simpl. rewrite H, H'. reflexivity. Qed.

Lemma pe_step_close : forall f s acc v r r',
  parse_value f s = Some (v, r) -> skip_ws r = String "]" r' ->
  parse_elems (S f) s acc = Some (JArr (acc ++ [v])%list, r').
Proof. intros f s acc v r r' H H'. simpl. rewrite H, H'. reflexivity. Qed.

Lemma pm_entry_pp : forall f w0 ind k v R acc, all_ws w0 = true ->
  parse_members (S f) (w0 ++ pp_member ind k v ++ R) acc
  = match parse_value f (pp_total ind v ++ R) with
    | None => None
    | Some (v', r3) =>
        match skip_ws r3 with
        | String c r4 =>
            if Ascii.eqb c "," then parse_members f r4 (define k v' acc)
            else if Ascii.eqb c "}" then Some (JObj (define k v' acc), r4)
            else None
        | EmptyString => None
        end
    end.
Proof.
  intros f w0 ind k v R acc Hw. cbn [parse_members].
  rewrite skip_ws_app by exact Hw.
  unfold pp_member, json_quote.
  rewrite !sapp_assoc. cbn [String.append]. rewrite !sapp_assoc. cbn [String.append].
  cbn [skip_ws]. change (is_json_ws dq) with false. cbv iota. cbn [starts_with_char].
  change (Ascii.eqb dq dq) with true. cbv iota.
  rewrite parse_str_quote_body. cbv iota. cbn [skip_ws].
  change (is_json_ws ":") with false. cbv iota. cbn [starts_with_char].
  change (Ascii.eqb ":" ":") with true. cbv iota.
  change (String " " (pp_total ind v ++ R)) with (" " ++ (pp_total ind v ++ R)).
  rewrite (pv_ws f " " (pp_total ind v ++ R) eq_refl). reflexivity.
Qed.

Lemma sconcat_cons_ne : forall sep a l, l <> [] ->
  String.concat sep (a :: l) = a ++ sep ++ String.concat sep l.
Proof. intros sep a [|b l] H; [contradiction|reflexivity]. Qed.

Section PrettyContainers.

Variable F : nat.
Hypothesis IHv : forall f ind v rest, (f < F)%nat -> (jsize v <= f)%nat -> json_ok v = true ->
  all_ws ind = true -> rest_ok (skip_ws rest) = true ->
  parse_value f (pp_total ind v ++ rest) = Some (v, rest).

Lemma pv_elem : forall f ind x R, (f < F)%nat -> (jsize x <= f)%nat -> json_ok x = true ->
  all_ws ind = true -> rest_ok (skip_ws R) = true ->
  parse_value f (nl ++ ind ++ pp_total ind x ++ R) = Some (x, R).
Proof.
  intros f ind x R Hf Hs Hx Hind HR.
  rewrite (pv_ws f nl) by reflexivity. rewrite (pv_ws f ind) by exact Hind.
  apply IHv; assumption.
Qed.

Lemma parse_elems_pp : forall xs acc f ind w rest,
  (f <= F)%nat -> xs <> [] -> forallb json_ok xs = true -> all_ws ind = true -> all_ws w = true ->
  (list_sum (map (fun x => S (jsize x)) xs) <= f)%nat ->
  parse_elems f (nl ++ ind ++ String.concat ("," ++ nl ++ ind) (map (pp_total ind) xs)
                 ++ w ++ "]" ++ rest) acc
  = Some (JArr (acc ++ xs)%list, rest).
Proof.
  induction xs as [|x xs IH]; intros acc f ind w rest Hf Hne Hok Hind Hw Hs; [contradiction|].
  simpl in Hok. apply andb_true_iff in Hok as [Hx Hxs].
  simpl in Hs. destruct f as [|f]; [lia|].
  destruct xs as [|y xs].
  - cbn [map String.concat].
    eapply pe_step_close.
    + apply pv_elem; [lia|lia|exact Hx|exact Hind|].
      rewrite skip_ws_app by exact Hw. reflexivity.
    + rewrite skip_ws_app by exact Hw. reflexivity.
  - change (map (pp_total ind) (x :: y :: xs)) with (pp_total ind x :: map (pp_total ind) (y :: xs)).
    rewrite sconcat_cons_ne by discriminate.
    rewrite !sapp_assoc.
    set (R' := nl ++ ind ++ String.concat ("," ++ nl ++ ind) (map (pp_total ind) (y :: xs))
               ++ w ++ "]" ++ rest).
    rewrite (pe_step_comma f _ acc x ("," ++ R') R'); cycle 1.
    { apply pv_elem; [lia|lia|exact Hx|exact Hind|reflexivity]. }
    { reflexivity. }
    unfold R'.
    replace (acc ++ x :: y :: xs)%list with ((acc ++ [x]) ++ y :: xs)%list
      by (rewrite <- app_assoc; reflexivity).
    apply IH; [lia|discriminate|exact Hxs|exact Hind|exact Hw|simpl in Hs |- *; lia].
Qed.

Lemma parse_members_pp : forall ps acc f ind w rest,
  (f <= F)%nat -> ps <> [] -> forallb (fun kv => json_ok (snd kv)) ps = true ->
  nodup_str (map fst acc ++ map fst ps)%list = true -> all_ws ind = true -> all_ws w = true ->
  (list_sum (map (fun kv => S (jsize (snd kv))) ps) <= f)%nat ->
  parse_members f (nl ++ ind ++ String.concat ("," ++ nl ++ ind)
                     (map (fun kv => pp_member ind (fst kv) (snd kv)) ps) ++ w ++ "}" ++ rest) acc
  = Some (JObj (acc ++ ps)%list, rest).
Proof.
  induction ps as [|[k v] ps IH]; intros acc f ind w rest Hf Hne Hok Hnd Hind Hw Hs; [contradiction|].
  simpl in Hok. apply andb_true_iff in Hok as [Hv Hps].
  simpl in Hs. destruct f as [|f]; [lia|].
  assert (Hk : existsb (String.eqb k) (map fst acc) = false)
    by (simpl in Hnd; exact (nodup_str_app_cons _ _ _ Hnd)).
  destruct ps as [|[k' v'] ps].
  - cbn [map fst snd String.concat].
    pose proof (pm_entry_pp f (nl ++ ind) ind k v (w ++ "}" ++ rest) acc (all_ws_nl ind Hind)) as E.
    rewrite (sapp_assoc nl ind) in E. rewrite E. clear E.
    rewrite IHv; [|lia|lia|exact Hv|exact Hind|rewrite skip_ws_app by exact Hw; reflexivity].
    rewrite skip_ws_app by exact Hw.
    rewrite define_fresh by exact Hk. reflexivity.
  - change (map (fun kv => pp_member ind (fst kv) (snd kv)) ((k, v) :: (k', v') :: ps))
      with (pp_member ind k v :: map (fun kv => pp_member ind (fst kv) (snd kv)) ((k', v') :: ps)).
    rewrite sconcat_cons_ne by discriminate.
    rewrite !sapp_assoc.
    set (R' := nl ++ ind ++ String.concat ("," ++ nl ++ ind)
                 (map (fun kv => pp_member ind (fst kv) (snd kv)) ((k', v') :: ps))
               ++ w ++ "}" ++ rest).
    pose proof (pm_entry_pp f (nl ++ ind) ind k v ("," ++ R') acc (all_ws_nl ind Hind)) as E.
    rewrite (sapp_assoc nl ind) in E. rewrite E. clear E.
    rewrite IHv; [|lia|lia|exact Hv|exact Hind|reflexivity].
    rewrite define_fresh by exact Hk.
    change (skip_ws ("," ++ R')) with (String "," R').
    cbv beta iota. change (Ascii.eqb "," ",") with true. cbv beta iota.
    unfold R'.
    replace (acc ++ (k, v) :: (k', v') :: ps)%list
      with ((acc ++ [(k, v)]) ++ (k', v') :: ps)%list
      by (rewrite <- app_assoc; reflexivity).
    apply IH; [lia|discriminate|exact Hps| |exact Hind|exact Hw|simpl in Hs |- *; lia].
    rewrite map_app, <- app_assoc. exact Hnd.
Qed.

End PrettyContainers.

Lemma pv_open_arr_ws : forall f T c t, skip_ws T = String c t -> Ascii.eqb c "]" = false ->
  parse_value (S f) (String "[" T) = parse_elems f T [].
Proof.
  intros f T c t E Hc.
  change (match starts_with_char (skip_ws T) "]" with
          | Some r' => Some (JArr [], r') | None => parse_elems f T [] end
          = parse_elems f T []).
  rewrite E. unfold starts_with_char. rewrite Ascii.eqb_sym, Hc. reflexivity.
Qed.

Lemma pv_open_obj_ws : forall f T c t, skip_ws T = String c t -> Ascii.eqb c "}" = false ->
  parse_value (S f) (String "{" T) = parse_members f T [].
Proof.
  intros f T c t E Hc.
  change (match starts_with_char (skip_ws T) "}" with
          | Some r' => Some (JObj [], r') | None => parse_members f T [] end
          = parse_members f T []).
  rewrite E. unfold starts_with_char. rewrite Ascii.eqb_sym, Hc. reflexivity.
Qed.

Lemma skip_ws_head : forall c s R, is_json_ws c = false -> skip_ws (String c s ++ R) = String c (s ++ R).
Proof. intros c s R H. simpl. rewrite H. reflexivity. Qed.

Lemma parse_value_pp : forall N f ind v rest, (f <= N)%nat -> (jsize v <= f)%nat ->
  json_ok v = true -> all_ws ind = true -> rest_ok (skip_ws rest) = true ->
  parse_value f (pp_total ind v ++ rest) = Some (v, rest).
Proof.
  induction N as [|N IHN]; intros f ind v rest Hf Hs Hok Hind Hr;
    pose proof (jsize_pos v); [lia|].
  destruct f as [|f]; [lia|].
  assert (IHv : forall f' ind v rest, (f' < S f)%nat -> (jsize v <= f')%nat ->
            json_ok v = true -> all_ws ind = true -> rest_ok (skip_ws rest) = true ->
            parse_value f' (pp_total ind v ++ rest) = Some (v, rest))
    by (intros; apply (IHN f'); auto; lia).
  destruct v as [| | |n|s|xs|ps].
  - discriminate.
  - reflexivity.
  - destruct b; reflexivity.
  - apply pv_num_end; [apply rest_ws_num_end; exact Hr|exact Hok].
  - apply pv_str.
  - rewrite json_ok_arr in Hok. rewrite jsize_arr in Hs.
    destruct xs as [|x xs]; [reflexivity|].
    unfold pp_total at 1. rewrite pp_arr.
    assert (E := parse_elems_pp (S f) IHv (x :: xs) [] f (ind ++ json_gap) (nl ++ ind) rest).
    cbn [String.append app] in E |- *. rewrite !sapp_assoc in E. rewrite !sapp_assoc.
    destruct (pp_head (ind ++ json_gap) x) as (c & t & Ht & Hws & Hc1 & _).
    erewrite pv_open_arr_ws; [apply E| |exact Hc1].
    + lia.
    + discriminate.
    + exact Hok.
    + apply all_ws_indent. exact Hind.
    + exact Hind.
    + simpl in Hs |- *. lia.
    + rewrite (skip_ws_app nl) by reflexivity. rewrite (skip_ws_app ind) by exact Hind.
      rewrite (skip_ws_app json_gap) by reflexivity.
      change (map (pp_total (ind ++ json_gap)) (x :: xs))
        with (pp_total (ind ++ json_gap) x :: map (pp_total (ind ++ json_gap)) xs).
      rewrite sconcat_cons, Ht, !sapp_assoc. apply skip_ws_head. exact Hws.
  - rewrite json_ok_obj in Hok. apply andb_true_iff in Hok as [Hnd Hok].
    rewrite jsize_obj in Hs.
    destruct ps as [|[k x] ps]; [reflexivity|].
    unfold pp_total at 1. rewrite pp_obj by (exact Hok || discriminate).
    assert (E := parse_members_pp (S f) IHv ((k, x) :: ps) [] f (ind ++ json_gap) (nl ++ ind) rest).
    cbn [String.append app] in E |- *. rewrite !sapp_assoc in E. rewrite !sapp_assoc.
    erewrite pv_open_obj_ws; [apply E| |].
    + lia.
    + discriminate.
    + exact Hok.
    + exact Hnd.
    + apply all_ws_indent. exact Hind.
    + exact Hind.
    + simpl in Hs |- *. lia.
    + rewrite (skip_ws_app nl) by reflexivity. rewrite (skip_ws_app ind) by exact Hind.
      rewrite (skip_ws_app json_gap) by reflexivity.
      change (map (fun kv => pp_member (ind ++ json_gap) (fst kv) (snd kv)) ((k, x) :: ps))
        with (pp_member (ind ++ json_gap) k x
              :: map (fun kv => pp_member (ind ++ json_gap) (fst kv) (snd kv)) ps).
      rewrite sconcat_cons. unfold pp_member at 1, json_quote at 1.
      cbn [String.append]. reflexivity.
    + reflexivity.
Qed.

Lemma concat_len_sep : forall sep l, (1 <= String.length sep)%nat ->
  (list_sum (map (fun s => S (String.length s)) l) <= S (String.length (String.concat sep l)))%nat.
Proof.
  intros sep l Hsep. induction l as [|a l IH]; simpl; [lia|].
  destruct l as [|b l].
  - simpl. lia.
  - rewrite !slen_app. simpl in IH |- *. lia.
Qed.

Lemma jsize_le_len_pp : forall v ind, json_ok v = true ->
  (jsize v <= String.length (pp_total ind v))%nat.
Proof.
  induction v as [| | | | |xs IH|ps IH] using jsval_ind'; intros ind Hok;
    try (match goal with |- (jsize ?v <= _)%nat =>
           destruct (pp_head ind v) as (c' & t' & Ht' & _); rewrite Ht'; simpl; lia end).
  - rewrite json_ok_arr in Hok. rewrite jsize_arr.
    destruct xs as [|x xs]; [simpl; lia|].
    unfold pp_total at 1. rewrite pp_arr. rewrite !slen_app. cbn [String.length].
    pose proof (concat_len_sep ("," ++ nl ++ (ind ++ json_gap))
                  (map (pp_total (ind ++ json_gap)) (x :: xs)) ltac:(simpl; lia)) as C.
    rewrite map_map in C.
    assert (S: (list_sum (map (fun x => S (jsize x)) (x :: xs))
               <= list_sum (map (fun x => S (String.length (pp_total (ind ++ json_gap) x))) (x :: xs)))%nat).
    { apply sum_le. intros y Hy. rewrite Forall_forall in IH.
      rewrite forallb_forall in Hok. specialize (IH y Hy (ind ++ json_gap) (Hok y Hy)). lia. }
    lia.
  - rewrite json_ok_obj in Hok. apply andb_true_iff in Hok as [_ Hok].
    rewrite jsize_obj.
    destruct ps as [|kv ps]; [simpl; lia|].
    unfold pp_total at 1. rewrite pp_obj by (exact Hok || discriminate).
    rewrite !slen_app. cbn [String.length].
    pose proof (concat_len_sep ("," ++ nl ++ (ind ++ json_gap))
                  (map (fun kv => pp_member (ind ++ json_gap) (fst kv) (snd kv)) (kv :: ps))
                  ltac:(simpl; lia)) as C.
    rewrite map_map in C.
    assert (S: (list_sum (map (fun kv => S (jsize (snd kv))) (kv :: ps))
               <= list_sum (map (fun kv => S (String.length
                    (pp_member (ind ++ json_gap) (fst kv) (snd kv)))) (kv :: ps)))%nat).
    { apply sum_le. intros [k x] Hx. rewrite Forall_forall in IH.
      rewrite forallb_forall in Hok. specialize (IH (k, x) Hx (ind ++ json_gap) (Hok (k, x) Hx)).
      unfold pp_member. rewrite !slen_app. simpl in IH |- *. lia. }
    lia.
Qed.

Lemma json_parse_pp : forall v ind, json_ok v = true -> all_ws ind = true ->
  json_parse (pp_total ind v) = Ok v.
Proof.
  intros v ind Hok Hind. unfold json_parse.
  assert (H := parse_value_pp (S (String.length (pp_total ind v))) (S (String.length (pp_total ind v)))
                 ind v "" (le_n _) ltac:(pose proof (jsize_le_len_pp v ind Hok); lia) Hok Hind eq_refl).
  rewrite sapp_nil_r in H. rewrite H. reflexivity.
Qed.

Lemma export_text_pp : forall app, app_state app <> JUndef ->
  export_text app = pp_total "" (app_state app).
Proof. intros app H. unfold export_text. rewrite pp_some by exact H. reflexivity. Qed.

Lemma event_import_ok : forall env app text data k,
  json_parse text = Ok data -> is_array (getp data "habits") = true ->
  forall s k1, normalizeState env data k = Ok (s, k1) ->
  event_import env (Some text) app k
  = Ok ({| app_state := s;
           app_storage := storage_set (app_storage app) STORAGE_KEY
                            (match json_stringify s with Some t => t | None => "undefined" end);
           app_trace := (app_trace app ++ [ERender; EAlert import_ok_msg])%list |}, k1).
Proof.
  intros env app text data k Hp Ha s k1 Hn.
  unfold event_import, catchM, bindM, liftM. rewrite Hp. cbv beta iota.
  assert (Hg : get_prop data "habits" = Ok (getp data "habits"))
    by (destruct data; try discriminate; reflexivity).
  rewrite Hg. cbv beta iota. rewrite Ha. cbv beta iota delta [negb].
  unfold saveState, bindM. rewrite Hn. simpl. unfold alert, render; simpl. rewrite <- app_assoc. reflexivity.
Qed.

(** ** Rows drawn by [render] and their buttons *)

Lemma day_cell_norm : forall i n lps k,
  day_cell (habit_obj i n lps) k
  = Ok (Elem "div" [("style", day_style)] "" [] [norm_day_button i n lps k]).
Proof. reflexivity. Qed.

Lemma traverse_day_cells : forall i n lps wk,
  traverse_res (day_cell (habit_obj i n lps)) wk
  = Ok (map (fun k => Elem "div" [("style", day_style)] "" [] [norm_day_button i n lps k]) wk).
Proof.
  intros i n lps wk. induction wk as [|k wk IH]; [reflexivity|].
  cbn [traverse_res]. rewrite day_cell_norm. cbn [bind]. rewrite IH. reflexivity.
Qed.

Lemma fold_appendChild : forall cols t a x l c,
  fold_left (fun row col => appendChild col row) cols (Elem t a x l c) = Elem t a x l (c ++ cols)%list.
Proof.
  induction cols as [|col cols IH]; intros t a x l c; simpl; [rewrite app_nil_r; reflexivity|].
  rewrite IH, <- app_assoc. reflexivity.
Qed.

Lemma habit_row_norm : forall today wk i n lps,
  habit_row today wk (habit_obj i n lps) = Ok (norm_row today wk i n lps).
Proof.
  intros today wk i n lps. unfold habit_row.
  change (get_prop (habit_obj i n lps) "name") with (Ok (JStr n) : res jsval). cbn [bind text_of js_String].
  rewrite traverse_day_cells. cbn [bind].
  cbn [appendChild setAttribute createElement set_attr setTextContent].
  rewrite fold_appendChild. cbn [appendChild]. rewrite <- !app_assoc. reflexivity.
Qed.

Lemma normalized_habit_obj : forall h, normalized_habit h = true ->
  exists i n lps, h = habit_obj i n lps.
Proof.
  intros h H. destruct (normalized_habit_inv h H) as (i & n & lps & -> & _).
  exists i, n, lps. reflexivity.
Qed.

Lemma row_of_norm : forall today wk i n lps,
  row_of today wk (habit_obj i n lps) = norm_row today wk i n lps.
Proof. intros. unfold row_of. rewrite habit_row_norm. reflexivity. Qed.

Lemma render_habits_norm : forall today wk hs acc, forallb normalized_habit hs = true ->
  render_habits today wk hs acc = ((acc ++ map (row_of today wk) hs)%list, None).
Proof.
  intros today wk hs. induction hs as [|h hs IH]; intros acc H; simpl.
  - rewrite app_nil_r. reflexivity.
  - apply andb_true_iff in H as [Hh Hhs].
    destruct (normalized_habit_obj h Hh) as (i & n & lps & ->).
    rewrite habit_row_norm, IH by exact Hhs. rewrite row_of_norm, <- app_assoc. reflexivity.
Qed.

Lemma render_rows_norm : forall today wk s, normalized_state s = true ->
  render_rows today wk s
  = match habits_of s with
    | [] => ([placeholder_row wk], None)
    | hs => (map (row_of today wk) hs, None)
    end.
Proof.
  intros today wk s H. destruct (normalized_state_inv s H) as [Hs Hhs].
  rewrite Hs. unfold render_rows. cbn [get_prop getp lookup String.eqb Ascii.eqb Bool.eqb andb bind].
  cbn [habits_of getp lookup String.eqb Ascii.eqb Bool.eqb andb].
  remember (habits_of s) as hs eqn:Ehs. clear Ehs Hs.
  destruct hs as [|h hs]; [reflexivity|].
  cbn [js_length strict_eq_zero length].
  rewrite render_habits_norm by exact Hhs. reflexivity.
Qed.

Lemma fold_append_const : forall (A : Type) (xs : list A) c t a x l cs,
  fold_left (fun row (_ : A) => appendChild c row) xs (Elem t a x l cs)
  = Elem t a x l (cs ++ repeat c (length xs))%list.
Proof.
  intros A xs c. induction xs as [|y xs IH]; intros t a x l cs; simpl; [rewrite app_nil_r; reflexivity|].
  rewrite IH, <- app_assoc. reflexivity.
Qed.

Lemma placeholder_row_eq : forall wk,
  placeholder_row wk
  = Elem "div" [("style", row_style)] "" []
      (Elem "div" [("style", name_style)] "No habits yet" [] []
       :: repeat (Elem "div" [("style", day_style)] "" [] []) (length wk)
       ++ [Elem "div" [("style", streak_style)] "0" [] [];
           Elem "div" [("style", placeholder_actions_style)] "Add a habit" [] []])%list.
Proof.
  intros wk. unfold placeholder_row.
  cbn [appendChild setAttribute createElement set_attr setTextContent].
  rewrite fold_append_const. cbn [appendChild]. rewrite <- !app_assoc. reflexivity.
Qed.

Lemma norm_row_children : forall today wk i n lps,
  el_children (norm_row today wk i n lps)
  = (Elem "div" [("style", name_style)] n [] []
     :: map (fun k => Elem "div" [("style", day_style)] "" [] [norm_day_button i n lps k]) wk
     ++ [Elem "div" [("style", streak_style)]
           (string_of_Z (Z.of_nat (computeStreak today (habit_obj i n lps)))) [] [];
         Elem "div" [("style", actions_style)] "" []
           [Elem "button" [("type", "button"); ("style", tick_style)] "Tick today"
                 [("click", LTickToday (habit_obj i n lps))] [];
            Elem "button" [("type", "button"); ("style", del_style)] "Delete"
                 [("click", LDeleteHabit (habit_obj i n lps))] []]])%list.
Proof. reflexivity. Qed.

Lemma day_button_norm : forall today wk i n lps j k, nth_error wk j = Some k ->
  day_button (norm_row today wk i n lps) j = Some (norm_day_button i n lps k).
Proof.
  intros today wk i n lps j k Hj. unfold day_button. rewrite norm_row_children.
  cbn [nth_error]. rewrite nth_error_app1 by (rewrite length_map; apply nth_error_Some; congruence).
  rewrite nth_error_map, Hj. reflexivity.
Qed.

Lemma action_button_norm : forall today wk i n lps m,
  action_button (norm_row today wk i n lps) m
  = nth_error [Elem "button" [("type", "button"); ("style", tick_style)] "Tick today"
                 [("click", LTickToday (habit_obj i n lps))] [];
               Elem "button" [("type", "button"); ("style", del_style)] "Delete"
                 [("click", LDeleteHabit (habit_obj i n lps))] []] m.
Proof.
  intros. unfold action_button. rewrite norm_row_children.
  rewrite map_cons, map_app. cbn [map].
  change (Some (Elem "div" [("style", name_style)] n [] []) :: ?X)%list with ([Some (Elem "div" [("style", name_style)] n [] [])] ++ X)%list.
  rewrite app_assoc.
  match goal with |- match last (?A ++ [?b; ?c])%list None with _ => _ end = _ =>
    replace (A ++ [b; c])%list with ((A ++ [b]) ++ [c])%list by (rewrite <- app_assoc; reflexivity) end.
  rewrite last_last. reflexivity.
Qed.

Lemma subtree_eq : forall t a x l c,
  subtree (Elem t a x l c) = Elem t a x l c :: flat_map subtree c.
Proof.
  intros t a x l c. cbn [subtree]. f_equal.
Qed.

Lemma traverse_res_Forall2 : forall (A B : Type) (f : A -> res B) xs ys,
  traverse_res f xs = Ok ys -> Forall2 (fun x y => f x = Ok y) xs ys.
Proof.
  intros A B f xs. induction xs as [|x xs IH]; intros ys H; cbn [traverse_res] in H.
  - injection H as <-. constructor.
  - destruct (f x) as [y|e] eqn:Ef; cbn [bind] in H; [|discriminate].
    destruct (traverse_res f xs) as [ys'|e] eqn:Et; cbn [bind] in H; [|discriminate].
    injection H as <-. constructor; [exact Ef|apply IH; reflexivity].
Qed.

Lemma Forall2_in_right : forall (A B : Type) (R : A -> B -> Prop) xs ys y,
  Forall2 R xs ys -> In y ys -> exists x, In x xs /\ R x y.
Proof.
  intros A B R xs ys y H. induction H as [|x y' xs ys Hxy _ IH]; intros Hy; [destruct Hy|].
  destruct Hy as [<-|Hy]; [exists x; split; [left; reflexivity|exact Hxy]|].
  destruct (IH Hy) as (x' & Hx' & Hr). exists x'. split; [right; exact Hx'|exact Hr].
Qed.

Lemma Forall2_nth_error_both : forall (A B : Type) (R : A -> B -> Prop) xs ys j x y,
  Forall2 R xs ys -> nth_error xs j = Some x -> nth_error ys j = Some y -> R x y.
Proof.
  intros A B R xs ys j x y H. revert j.
  induction H as [|x' y' xs ys Hxy _ IH]; intros [|j] Hx Hy; try discriminate.
  - injection Hx as <-. injection Hy as <-. exact Hxy.
  - exact (IH j Hx Hy).
Qed.

Lemma day_cell_shape : forall h k c, day_cell h k = Ok c ->
  exists (label : string) (checked : bool) (sid : string),
    c = Elem "div" [("style", day_style)] "" []
          [Elem "button" [("type", "button"); ("aria-label", label ++ " on " ++ k);
                          ("role", "checkbox"); ("aria-checked", if checked then "true" else "false");
                          ("data-habit-id", sid); ("data-date-key", k); ("style", btn_style checked)]
                (if checked then "Yes" else "") [("click", LToggleDay); ("keydown", LKeyActivate)] []].
Proof.
  intros h k c. unfold day_cell.
  destruct (get_prop h "name") as [hn|e]; cbn [bind]; [|discriminate].
  destruct (js_String hn) as [label|e]; cbn [bind]; [|discriminate].
  destruct (get_prop h "log") as [hl|e]; cbn [bind]; [|discriminate].
  destruct (get_prop hl k) as [en|e]; cbn [bind]; [|discriminate].
  destruct (get_prop h "id") as [hid|e]; cbn [bind]; [|discriminate].
  destruct (js_String hid) as [sid|e]; cbn [bind]; [|discriminate].
  intro E. injection E as <-. exists label, (truthy en), sid. reflexivity.
Qed.

Lemma habit_row_shape : forall today wk h r, habit_row today wk h = Ok r ->
  exists t cols, traverse_res (day_cell h) wk = Ok cols /\
    r = Elem "div" [("style", row_style)] "" []
          (Elem "div" [("style", name_style)] t [] []
           :: cols
           ++ [Elem "div" [("style", streak_style)]
                 (string_of_Z (Z.of_nat (computeStreak today h))) [] [];
               Elem "div" [("style", actions_style)] "" []
                 [Elem "button" [("type", "button"); ("style", tick_style)] "Tick today"
                       [("click", LTickToday h)] [];
                  Elem "button" [("type", "button"); ("style", del_style)] "Delete"
                       [("click", LDeleteHabit h)] []]])%list.
Proof.
  intros today wk h r. unfold habit_row.
  destruct (get_prop h "name") as [hn|e]; cbn [bind]; [|discriminate].
  destruct (text_of hn) as [t|e]; cbn [bind]; [|discriminate].
  destruct (traverse_res (day_cell h) wk) as [cols|e] eqn:Et; cbn [bind]; [|discriminate].
  intro E. injection E as <-. exists t, cols. split; [reflexivity|].
  cbn [appendChild setAttribute createElement set_attr setTextContent].
  rewrite fold_appendChild. cbn [appendChild]. rewrite <- !app_assoc. reflexivity.
Qed.

Lemma day_cell_clean : forall h k c, day_cell h k = Ok c ->
  forall x, In x (subtree c) -> no_selector_attr x.
Proof.
  intros h k c H x Hx. destruct (day_cell_shape h k c H) as (label & checked & sid & ->).
  simpl in Hx. destruct Hx as [<-|[<-|[]]]; split; reflexivity.
Qed.

Lemma habit_row_clean : forall today wk h r, habit_row today wk h = Ok r ->
  forall x, In x (subtree r) -> no_selector_attr x.
Proof.
  intros today wk h r H x Hx. destruct (habit_row_shape today wk h r H) as (t & cols & Ht & ->).
  apply traverse_res_Forall2 in Ht.
  rewrite subtree_eq in Hx. destruct Hx as [<-|Hx]; [split; reflexivity|].
  cbn [flat_map] in Hx. rewrite subtree_eq in Hx. cbn [flat_map] in Hx.
  destruct Hx as [<-|Hx]; [split; reflexivity|].
  try rewrite app_nil_l in Hx.
  rewrite flat_map_app, in_app_iff in Hx. destruct Hx as [Hx|Hx].
  - apply in_flat_map in Hx as (col & Hcol & Hx).
    destruct (Forall2_in_right _ _ _ _ _ col Ht Hcol) as (k & _ & Hk).
    exact (day_cell_clean h k col Hk x Hx).
  - simpl in Hx. repeat (destruct Hx as [<-|Hx]; [split; reflexivity|]). destruct Hx.
Qed.

Lemma placeholder_clean : forall wk x, In x (subtree (placeholder_row wk)) -> no_selector_attr x.
Proof.
  intros wk x Hx. rewrite placeholder_row_eq, subtree_eq in Hx.
  destruct Hx as [<-|Hx]; [split; reflexivity|].
  cbn [flat_map] in Hx. rewrite subtree_eq in Hx. cbn [flat_map] in Hx.
  destruct Hx as [<-|Hx]; [split; reflexivity|].
  try rewrite app_nil_l in Hx.
  rewrite flat_map_app, in_app_iff in Hx. destruct Hx as [Hx|Hx].
  - apply in_flat_map in Hx as (col & Hcol & Hx). apply repeat_spec in Hcol. subst col.
    simpl in Hx. destruct Hx as [<-|[]]. split; reflexivity.
  - simpl in Hx. repeat (destruct Hx as [<-|Hx]; [split; reflexivity|]). destruct Hx.
Qed.

Lemma render_habits_rows : forall today wk hs acc r,
  In r (fst (render_habits today wk hs acc)) ->
  In r acc \/ exists h, habit_row today wk h = Ok r.
Proof.
  intros today wk hs. induction hs as [|h hs IH]; intros acc r Hr; cbn [render_habits] in Hr.
  - left. exact Hr.
  - destruct (habit_row today wk h) as [row|e] eqn:Eh.
    + destruct (IH _ r Hr) as [Hin|Hex]; [|right; exact Hex].
      apply in_app_iff in Hin as [Hin|[<-|[]]]; [left; exact Hin|right; exists h; exact Eh].
    + left. exact Hr.
Qed.

Lemma render_rows_rows : forall today wk s r, In r (fst (render_rows today wk s)) ->
  r = placeholder_row wk \/ exists h, habit_row today wk h = Ok r.
Proof.
  intros today wk s r Hr. unfold render_rows in Hr.
  destruct (get_prop s "habits") as [habits|e]; [|destruct Hr].
  destruct (js_length habits) as [len|e]; [|destruct Hr].
  destruct (strict_eq_zero len); [destruct Hr as [<-|[]]; left; reflexivity|].
  destruct habits; try destruct Hr.
  right. destruct (render_habits_rows today wk xs [] r Hr) as [[]|Hex]. exact Hex.
Qed.

Lemma rendered_day_button : forall today wk s row j btn,
  In row (fst (render_rows today wk s)) -> (j < length wk)%nat -> day_button row j = Some btn ->
  el_listeners btn = [("click", LToggleDay); ("keydown", LKeyActivate)].
Proof.
  intros today wk s row j btn Hrow Hj Hb.
  destruct (render_rows_rows today wk s row Hrow) as [->|(h & Hh)].
  - unfold day_button in Hb. rewrite placeholder_row_eq in Hb. cbn [el_children nth_error] in Hb.
    rewrite nth_error_app1 in Hb by (rewrite repeat_length; exact Hj).
    rewrite nth_error_repeat in Hb by exact Hj. discriminate.
  - destruct (habit_row_shape today wk h row Hh) as (t & cols & Ht & ->).
    apply traverse_res_Forall2 in Ht.
    unfold day_button in Hb. cbn [el_children nth_error] in Hb.
    assert (Hl : length cols = length wk) by (symmetry; eapply Forall2_length; exact Ht).
    rewrite nth_error_app1 in Hb by lia.
    destruct (nth_error cols j) as [col|] eqn:Ec; [|discriminate].
    destruct (nth_error wk j) as [k|] eqn:Ek; [|apply nth_error_None in Ek; lia].
    pose proof (Forall2_nth_error_both _ _ _ _ _ _ _ _ Ht Ek Ec) as Hk.
    destruct (day_cell_shape h k col Hk) as (label & checked & sid & ->).
    injection Hb as <-. reflexivity.
Qed.

Lemma bindM_retM : forall (A : Type) (m : M A) k, bindM m (fun a => retM a) k = m k.
Proof. intros A m k. unfold bindM, retM. destruct (m k) as [[a k']|e]; reflexivity. Qed.

Lemma click_norm_day_button : forall env tk cf i n lps k app kk,
  click env tk cf (norm_day_button i n lps k) app kk = toggleLog env i k app kk.
Proof.
  intros env tk cf i n lps k app kk.
  assert (H1 : getAttribute (dataset_attr "habitId") (norm_day_button i n lps k) = Some i)
    by reflexivity.
  assert (H2 : getAttribute (dataset_attr "dateKey") (norm_day_button i n lps k) = Some k)
    by reflexivity.
  unfold click.
  change (el_listeners (norm_day_button i n lps k))
    with [("click", LToggleDay); ("keydown", LKeyActivate)].
  cbn [run_click String.eqb Ascii.eqb Bool.eqb andb on_click].
  unfold onToggleDay. rewrite H1, H2. apply bindM_retM.
Qed.

Lemma nth_row_norm : forall today wk s idx h, normalized_state s = true ->
  nth_error (habits_of s) idx = Some h ->
  exists i n lps, h = habit_obj i n lps /\
    nth_error (fst (render_rows today wk s)) idx = Some (norm_row today wk i n lps).
Proof.
  intros today wk s idx h Hn Hidx.
  destruct (normalized_state_inv s Hn) as [_ Hhs].
  assert (Hh : normalized_habit h = true)
    by (rewrite forallb_forall in Hhs; apply Hhs; eapply nth_error_In; exact Hidx).
  destruct (normalized_habit_obj h Hh) as (i & n & lps & ->).
  exists i, n, lps. split; [reflexivity|].
  rewrite render_rows_norm by exact Hn.
  destruct (habits_of s) as [|h0 hs] eqn:E; [destruct idx; discriminate|].
  cbn [fst]. rewrite nth_error_map, Hidx. cbn [option_map]. rewrite row_of_norm. reflexivity.
Qed.

Lemma toggled_log_getp : forall d d' lps,
  getp (JObj (toggled_log d lps)) d'
  = if String.eqb d' d then (if truthy (getp (JObj lps) d) then JUndef else JBool true)
    else getp (JObj lps) d'.
Proof.
  intros d d' lps. unfold toggled_log.
  destruct (truthy (getp (JObj lps) d)); cbn [getp];
    [rewrite lookup_remove_key|rewrite lookup_define]; destruct (String.eqb d' d); reflexivity.
Qed.

Lemma aria_norm_day_button : forall i n lps k,
  getAttribute "aria-checked" (norm_day_button i n lps k)
  = Some (if truthy (getp (JObj lps) k) then "true" else "false").
Proof. reflexivity. Qed.

Lemma filter_res_cons : forall p x xs,
  filter_res p (x :: xs) = let! b := p x in let! ys := filter_res p xs in Ok (if b then x :: ys else ys).
Proof. reflexivity. Qed.

Lemma filter_res_h_id : forall h i hs, get_prop h "id" = Ok (JStr i) ->
  forallb normalized_habit hs = true ->
  filter_res (fun x => let! xid := get_prop x "id" in
                       let! hid := get_prop h "id" in
                       match hid with JStr t => Ok (strict_neq_str xid t) | _ => Throw unmodelled end) hs
  = Ok (filter (fun x => strict_neq_str (getp x "id") i) hs).
Proof.
  intros h i hs Hh. rewrite Hh. cbn [bind].
  induction hs as [|x hs IH]; intro H; [reflexivity|].
  cbn [forallb] in H. apply andb_true_iff in H as [Hx Hhs].
  destruct (normalized_habit_inv x Hx) as (i' & n' & ps & -> & _).
  rewrite filter_res_cons. cbn beta.
  cbn [get_prop getp lookup String.eqb Ascii.eqb Bool.eqb andb bind].
  rewrite IH by exact Hhs. reflexivity.
Qed.

(** ** Calendar days and their keys *)

Lemma civil_era_ok_true : check_era civil_doe_ok = true.
Proof. vm_compute. reflexivity. Qed.

Lemma key_suffix_ok_true :
  all2 months_Z dates_Z (fun m d =>
    (String.length (key_suffix m d) =? 6)%nat &&
    all2 months_Z dates_Z (fun m' d' =>
      negb (String.eqb (key_suffix m d) (key_suffix m' d')) || (Z.eqb m m' && Z.eqb d d'))) = true.
Proof. vm_compute. reflexivity. Qed.

Lemma check_era_spec : forall f, check_era f = true ->
  forall doe, (0 <= doe < 146097)%Z -> f doe = true.
Proof.
  intros f H doe Hd. unfold check_era in H. rewrite forallb_forall in H.
  assert (Ha : In (Z.to_nat (doe / 365)) (seq 0 401)).
  { apply in_seq. assert (doe / 365 < 401)%Z by (apply Z.div_lt_upper_bound; lia).
    assert (0 <= doe / 365)%Z by (apply Z.div_pos; lia). lia. }
  specialize (H _ Ha). rewrite forallb_forall in H.
  assert (Hb : In (Z.to_nat (doe mod 365)) (seq 0 365)).
  { apply in_seq. pose proof (Z.mod_pos_bound doe 365 ltac:(lia)). lia. }
  specialize (H _ Hb). cbv beta zeta in H.
  rewrite !Z2Nat.id in H by (first [apply Z.div_pos; lia | pose proof (Z.mod_pos_bound doe 365 ltac:(lia)); lia]).
  rewrite <- Z.div_mod in H by lia.
  apply orb_true_iff in H as [H|H]; [apply Z.leb_le in H; lia|exact H].
Qed.

Lemma all2_spec : forall ms ds p m d, all2 ms ds p = true -> In m ms -> In d ds -> p m d = true.
Proof.
  intros ms ds p m d H Hm Hd. unfold all2 in H. rewrite forallb_forall in H.
  specialize (H m Hm). rewrite forallb_forall in H. exact (H d Hd).
Qed.

Lemma civil_doe_ok_all : forall doe, (0 <= doe < 146097)%Z -> civil_doe_ok doe = true.
Proof. exact (check_era_spec civil_doe_ok civil_era_ok_true). Qed.

(** [civil_from_days] is inverted by [days_from_civil]: any day number is
    recovered from the date [Date] reports for it. *)
Lemma days_from_civil_of_days : forall z,
  days_from_civil (ld_year (civil_from_days z)) (ld_month (civil_from_days z) + 1)
                  (ld_date (civil_from_days z)) = z.
Proof.
  intro z. unfold civil_from_days. cbv zeta. cbn [ld_year ld_month ld_date].
  set (era := ((z + 719468) / 146097)%Z).
  set (doe := (z + 719468 - era * 146097)%Z).
  assert (Hdoe : (0 <= doe < 146097)%Z).
  { unfold doe, era. rewrite <- Zmod_eq_full by lia. apply Z.mod_pos_bound. lia. }
  pose proof (civil_doe_ok_all doe Hdoe) as H. unfold civil_doe_ok in H. cbv zeta in H.
  set (yoe := ((doe - doe / 1460 + doe / 36524 - doe / 146096) / 365)%Z) in *.
  set (doy := (doe - (365 * yoe + yoe / 4 - yoe / 100))%Z) in *.
  set (mp := ((5 * doy + 2) / 153)%Z) in *.
  set (d := (doy - (153 * mp + 2) / 5 + 1)%Z) in *.
  rewrite !andb_true_iff, !Z.leb_le, !Z.ltb_lt in H.
  destruct H as (((((Hy1 & Hy2) & Hm1) & Hm2) & Hd1) & Hd2).
  set (m := if (mp <? 10)%Z then (mp + 3)%Z else (mp - 9)%Z) in *.
  assert (Hmp : ((m + 9) mod 12 = mp)%Z).
  { unfold m. destruct (Z.ltb_spec mp 10).
    - replace (mp + 3 + 9)%Z with (mp + 1 * 12)%Z by lia. rewrite Z.mod_add by lia.
      apply Z.mod_small; lia.
    - replace (mp - 9 + 9)%Z with mp by lia. apply Z.mod_small; lia. }
  unfold days_from_civil. cbv zeta.
  replace (m - 1 + 1)%Z with m by lia. rewrite Hmp.
  assert (Hy : forall b : bool,
            ((if b then yoe + era * 400 + (if b then 1 else 0) - 1
              else yoe + era * 400 + (if b then 1 else 0)) = yoe + era * 400)%Z)
    by (intros []; lia).
  rewrite Hy.
  assert (He : ((yoe + era * 400) / 400 = era)%Z).
  { rewrite Z.div_add by lia. rewrite Z.div_small by lia. lia. }
  rewrite He.
  replace (yoe + era * 400 - era * 400)%Z with yoe by lia.
  unfold d, doy, doe. lia.
Qed.

Lemma days_from_civil_date : forall y m d,
  days_from_civil y m d = (days_from_civil y m 1 + d - 1)%Z.
Proof. intros y m d. unfold days_from_civil. cbv zeta. lia. Qed.

(** [d = new Date(today); d.setDate(dt)] on the date of day [z] is the date
    of day [z + dt - today.getDate()]. *)
Lemma set_date_days : forall z dt,
  set_date (civil_from_days z) dt = civil_from_days (z + dt - ld_date (civil_from_days z))%Z.
Proof.
  intros z dt. unfold set_date. f_equal.
  pose proof (days_from_civil_of_days z) as H.
  rewrite days_from_civil_date in H. lia.
Qed.

Lemma day_key_days : forall z i,
  day_key (civil_from_days z) i = toKey (civil_from_days (z - Z.of_nat i)).
Proof.
  intros z i. unfold day_key. rewrite set_date_days. f_equal. f_equal. lia.
Qed.

Lemma civil_from_days_inj : forall a b, civil_from_days a = civil_from_days b -> a = b.
Proof.
  intros a b E. rewrite <- (days_from_civil_of_days a), <- (days_from_civil_of_days b), E.
  reflexivity.
Qed.

Lemma civil_from_days_range : forall z,
  (0 <= ld_month (civil_from_days z) <= 11 /\ 1 <= ld_date (civil_from_days z) <= 31)%Z.
Proof.
  intro z. unfold civil_from_days. cbv zeta. cbn [ld_year ld_month ld_date].
  set (era := ((z + 719468) / 146097)%Z).
  set (doe := (z + 719468 - era * 146097)%Z).
  assert (Hdoe : (0 <= doe < 146097)%Z).
  { unfold doe, era. rewrite <- Zmod_eq_full by lia. apply Z.mod_pos_bound. lia. }
  pose proof (civil_doe_ok_all doe Hdoe) as H. unfold civil_doe_ok in H. cbv zeta in H.
  set (yoe := ((doe - doe / 1460 + doe / 36524 - doe / 146096) / 365)%Z) in *.
  set (doy := (doe - (365 * yoe + yoe / 4 - yoe / 100))%Z) in *.
  set (mp := ((5 * doy + 2) / 153)%Z) in *.
  set (d := (doy - (153 * mp + 2) / 5 + 1)%Z) in *.
  rewrite !andb_true_iff, !Z.leb_le, !Z.ltb_lt in H.
  destruct (Z.ltb_spec mp 10); lia.
Qed.

Lemma str_length_app : forall s1 s2,
  String.length (s1 ++ s2) = (String.length s1 + String.length s2)%nat.
Proof. induction s1 as [|c s1 IH]; intro s2; cbn; [reflexivity|rewrite IH; reflexivity]. Qed.

Lemma str_app_cancel : forall s1 s1' s2 s2',
  String.length s1 = String.length s1' -> s1 ++ s2 = s1' ++ s2' -> s1 = s1' /\ s2 = s2'.
Proof.
  induction s1 as [|c s1 IH]; intros [|c' s1'] s2 s2' Hl E; cbn in *; try discriminate.
  - split; [reflexivity|exact E].
  - injection Hl as Hl. injection E as -> E.
    destruct (IH s1' s2 s2' Hl E) as [-> ->]. split; reflexivity.
Qed.

Lemma Z_of_string_digits : forall d, d <> Decimal.Nil ->
  Z_of_string (string_of_uint d) = Some (Z.of_N (N.of_uint d)).
Proof.
  intros d Hd.
  assert (Hh : exists c r, string_of_uint d = String c r /\ Ascii.eqb c "-" = false)
    by (destruct d; [contradiction|..]; eexists; eexists; split; reflexivity).
  destruct Hh as (c & r & Hs & Hc). unfold Z_of_string. rewrite Hs, Hc, <- Hs.
  rewrite uint_of_digits_uint. reflexivity.
Qed.

Lemma Z_of_string_of_Z : forall z, Z_of_string (string_of_Z z) = Some z.
Proof.
  intros [|p|p].
  - reflexivity.
  - cbn [string_of_Z]. unfold string_of_N.
    rewrite Z_of_string_digits by apply to_uint_not_nil.
    rewrite DecimalN.Unsigned.of_to. reflexivity.
  - cbn [string_of_Z]. unfold string_of_N. cbn [String.append].
    unfold Z_of_string. cbn [Ascii.eqb Bool.eqb andb].
    rewrite uint_of_digits_uint. cbn [option_map].
    rewrite DecimalN.Unsigned.of_to. reflexivity.
Qed.

Lemma string_of_Z_inj : forall a b, string_of_Z a = string_of_Z b -> a = b.
Proof.
  intros a b E. apply (f_equal Z_of_string) in E. rewrite !Z_of_string_of_Z in E.
  injection E as E. exact E.
Qed.

Lemma in_range_Z : forall lo n z, (Z.of_nat lo <= z < Z.of_nat lo + Z.of_nat n)%Z ->
  In z (map Z.of_nat (seq lo n)).
Proof.
  intros lo n z H. apply in_map_iff. exists (Z.to_nat z). split; [lia|].
  apply in_seq. lia.
Qed.

Lemma toKey_inj : forall a b,
  (0 <= ld_month a <= 11)%Z -> (1 <= ld_date a <= 31)%Z ->
  (0 <= ld_month b <= 11)%Z -> (1 <= ld_date b <= 31)%Z ->
  toKey a = toKey b -> a = b.
Proof.
  intros [ya ma da] [yb mb db]; cbn [ld_month ld_date]. intros Ha1 Ha2 Hb1 Hb2 E.
  assert (Hma : In ma months_Z) by (apply in_range_Z; cbn; lia).
  assert (Hda : In da dates_Z) by (apply in_range_Z; cbn; lia).
  assert (Hmb : In mb months_Z) by (apply in_range_Z; cbn; lia).
  assert (Hdb : In db dates_Z) by (apply in_range_Z; cbn; lia).
  pose proof (all2_spec _ _ _ _ _ key_suffix_ok_true Hma Hda) as H.
  cbv beta in H. apply andb_true_iff in H as [Hl H].
  pose proof (all2_spec _ _ _ _ _ H Hmb Hdb) as H'. cbv beta in H'.
  pose proof (all2_spec _ _ _ _ _ key_suffix_ok_true Hmb Hdb) as Hl'.
  cbv beta in Hl'. apply andb_true_iff in Hl' as [Hl' _].
  apply Nat.eqb_eq in Hl, Hl'.
  change (string_of_Z ya ++ key_suffix ma da = string_of_Z yb ++ key_suffix mb db) in E.
  assert (Hlen : String.length (string_of_Z ya) = String.length (string_of_Z yb)).
  { apply (f_equal String.length) in E. rewrite !str_length_app in E. lia. }
  destruct (str_app_cancel _ _ _ _ Hlen E) as [Ey Es].
  apply string_of_Z_inj in Ey. subst yb.
  rewrite Es, String.eqb_refl in H'. cbn [negb orb] in H'.
  apply andb_true_iff in H' as [E1 E2]. apply Z.eqb_eq in E1, E2. subst. reflexivity.
Qed.

Lemma toKey_days_inj : forall a b,
  toKey (civil_from_days a) = toKey (civil_from_days b) -> a = b.
Proof.
  intros a b E. apply civil_from_days_inj.
  destruct (civil_from_days_range a), (civil_from_days_range b).
  apply toKey_inj; assumption.
Qed.

Lemma NoDup_map_inj : forall (A B : Type) (f : A -> B) l,
  (forall x y, f x = f y -> x = y) -> NoDup l -> NoDup (map f l).
Proof.
  intros A B f l Hf Hl. induction Hl as [|x l Hx Hl IH]; cbn; constructor; [|exact IH].
  intro Hin. apply in_map_iff in Hin as (y & Ey & Hy). apply Hf in Ey. subst. contradiction.
Qed.

Lemma buildWeek_eq : forall today,
  buildWeek today = map (day_key today) [6; 5; 4; 3; 2; 1; 0]%nat.
Proof. reflexivity. Qed.

Lemma normalizeState_input_ids :
  normalizeState env_node input_ids 0 = Ok (output_ids, 2%nat).
Proof. vm_compute. reflexivity. Qed.


(** * The claims *)

(** C1 (code bug): [normalizeState] raises on an input [JSON.parse] can
    produce.  [{"habits":[{"id":{"toString":1}}]}] is the parse of its own
    JSON text, and on it [String(h.id)] throws a TypeError, whatever the
    environment. *)
Theorem normalizeState_throws_on_toString_id :
  json_stringify state_bad_id <> None /\
  (forall t, json_stringify state_bad_id = Some t -> json_parse t = Ok state_bad_id) /\
  (forall env k, normalizeState env state_bad_id k = Throw TypeError).
Proof.
  split; [discriminate|]. split.
  - intros t Ht. vm_compute in Ht. injection Ht as <-. vm_compute. reflexivity.
  - intros env k. reflexivity.
Qed.






(** C3 (amended): [computeStreak(habit)] is the number of consecutive days,
    from today backwards, whose keys map to truthy values in [habit.log],
    stopping at the first absent or falsy day or after 365 days, whichever
    comes first; a falsy habit or a falsy log gives 0. *)
Theorem computeStreak_spec : forall today h,
  let n := computeStreak today h in
  ((truthy h = false \/ truthy (getp h "log") = false) -> n = 0%nat) /\
  (n <= 365)%nat /\
  (forall i, (i < n)%nat -> truthy (getp (getp h "log") (day_key today i)) = true) /\
  ((n < 365)%nat -> truthy (getp (getp h "log") (day_key today n)) = false).
Proof.
  intros today h. unfold computeStreak.
  destruct (truthy h) eqn:Eh; cbn [negb orb].
  - destruct (truthy (getp h "log")) eqn:El; cbn [negb orb].
    + destruct (streak_loop_spec (getp h "log") today 365 0 0) as [Hb [Hall Hstop]].
      cbv zeta in Hall, Hstop.
      rewrite Nat.sub_0_r, Nat.add_0_l in Hall, Hstop.
      split; [intros [H|H]; discriminate|].
      split; [lia|]. split; [intros i Hi; apply Hall; lia|exact Hstop].
    + split; [reflexivity|]. split; [lia|]. split; [intros i Hi; lia|].
      intros _. destruct (truthy (getp (getp h "log") (day_key today 0))) eqn:E; [|reflexivity].
      apply getp_log_truthy in E. rewrite El in E. destruct E as [_ E]; discriminate.
  - split; [reflexivity|]. split; [lia|]. split; [intros i Hi; lia|].
    intros _. destruct (truthy (getp (getp h "log") (day_key today 0))) eqn:E; [|reflexivity].
    apply getp_log_truthy in E. rewrite Eh in E. destruct E as [E _]; discriminate.
Qed.

(** C3 (counterexample): with the 400 days ending on 2024-03-01 marked and
    the day before them absent, the run of consecutive marked days is 400,
    but [computeStreak] reports 365. *)
Lemma computeStreak_run_of_400 :
  (forall i, (i < 400)%nat ->
     truthy (getp (getp habit400 "log") (day_key date_2024_03_01 i)) = true) /\
  truthy (getp (getp habit400 "log") (day_key date_2024_03_01 400)) = false /\
  computeStreak date_2024_03_01 habit400 = 365%nat.
Proof.
  split; [|split].
  - apply (forall_lt_of_forallb
             (fun i => truthy (getp (getp habit400 "log") (day_key date_2024_03_01 i)))).
    vm_compute. reflexivity.
  - vm_compute. reflexivity.
  - vm_compute. reflexivity.
Qed.


(** C4: [computeStreak] never exceeds 365, and a log marking each of the
    last 400 days [true] gives exactly 365. *)
Theorem computeStreak_capped : forall today h,
  (computeStreak today h <= 365)%nat /\
  ((forall i, (i < 400)%nat -> getp (getp h "log") (day_key today i) = JBool true) ->
   computeStreak today h = 365%nat).
Proof.
  intros today h. split.
  - exact (proj1 (proj2 (computeStreak_spec today h))).
  - intro H.
    assert (E0 : truthy (getp (getp h "log") (day_key today 0)) = true)
      by (rewrite H by lia; reflexivity).
    apply getp_log_truthy in E0 as [Eh El].
    unfold computeStreak. rewrite Eh, El. cbn [negb orb].
    rewrite streak_loop_full; [reflexivity|].
    intros j Hj. rewrite H by lia. reflexivity.
Qed.

Lemma computeStreak_capped_witness :
  (forall i, (i < 400)%nat ->
     getp (getp habit400 "log") (day_key date_2024_03_01 i) = JBool true) /\
  computeStreak date_2024_03_01 habit400 = 365%nat.
Proof.
  assert (H : forall i, (i < 400)%nat ->
            getp (getp habit400 "log") (day_key date_2024_03_01 i) = JBool true).
  { intros i Hi.
    pose proof (forall_lt_of_forallb
      (fun i => match getp (getp habit400 "log") (day_key date_2024_03_01 i) with
                | JBool true => true | _ => false end) 400 ltac:(vm_compute; reflexivity) i Hi)
      as E.
    cbv beta in E. destruct (getp _ _) as [| |[|]| | | |]; try discriminate. reflexivity. }
  split; [exact H|].
  exact (proj2 (computeStreak_capped date_2024_03_01 habit400) H).
Defined.


(** C5: normalising twice is normalising once: the second pass returns its
    input unchanged and draws no fresh id (whatever the environment of
    either pass, and whether or not the entries carried ids). *)
Theorem normalizeState_idempotent : forall env env' x k,
  bindM (normalizeState env x) (normalizeState env') k = normalizeState env x k.
Proof.
  intros env env' x k. unfold bindM at 1.
  destruct (normalizeState env x k) as [[s k1]|e] eqn:E; [|reflexivity].
  apply normalizeState_fixed. eapply normalizeState_normalized; eauto.
Qed.


(** C6: when the file's text is not JSON ([JSON.parse] throws a
    SyntaxError), or parses to a value whose [habits] is not an array, the
    import handler changes neither [state] nor the storage: its only effect
    is the failure notice. *)
Theorem event_import_rejects : forall env app text k,
  json_parse text = Throw SyntaxError \/
  (exists v, json_parse text = Ok v /\ is_array (getp v "habits") = false) ->
  event_import env (Some text) app k = Ok (alert import_failed_msg app, k).
Proof.
  intros env app text k [He|[v [Hv Ha]]]; unfold event_import, catchM, bindM, liftM.
  - rewrite He. reflexivity.
  - rewrite Hv. destruct v; simpl in Ha |- *; try reflexivity; rewrite Ha; reflexivity.
Qed.

Lemma event_import_rejects_witness :
  json_parse text_not_an_array = Ok (JObj [("habits", JStr "not-an-array")]) /\
  event_import env_node (Some text_not_an_array) app_empty 0
  = Ok (alert import_failed_msg app_empty, 0%nat).
Proof.
  split; [vm_compute; reflexivity|].
  apply event_import_rejects. right.
  exists (JObj [("habits", JStr "not-an-array")]). split; vm_compute; reflexivity.
Defined.


(** C7 (amended): whenever [normalizeState] returns, an entry that is
    truthy, with a truthy id whose [String] coercion is non-empty, keeps that
    string as its id; an entry that is falsy, has a falsy id, or whose id
    coerces to the empty string gets a freshly generated id. *)
Theorem normalizeState_id_rule : forall env x k s k',
  normalizeState env x k = Ok (s, k') ->
  forall i h h', nth_error (habits_input x) i = Some h ->
    nth_error (habits_of s) i = Some h' ->
    (forall sid, truthy h = true -> truthy (getp h "id") = true ->
       js_String (getp h "id") = Ok sid -> String.eqb sid "" = false ->
       getp h' "id" = JStr sid) /\
    ((truthy h = false \/ truthy (getp h "id") = false \/
      js_String (getp h "id") = Ok "") ->
     exists j, getp h' "id" = JStr (fresh_value env i j)).
Proof.
  intros env x k s k' H i h h' Hh Hh'.
  destruct (normalizeState_entries env x k s k' H) as (_ & _ & Hall).
  destruct (Hall i h' Hh') as (h0 & j & j' & Hh0 & Hn).
  rewrite Hh in Hh0. injection Hh0 as <-.
  apply normalize_habit_ok in Hn as (id & Hid & ->).
  apply habit_id_spec in Hid as (_ & Hkeep & Hfresh).
  split.
  - intros sid H1 H2 H3 H4. simpl. f_equal. eauto.
  - intro Hc. exists j. simpl. f_equal. auto.
Qed.

Lemma normalizeState_id_rule_witness :
  nth_error (habits_input input_ids) 1 = Some (JObj [("id", JArr [])]) /\
  exists j, getp (JObj [("id", JStr "habit-1700000000000-1");
                        ("name", JStr "Untitled habit"); ("log", JObj [])]) "id"
            = JStr (fresh_value env_node 1 j).
Proof.
  split; [reflexivity|].
  apply (normalizeState_id_rule env_node input_ids 0 output_ids 2
           normalizeState_input_ids 1 (JObj [("id", JArr [])])); [reflexivity|reflexivity|].
  right. right. reflexivity.
Defined.

(** C7 (counterexample): the id [[]] is present and truthy, yet its
    coercion [String([])] is the empty string and the entry gets a fresh id
    instead. *)
Lemma normalizeState_empty_array_id :
  truthy (JArr []) = true /\ js_String (JArr []) = Ok "" /\
  getp (JObj [("id", JArr [])]) "id" = JArr [] /\
  nth_error (habits_of output_ids) 1
  = Some (JObj [("id", JStr "habit-1700000000000-1"); ("name", JStr "Untitled habit");
                ("log", JObj [])]) /\
  normalizeState env_node input_ids 0 = Ok (output_ids, 2%nat).
Proof.
  split; [reflexivity|]. split; [reflexivity|]. split; [reflexivity|].
  split; [reflexivity|]. vm_compute. reflexivity.
Qed.


(** C8 (amended): whenever [normalizeState] returns, an entry whose [name]
    is a string that is not blank gets that name trimmed; any other entry
    (no name, a name that is not a string, a blank name) gets
    "Untitled habit". *)
Theorem normalizeState_name_rule : forall env x k s k',
  normalizeState env x k = Ok (s, k') ->
  forall i h h', nth_error (habits_input x) i = Some h ->
    nth_error (habits_of s) i = Some h' ->
    (forall nm, getp h "name" = JStr nm -> trim nm <> "" ->
       getp h' "name" = JStr (trim nm)) /\
    ((forall nm, getp h "name" = JStr nm -> trim nm = "") ->
     getp h' "name" = JStr "Untitled habit").
Proof.
  intros env x k s k' H i h h' Hh Hh'.
  destruct (normalizeState_entries env x k s k' H) as (_ & _ & Hall).
  destruct (Hall i h' Hh') as (h0 & j & j' & Hh0 & Hn).
  rewrite Hh in Hh0. injection Hh0 as <-.
  apply normalize_habit_ok in Hn as (id & _ & ->). simpl. unfold habit_name.
  split.
  - intros nm Hnm Hne.
    assert (Ht : truthy h = true) by (destruct h; try discriminate; reflexivity).
    rewrite Ht, Hnm. apply String.eqb_neq in Hne. rewrite Hne. reflexivity.
  - intro Hb. destruct (truthy h); [|reflexivity].
    destruct (getp h "name") as [| | | |nm| |] eqn:E; try reflexivity.
    rewrite (Hb nm eq_refl). reflexivity.
Qed.

Lemma normalizeState_name_rule_witness :
  getp (JObj [("id", JStr "7"); ("name", JStr "Water"); ("log", JObj [])]) "name"
  = JStr (trim " Water ").
Proof.
  apply (normalizeState_name_rule env_node input_ids 0 output_ids 2
           normalizeState_input_ids 0 (JObj [("id", JNum 7); ("name", JStr " Water ")]));
    [reflexivity|reflexivity|reflexivity|].
  vm_compute. discriminate.
Defined.

(** C8 (counterexample): the name " Water " is a non-blank string, but the
    output name is "Water", not the candidate's name. *)
Lemma normalizeState_name_trimmed :
  trim " Water " <> "" /\
  nth_error (habits_of output_ids) 0
  = Some (JObj [("id", JStr "7"); ("name", JStr "Water"); ("log", JObj [])]) /\
  normalizeState env_node input_ids 0 = Ok (output_ids, 2%nat) /\
  JStr "Water" <> JStr " Water ".
Proof.
  split; [vm_compute; discriminate|]. split; [reflexivity|].
  split; [vm_compute; reflexivity|discriminate].
Qed.


(** C9: on a state in normalised shape (every habit has a non-empty string
    id, a trimmed non-empty name and an object log), a click on the day cell
    [(habitId, dayKey)] succeeds without drawing a fresh id and keeps the
    number of habits; a habit whose id differs from [habitId] is unchanged,
    and the targeted habit keeps its id, its name and every log entry other
    than the one for [dayKey]. *)
Theorem event_day_click_frame : forall env habitId dayKey app k,
  normalized_state (app_state app) = true ->
  exists app', event_day_click env habitId dayKey app k = Ok (app', k) /\
    length (habits_of (app_state app')) = length (habits_of (app_state app)) /\
    forall i h h', nth_error (habits_of (app_state app)) i = Some h ->
      nth_error (habits_of (app_state app')) i = Some h' ->
      (getp h "id" <> JStr habitId -> h' = h) /\
      getp h' "id" = getp h "id" /\ getp h' "name" = getp h "name" /\
      (forall d, d <> dayKey -> getp (getp h' "log") d = getp (getp h "log") d).
Proof.
  intros env habitId dayKey app k H.
  destruct app as [st sto tr]; simpl in H |- *.
  destruct st as [| | | | |xs|ps]; try discriminate.
  destruct ps as [|[key v] tl]; simpl in H; try discriminate.
  destruct v as [| | | | |hs|]; simpl in H; try discriminate.
  destruct tl; simpl in H; try discriminate. apply andb_true_iff in H as [Hk Hhs].
  apply String.eqb_eq in Hk. subst key.
  destruct (map_res_toggle habitId dayKey hs Hhs) as (hs' & E & Hn & Hlen & Hall).
  assert (Hfix : normalizeState env (JObj [("habits", JArr hs')]) k
                 = Ok (JObj [("habits", JArr hs')], k)).
  { apply normalizeState_fixed. simpl. exact Hn. }
  unfold event_day_click. cbn [app_state].
  change (getp (JObj [("habits", JArr hs)]) "habits") with (JArr hs).
  unfold bindM, liftM, saveState, retM. rewrite E.
  unfold bindM. cbv beta iota. rewrite Hfix.
  eexists. split; [reflexivity|]. simpl. split; [exact Hlen|].
  exact Hall.
Qed.

Lemma event_day_click_frame_witness :
  normalized_state (app_state app_two_habits) = true /\
  exists app', event_day_click env_node "a" "2024-03-01" app_two_habits 0 = Ok (app', 0%nat) /\
    length (habits_of (app_state app')) = length (habits_of (app_state app_two_habits)) /\
    forall i h h', nth_error (habits_of (app_state app_two_habits)) i = Some h ->
      nth_error (habits_of (app_state app')) i = Some h' ->
      (getp h "id" <> JStr "a" -> h' = h) /\
      getp h' "id" = getp h "id" /\ getp h' "name" = getp h "name" /\
      (forall d, d <> "2024-03-01" -> getp (getp h' "log") d = getp (getp h "log") d).
Proof.
  split; [vm_compute; reflexivity|].
  apply (event_day_click_frame env_node "a" "2024-03-01" app_two_habits 0%nat).
  vm_compute. reflexivity.
Defined.


(** C10 (code bug): on [{habits: [null, {id: {toString: 1}}]}], an input
    whose [habits] is an array of two entries, [normalizeState] returns no
    habits array at all: [String(h.id)] throws a TypeError on the second
    entry. *)
Theorem normalizeState_no_array_on_toString_id : forall env k,
  habits_input (JObj [("habits", JArr [JNull; entry_bad_id])]) = [JNull; entry_bad_id] /\
  normalizeState env (JObj [("habits", JArr [JNull; entry_bad_id])]) k = Throw TypeError.
Proof. intros env k. split; reflexivity. Qed.


(** * Further properties of the code *)

(** X1: on a normalized state, submitting a name that trims to the empty string changes nothing (the input keeps its text); any other name appends one habit with a fresh non-empty id, the trimmed name and an empty log, keeps the other habits, draws one id, clears the input, keeps the state normalized and redraws once. *)
Theorem event_add_habit_spec : forall env rnd value app k,
  normalized_state (app_state app) = true ->
  (trim value = "" -> event_add_habit env rnd value app k = Ok ((app, value), k)) /\
  (trim value <> "" -> exists id app',
     event_add_habit env rnd value app k = Ok ((app', ""), S k) /\ id <> "" /\
     habits_of (app_state app')
     = (habits_of (app_state app)
        ++ [JObj [("id", JStr id); ("name", JStr (trim value)); ("log", JObj [])]])%list /\
     normalized_state (app_state app') = true /\
     app_trace app' = (app_trace app ++ [ERender])%list).
Proof.
  intros env rnd value app k H.
  destruct (normalized_state_inv _ H) as [Hs Hhs].
  remember (habits_of (app_state app)) as hs eqn:Ehs. clear Ehs.
  split.
  - intro E. unfold event_add_habit. rewrite E. reflexivity.
  - intro E. apply String.eqb_neq in E.
    destruct (newHabit_spec env rnd (trim value) k) as (id & Hn & Hid).
    set (nh := JObj [("id", JStr id); ("name", JStr (trim value)); ("log", JObj [])]) in Hn.
    assert (Hnew : normalized_state (JObj [("habits", JArr (hs ++ [nh])%list)]) = true).
    { simpl. rewrite forallb_app, Hhs. simpl. unfold nh. simpl.
      rewrite Hid, E, trim_idem, String.eqb_refl. reflexivity. }
    exists id. eexists. split.
    + unfold event_add_habit. rewrite E. unfold bindM, liftM, retM.
      rewrite Hs. cbn [get_prop getp lookup String.eqb Ascii.eqb Bool.eqb andb bind iterate].
      rewrite Hn. rewrite saveState_fixed by exact Hnew. reflexivity.
    + split; [apply String.eqb_neq; exact Hid|]. split; [reflexivity|].
      split; [exact Hnew|reflexivity].
Qed.

Lemma event_add_habit_spec_witness :
  normalized_state (app_state app_two_habits) = true /\
  exists id app', event_add_habit env_node (fun _ => "0.8f3a") " Run " app_two_habits 0
                  = Ok ((app', ""), 1%nat) /\ id <> "".
Proof.
  split; [reflexivity|].
  destruct (proj2 (event_add_habit_spec env_node (fun _ => "0.8f3a") " Run " app_two_habits 0
                    eq_refl) ltac:(discriminate)) as (id & app' & E & Hid & _).
  exists id, app'. split; [exact E|exact Hid].
Defined.


(** X2: the delete branch of the row click handler: cancelled, nothing changes; confirmed on a normalized state, the habits left are those whose id differs from [habitId], in their order, none of them has that id, no id is drawn and the page is redrawn once. *)
Theorem event_delete_spec : forall env habitId confirmed app k,
  normalized_state (app_state app) = true ->
  (confirmed = false -> event_delete env habitId confirmed app k = Ok (app, k)) /\
  (confirmed = true -> exists app',
     event_delete env habitId confirmed app k = Ok (app', k) /\
     habits_of (app_state app')
     = filter (fun h => strict_neq_str (getp h "id") habitId) (habits_of (app_state app)) /\
     (forall h, In h (habits_of (app_state app')) -> getp h "id" <> JStr habitId) /\
     normalized_state (app_state app') = true /\
     app_trace app' = (app_trace app ++ [ERender])%list).
Proof.
  intros env habitId confirmed app k H.
  destruct (normalized_state_inv _ H) as [Hs Hhs].
  remember (habits_of (app_state app)) as hs eqn:Ehs. clear Ehs.
  split; intro Ec; subst confirmed; [reflexivity|].
  set (hs' := filter (fun h => strict_neq_str (getp h "id") habitId) hs).
  assert (Hn : normalized_state (JObj [("habits", JArr hs')]) = true).
  { simpl. apply forallb_filter. exact Hhs. }
  eexists. split.
  - unfold event_delete. cbv beta iota delta [negb]. rewrite Hs.
    change (getp (JObj [("habits", JArr hs)]) "habits") with (JArr hs).
    unfold bindM, liftM. rewrite filter_res_id by exact Hhs.
    cbv beta iota. rewrite saveState_fixed by exact Hn. reflexivity.
  - split; [reflexivity|]. split; [|split; [exact Hn|reflexivity]].
    intros h Hin E. cbn in Hin. apply filter_In in Hin as [_ Hp].
    rewrite E in Hp. simpl in Hp. rewrite String.eqb_refl in Hp. discriminate.
Qed.

Lemma event_delete_spec_witness :
  normalized_state (app_state app_two_habits) = true /\
  exists app', event_delete env_node "a" true app_two_habits 0 = Ok (app', 0%nat) /\
    forall h, In h (habits_of (app_state app')) -> getp h "id" <> JStr "a".
Proof.
  split; [reflexivity|].
  destruct (proj2 (event_delete_spec env_node "a" true app_two_habits 0 eq_refl) eq_refl)
    as (app' & E & _ & Hno & _).
  exists app'. split; [exact E|exact Hno].
Defined.


(** X3: the reset button: cancelled, nothing changes; confirmed, from any page, the state becomes [{ habits: [] }], the stored text loads back as that state, the other storage keys are untouched, and the page is redrawn and then shows the alert "All data reset.". *)
Theorem event_reset_spec : forall env confirmed app k,
  (confirmed = false -> event_reset env confirmed app k = Ok (app, k)) /\
  (confirmed = true -> exists app',
     event_reset env confirmed app k = Ok (app', k) /\
     app_state app' = empty_state /\
     (forall env' k', loadState env' (app_storage app') k' = Ok (empty_state, k')) /\
     (forall key, key <> STORAGE_KEY -> app_storage app' key = app_storage app key) /\
     app_trace app' = (app_trace app ++ [ERender; EAlert reset_msg])%list).
Proof.
  intros env confirmed app k.
  split; intro Ec; subst confirmed; [reflexivity|].
  eexists. split.
  - unfold event_reset. cbv beta iota delta [negb].
    unfold bindM. rewrite saveState_fixed by reflexivity. reflexivity.
  - simpl. split; [reflexivity|]. split; [|split].
    + intros env' k'. unfold loadState, catchM. unfold storage_set.
      rewrite String.eqb_refl. reflexivity.
    + intros key Hk. unfold storage_set. apply String.eqb_neq in Hk. rewrite Hk. reflexivity.
    + rewrite <- app_assoc. reflexivity.
Qed.

(** X4: importing a text that parses to a value whose [habits] is an array installs [normalizeState] of that value (when it succeeds), stores its JSON text, redraws and shows the success alert. *)
Theorem event_import_accept : forall env app text data k,
  json_parse text = Ok data -> is_array (getp data "habits") = true ->
  forall s k1, normalizeState env data k = Ok (s, k1) ->
  event_import env (Some text) app k
  = Ok ({| app_state := s;
           app_storage := storage_set (app_storage app) STORAGE_KEY
                            (match json_stringify s with Some t => t | None => "undefined" end);
           app_trace := (app_trace app ++ [ERender; EAlert import_ok_msg])%list |}, k1).
Proof.
  intros env app text data k Hp Ha s k1 Hn.
  unfold event_import, catchM, bindM, liftM. rewrite Hp. cbv beta iota.
  assert (Hg : get_prop data "habits" = Ok (getp data "habits"))
    by (destruct data; try discriminate; reflexivity).
  rewrite Hg. cbv beta iota. rewrite Ha. cbv beta iota delta [negb].
  unfold saveState, bindM. rewrite Hn. simpl. unfold alert, render; simpl. rewrite <- app_assoc. reflexivity.
Qed.

Lemma event_import_accept_witness :
  json_parse (ser_total (app_state app_two_habits)) = Ok (app_state app_two_habits) /\
  is_array (getp (app_state app_two_habits) "habits") = true /\
  normalizeState env_node (app_state app_two_habits) 0 = Ok (app_state app_two_habits, 0%nat) /\
  exists app', event_import env_node (Some (ser_total (app_state app_two_habits))) app_empty 0
               = Ok (app', 0%nat) /\ app_state app' = app_state app_two_habits.
Proof.
  split; [vm_compute; reflexivity|]. split; [reflexivity|].
  split; [vm_compute; reflexivity|].
  eexists. split.
  - apply (event_import_accept env_node app_empty (ser_total (app_state app_two_habits))
             (app_state app_two_habits) 0); vm_compute; reflexivity.
  - reflexivity.
Defined.


(** X5: importing a text that is not JSON ([JSON.parse] throws a SyntaxError), whose [habits] is not an array, or on which [normalizeState] throws, leaves state and storage as they were and only shows the failure alert. *)
Theorem event_import_reject : forall env app text k,
  json_parse text = Throw SyntaxError \/
  (exists data, json_parse text = Ok data /\
     (is_array (getp data "habits") = false \/ exists e, normalizeState env data k = Throw e)) ->
  event_import env (Some text) app k = Ok (alert import_failed_msg app, k).
Proof.
  intros env app text k [Hp | (data & Hp & [Ha | [e Hn]])];
    unfold event_import, catchM, bindM, liftM; rewrite Hp; cbv beta iota; [reflexivity| |].
  - destruct data as [| | | | | |ps]; try reflexivity.
      change (get_prop (JObj ps) "habits") with (Ok (getp (JObj ps) "habits")).
      cbv beta iota. rewrite Ha. reflexivity.
  - destruct data as [| | | | | |ps]; try reflexivity.
      change (get_prop (JObj ps) "habits") with (Ok (getp (JObj ps) "habits")).
      cbv beta iota. destruct (is_array (getp (JObj ps) "habits")); cbv beta iota delta [negb];
      [unfold saveState, bindM; rewrite Hn|]; reflexivity.
Qed.

Lemma event_import_reject_witness :
  json_parse "oops" = Throw SyntaxError /\
  event_import env_node (Some "oops") app_two_habits 0
  = Ok (alert import_failed_msg app_two_habits, 0%nat).
Proof.
  split; [vm_compute; reflexivity|].
  apply event_import_reject. left. vm_compute. reflexivity.
Defined.


(** X6: whatever the storage holds, [loadState] succeeds and returns a normalized state. *)
Theorem loadState_normalized : forall env st k,
  exists s k', loadState env st k = Ok (s, k') /\ normalized_state s = true.
Proof.
  intros env st k. unfold loadState, catchM.
  destruct (st STORAGE_KEY) as [raw|]; [|eexists; eexists; split; reflexivity].
  destruct (String.eqb raw ""); [eexists; eexists; split; reflexivity|].
  unfold bindM, liftM. destruct (json_parse raw) as [v|e]; [|eexists; eexists; split; reflexivity].
  destruct (normalizeState env v k) as [[s k']|e] eqn:E; [|eexists; eexists; split; reflexivity].
  exists s, k'. split; [reflexivity|]. eapply normalizeState_normalized. exact E.
Qed.










(** X10: [toggleLog] with an id no habit of a normalized state has does nothing: no save and no redraw. *)
Theorem toggleLog_not_found : forall env habitId dateKey app k,
  normalized_state (app_state app) = true ->
  (forall h, In h (habits_of (app_state app)) -> getp h "id" <> JStr habitId) ->
  toggleLog env habitId dateKey app k = Ok (app, k).
Proof.
  intros env habitId dateKey app k H Hno.
  destruct (normalized_state_inv _ H) as [Hs Hhs].
  remember (habits_of (app_state app)) as hs eqn:Ehs. clear Ehs.
  unfold toggleLog. rewrite Hs.
  change (get_prop (JObj [("habits", JArr hs)]) "habits") with (Ok (JArr hs : jsval)).
  cbv beta iota. unfold bindM, liftM.
  rewrite (find_res_none habitId hs 0 Hhs Hno). reflexivity.
Qed.

Lemma toggleLog_not_found_witness :
  normalized_state (app_state app_two_habits) = true /\
  (forall h, In h (habits_of (app_state app_two_habits)) -> getp h "id" <> JStr "z") /\
  toggleLog env_node "z" "2024-03-01" app_two_habits 0 = Ok (app_two_habits, 0%nat).
Proof.
  assert (Hno : forall h, In h (habits_of (app_state app_two_habits)) -> getp h "id" <> JStr "z").
  { cbn. intros h [<-|[<-|[]]]; discriminate. }
  split; [reflexivity|]. split; [exact Hno|].
  apply toggleLog_not_found; [reflexivity|exact Hno].
Defined.


(** X11: [toggleLog] on a normalized state updates the first habit with the given id: its entry for [dateKey] is deleted when truthy and set to [true] otherwise, its id, name and other entries stay, the other habits stay, and the page is redrawn once. *)
Theorem toggleLog_found : forall env habitId dateKey app k idx h,
  normalized_state (app_state app) = true ->
  nth_error (habits_of (app_state app)) idx = Some h -> getp h "id" = JStr habitId ->
  (forall j h0, (j < idx)%nat -> nth_error (habits_of (app_state app)) j = Some h0 ->
     getp h0 "id" <> JStr habitId) ->
  exists app', toggleLog env habitId dateKey app k = Ok (app', k) /\
    normalized_state (app_state app') = true /\
    app_trace app' = (app_trace app ++ [ERender])%list /\
    length (habits_of (app_state app')) = length (habits_of (app_state app)) /\
    (forall j, j <> idx ->
       nth_error (habits_of (app_state app')) j = nth_error (habits_of (app_state app)) j) /\
    exists h', nth_error (habits_of (app_state app')) idx = Some h' /\
      getp h' "id" = getp h "id" /\ getp h' "name" = getp h "name" /\
      getp (getp h' "log") dateKey
      = (if truthy (getp (getp h "log") dateKey) then JUndef else JBool true) /\
      (forall d, d <> dateKey -> getp (getp h' "log") d = getp (getp h "log") d).
Proof.
  intros env habitId dateKey app k idx h H Hidx Hid Hbefore.
  destruct (toggleLog_found_spec env habitId dateKey app k idx h H Hidx Hid Hbefore)
    as (n & lps & app' & -> & E & Hst & Hn & Htr).
  exists app'. split; [exact E|]. split; [exact Hn|]. split; [exact Htr|].
  assert (Hh' : habits_of (app_state app') = set_nth idx
      (JObj [("id", JStr habitId); ("name", JStr n); ("log", JObj (toggled_log dateKey lps))])
      (habits_of (app_state app))) by (rewrite Hst; reflexivity).
  rewrite Hh'.
  assert (Hlt : (idx < length (habits_of (app_state app)))%nat)
    by (apply nth_error_Some; congruence).
  split; [apply length_set_nth|]. split.
  - intros j Hj. apply nth_set_nth_other. congruence.
  - eexists. split; [apply nth_set_nth_same; exact Hlt|].
    split; [reflexivity|]. split; [reflexivity|].
    unfold toggled_log. cbn [getp lookup String.eqb Ascii.eqb Bool.eqb andb].
    destruct (truthy match lookup dateKey lps with Some x => x | None => JUndef end).
    + split; [rewrite lookup_remove_key, String.eqb_refl; reflexivity|].
      intros d Hd. apply String.eqb_neq in Hd. rewrite lookup_remove_key, Hd. reflexivity.
    + split; [rewrite lookup_define, String.eqb_refl; reflexivity|].
      intros d Hd. apply String.eqb_neq in Hd. rewrite lookup_define, Hd. reflexivity.
Qed.

Lemma toggleLog_found_witness :
  normalized_state (app_state app_two_habits) = true /\
  nth_error (habits_of (app_state app_two_habits)) 0 = Some (JObj [("id", JStr "a"); ("name", JStr "Water"); ("log", JObj [("2024-03-01", JBool true)])]) /\
  getp (JObj [("id", JStr "a"); ("name", JStr "Water"); ("log", JObj [("2024-03-01", JBool true)])]) "id" = JStr "a" /\
  exists app', toggleLog env_node "a" "2024-03-01" app_two_habits 0 = Ok (app', 0%nat).
Proof.
  split; [reflexivity|]. split; [reflexivity|]. split; [reflexivity|].
  destruct (toggleLog_found env_node "a" "2024-03-01" app_two_habits 0 0 (JObj [("id", JStr "a"); ("name", JStr "Water"); ("log", JObj [("2024-03-01", JBool true)])])
              eq_refl eq_refl eq_refl ltac:(intros; lia)) as (app' & E & _).
  exists app'. exact E.
Defined.


(** X12: two [toggleLog] calls with the same arguments on a normalized state restore the truthiness of the entry and leave the other habits as they were; when the log had no such key, they restore the state exactly. *)
Theorem toggleLog_twice : forall env habitId dateKey app k idx h,
  normalized_state (app_state app) = true ->
  nth_error (habits_of (app_state app)) idx = Some h -> getp h "id" = JStr habitId ->
  (forall j h0, (j < idx)%nat -> nth_error (habits_of (app_state app)) j = Some h0 ->
     getp h0 "id" <> JStr habitId) ->
  exists app2,
    (app1 <- toggleLog env habitId dateKey app ;; toggleLog env habitId dateKey app1) k
    = Ok (app2, k) /\
    (forall j, j <> idx ->
       nth_error (habits_of (app_state app2)) j = nth_error (habits_of (app_state app)) j) /\
    (exists h2, nth_error (habits_of (app_state app2)) idx = Some h2 /\
       truthy (getp (getp h2 "log") dateKey) = truthy (getp (getp h "log") dateKey)) /\
    (~ In dateKey (map fst (spread (getp h "log"))) -> app_state app2 = app_state app).
Proof.
  intros env habitId dateKey app k idx h H Hidx Hid Hbefore.
  destruct (toggleLog_found_spec env habitId dateKey app k idx h H Hidx Hid Hbefore)
    as (n & lps & app1 & -> & E1 & Hst1 & Hn1 & _).
  set (hs := habits_of (app_state app)) in *.
  set (h1 := JObj [("id", JStr habitId); ("name", JStr n); ("log", JObj (toggled_log dateKey lps))]) in *.
  assert (Hlt : (idx < length hs)%nat) by (apply nth_error_Some; congruence).
  assert (Hh1 : habits_of (app_state app1) = set_nth idx h1 hs) by (rewrite Hst1; reflexivity).
  assert (Hidx1 : nth_error (habits_of (app_state app1)) idx = Some h1)
    by (rewrite Hh1; apply nth_set_nth_same; exact Hlt).
  assert (Hbefore1 : forall j h0, (j < idx)%nat -> nth_error (habits_of (app_state app1)) j = Some h0 ->
     getp h0 "id" <> JStr habitId).
  { intros j h0 Hj. rewrite Hh1, nth_set_nth_other by lia. apply Hbefore. exact Hj. }
  destruct (toggleLog_found_spec env habitId dateKey app1 k idx h1 Hn1 Hidx1 eq_refl Hbefore1)
    as (n' & lps' & app2 & Eh1 & E2 & Hst2 & _ & _).
  unfold h1 in Eh1. injection Eh1 as <- <-.
  rewrite Hh1, set_nth_set_nth in Hst2.
  assert (Hh2 : habits_of (app_state app2) = set_nth idx
    (JObj [("id", JStr habitId); ("name", JStr n);
           ("log", JObj (toggled_log dateKey (toggled_log dateKey lps)))]) hs)
    by (rewrite Hst2; reflexivity).
  exists app2. split; [unfold bindM; rewrite E1; exact E2|].
  destruct (toggled_log_twice dateKey lps) as [Ht Hx].
  split; [intros j Hj; rewrite Hh2; apply nth_set_nth_other; congruence|].
  split.
  - eexists. split; [rewrite Hh2; apply nth_set_nth_same; exact Hlt|]. exact Ht.
  - intro Hnot. cbn [getp lookup String.eqb Ascii.eqb Bool.eqb andb spread] in Hnot.
    rewrite Hst2, (Hx (lookup_not_in _ _ Hnot)).
    rewrite set_nth_same by exact Hidx.
    destruct (normalized_state_inv _ H) as [Hs _]. rewrite Hs. reflexivity.
Qed.

Lemma toggleLog_twice_witness :
  normalized_state (app_state app_two_habits) = true /\
  nth_error (habits_of (app_state app_two_habits)) 0 = Some (JObj [("id", JStr "a"); ("name", JStr "Water"); ("log", JObj [("2024-03-01", JBool true)])]) /\
  getp (JObj [("id", JStr "a"); ("name", JStr "Water"); ("log", JObj [("2024-03-01", JBool true)])]) "id" = JStr "a" /\
  exists app2,
    (app1 <- toggleLog env_node "a" "2024-03-02" app_two_habits ;;
     toggleLog env_node "a" "2024-03-02" app1) 0 = Ok (app2, 0%nat) /\
    app_state app2 = app_state app_two_habits.
Proof.
  split; [reflexivity|]. split; [reflexivity|]. split; [reflexivity|].
  destruct (toggleLog_twice env_node "a" "2024-03-02" app_two_habits 0 0 (JObj [("id", JStr "a"); ("name", JStr "Water"); ("log", JObj [("2024-03-01", JBool true)])])
              eq_refl eq_refl eq_refl ltac:(intros; lia)) as (app2 & E & _ & _ & Hx).
  exists app2. split; [exact E|]. apply Hx.
  cbn. intros [H|[]]; discriminate.
Defined.





(** X15: On a normalized state render throws nothing. With no habit it draws only the placeholder row ("No habits yet", one empty cell per week day, "0", "Add a habit"); otherwise it draws one row per habit, the row of the habit at index idx at index idx, with one column per week day plus three, the habit's name first and String(computeStreak(h)) second to last. *)
Theorem render_rows_normalized : forall today wk s,
  normalized_state s = true ->
  snd (render_rows today wk s) = None /\
  (habits_of s = [] ->
     fst (render_rows today wk s) = [placeholder_row wk] /\
     map el_text (el_children (placeholder_row wk))
     = ("No habits yet" :: repeat "" (length wk) ++ ["0"; "Add a habit"])%list) /\
  (habits_of s <> [] -> length (fst (render_rows today wk s)) = length (habits_of s)) /\
  forall idx h, nth_error (habits_of s) idx = Some h ->
    exists row, nth_error (fst (render_rows today wk s)) idx = Some row /\
      length (el_children row) = (length wk + 3)%nat /\
      option_map (fun c => JStr (el_text c)) (hd_error (el_children row)) = Some (getp h "name") /\
      option_map el_text (nth_error (el_children row) (S (length wk)))
      = Some (string_of_Z (Z.of_nat (computeStreak today h))).
Proof.
  intros today wk s Hn.
  split; [rewrite render_rows_norm by exact Hn; destruct (habits_of s); reflexivity|].
  split.
  { intro E. rewrite render_rows_norm, E by exact Hn. split; [reflexivity|].
    rewrite placeholder_row_eq. cbn [el_children map el_text]. rewrite map_app, map_repeat.
    reflexivity. }
  split.
  { intro E. rewrite render_rows_norm by exact Hn.
    destruct (habits_of s) as [|h hs]; [contradiction|]. apply length_map. }
  intros idx h Hidx.
  destruct (nth_row_norm today wk s idx h Hn Hidx) as (i & n & lps & -> & Hrow).
  eexists. split; [exact Hrow|].
  rewrite norm_row_children. split.
  - cbn [length]. rewrite length_app, length_map. cbn [length]. lia.
  - split; [reflexivity|].
    cbn [nth_error]. rewrite nth_error_app2 by (rewrite length_map; lia).
    rewrite length_map, Nat.sub_diag. reflexivity.
Qed.

(** X16: On a normalized state, the button render draws for habit h and week key k is checked (aria-checked "true", text "Yes") exactly when h.log[k] is truthy, otherwise aria-checked "false" and empty; it is labelled "<name> on <k>", carries h.id and k as data-habit-id and data-date-key, and listens to click with onToggleDay and to keydown. *)
Theorem render_day_buttons : forall today wk s idx h j k,
  normalized_state s = true -> nth_error (habits_of s) idx = Some h -> nth_error wk j = Some k ->
  exists row btn i n,
    nth_error (fst (render_rows today wk s)) idx = Some row /\ day_button row j = Some btn /\
    getp h "id" = JStr i /\ getp h "name" = JStr n /\
    getAttribute "aria-checked" btn
    = Some (if truthy (getp (getp h "log") k) then "true" else "false") /\
    el_text btn = (if truthy (getp (getp h "log") k) then "Yes" else "") /\
    getAttribute "aria-label" btn = Some (n ++ " on " ++ k) /\
    getAttribute "data-habit-id" btn = Some i /\ getAttribute "data-date-key" btn = Some k /\
    el_listeners btn = [("click", LToggleDay); ("keydown", LKeyActivate)].
Proof.
  intros today wk s idx h j k Hn Hidx Hj.
  destruct (nth_row_norm today wk s idx h Hn Hidx) as (i & n & lps & -> & Hrow).
  exists (norm_row today wk i n lps), (norm_day_button i n lps k), i, n.
  split; [exact Hrow|]. split; [apply day_button_norm; exact Hj|].
  repeat split; reflexivity.
Qed.

(** X17: For any state, no element render draws has a data-day-key or a data-action attribute, so the selectors [data-day-key] and [data-action='delete-habit'] of the row click handler of events.js match none of them. *)
Theorem render_no_row_handler_attrs : forall today wk s x,
  In x (flat_map subtree (fst (render_rows today wk s))) ->
  getAttribute "data-day-key" x = None /\ getAttribute "data-action" x = None.
Proof.
  intros today wk s x Hx. apply in_flat_map in Hx as (r & Hr & Hx).
  destruct (render_rows_rows today wk s r Hr) as [->|(h & Hh)].
  - exact (placeholder_clean wk x Hx).
  - exact (habit_row_clean today wk h r Hh x Hx).
Qed.

(** X18: On a normalized state, clicking the day button of key d in the row of a habit whose id no earlier habit has succeeds, keeps the state normalized and redraws once; the next render has as many rows, the same rows elsewhere, and in that row exactly the buttons of key d flip their checked state. *)
Theorem day_button_click_redraw : forall env todayKey confirmed today wk app k idx h j dateKey row btn,
  normalized_state (app_state app) = true ->
  nth_error (habits_of (app_state app)) idx = Some h ->
  (forall j0 h0, (j0 < idx)%nat -> nth_error (habits_of (app_state app)) j0 = Some h0 ->
     getp h0 "id" <> getp h "id") ->
  nth_error wk j = Some dateKey ->
  nth_error (fst (render_rows today wk (app_state app))) idx = Some row ->
  day_button row j = Some btn ->
  exists app', click env todayKey confirmed btn app k = Ok (app', k) /\
    normalized_state (app_state app') = true /\
    app_trace app' = (app_trace app ++ [ERender])%list /\
    length (fst (render_rows today wk (app_state app')))
    = length (fst (render_rows today wk (app_state app))) /\
    (forall i', i' <> idx -> nth_error (fst (render_rows today wk (app_state app'))) i'
                            = nth_error (fst (render_rows today wk (app_state app))) i') /\
    exists row', nth_error (fst (render_rows today wk (app_state app'))) idx = Some row' /\
      forall j' k', nth_error wk j' = Some k' ->
        exists b b' (c c' : bool), day_button row j' = Some b /\ day_button row' j' = Some b' /\
          getAttribute "aria-checked" b = Some (if c then "true" else "false") /\
          getAttribute "aria-checked" b' = Some (if c' then "true" else "false") /\
          c' = (if String.eqb k' dateKey then negb c else c).
Proof.
  intros env todayKey confirmed today wk app k idx h j dateKey row btn Hn Hidx Hbefore Hj Hrow Hbtn.
  destruct (nth_row_norm today wk (app_state app) idx h Hn Hidx) as (i & n & lps & -> & Hrow0).
  rewrite Hrow in Hrow0. injection Hrow0 as ->.
  rewrite (day_button_norm today wk i n lps j dateKey Hj) in Hbtn. injection Hbtn as <-.
  destruct (toggleLog_found_spec env i dateKey app k idx (habit_obj i n lps) Hn Hidx eq_refl Hbefore)
    as (n' & lps' & app' & Eh & E & Hst & Hn' & Htr).
  injection Eh as <- <-.
  exists app'. rewrite click_norm_day_button. split; [exact E|].
  split; [exact Hn'|]. split; [exact Htr|].
  assert (Hl : (idx < length (habits_of (app_state app)))%nat)
    by (apply nth_error_Some; congruence).
  assert (Hhs' : habits_of (app_state app')
                 = set_nth idx (habit_obj i n (toggled_log dateKey lps)) (habits_of (app_state app)))
    by (rewrite Hst; reflexivity).
  rewrite (render_rows_norm today wk (app_state app')) by exact Hn'.
  rewrite (render_rows_norm today wk (app_state app)) by exact Hn.
  rewrite Hhs'.
  destruct (habits_of (app_state app)) as [|h0 hs] eqn:Ehs; [cbn in Hl; lia|].
  destruct (set_nth idx (habit_obj i n (toggled_log dateKey lps)) (h0 :: hs)) as [|h1 hs1] eqn:Es.
  { apply (f_equal (@length jsval)) in Es. rewrite length_set_nth in Es. discriminate. }
  rewrite <- Es. cbn [fst].
  split; [rewrite !length_map, length_set_nth; reflexivity|].
  split.
  { intros i' Hi'. rewrite !nth_error_map, nth_set_nth_other by congruence. reflexivity. }
  exists (norm_row today wk i n (toggled_log dateKey lps)). split.
  { rewrite nth_error_map, nth_set_nth_same by exact Hl. cbn [option_map].
    rewrite row_of_norm. reflexivity. }
  intros j' k' Hj'.
  exists (norm_day_button i n lps k'), (norm_day_button i n (toggled_log dateKey lps) k'),
    (truthy (getp (JObj lps) k')), (truthy (getp (JObj (toggled_log dateKey lps)) k')).
  split; [apply day_button_norm; exact Hj'|]. split; [apply day_button_norm; exact Hj'|].
  split; [reflexivity|]. split; [reflexivity|].
  rewrite toggled_log_getp. destruct (String.eqb k' dateKey) eqn:Ek; [|reflexivity].
  apply String.eqb_eq in Ek. subst k'.
  destruct (truthy (getp (JObj lps) dateKey)); reflexivity.
Qed.

(** X19: For any state, pressing Space or Enter on a day button render draws does the same as clicking it, and any other key does nothing. *)
Theorem day_button_keydown : forall env todayKey confirmed key today wk s row j btn app k,
  In row (fst (render_rows today wk s)) -> (j < length wk)%nat -> day_button row j = Some btn ->
  keydown env todayKey confirmed key btn app k
  = if String.eqb key " " || String.eqb key "Enter"
    then click env todayKey confirmed btn app k
    else Ok (app, k).
Proof.
  intros env todayKey confirmed key today wk s row j btn app k Hrow Hj Hb.
  unfold keydown. rewrite (rendered_day_button today wk s row j btn Hrow Hj Hb).
  cbn [run_keydown String.eqb Ascii.eqb Bool.eqb andb on_keydown].
  destruct (String.eqb key " " || String.eqb key "Enter").
  - apply bindM_retM.
  - reflexivity.
Qed.

(** X20: On a normalized state, clicking "Tick today" in a habit's row does the same as clicking the day button of today's key in that row, when today's key is one of the week keys. *)
Theorem tick_today_is_day_click : forall env todayKey confirmed today wk app idx h j row,
  normalized_state (app_state app) = true ->
  nth_error (habits_of (app_state app)) idx = Some h ->
  nth_error wk j = Some todayKey ->
  nth_error (fst (render_rows today wk (app_state app))) idx = Some row ->
  exists tick btn, action_button row 0 = Some tick /\ el_text tick = "Tick today" /\
    day_button row j = Some btn /\
    forall k, click env todayKey confirmed tick app k = click env todayKey confirmed btn app k.
Proof.
  intros env todayKey confirmed today wk app idx h j row Hn Hidx Hj Hrow.
  destruct (nth_row_norm today wk (app_state app) idx h Hn Hidx) as (i & n & lps & -> & Hrow0).
  rewrite Hrow in Hrow0. injection Hrow0 as ->.
  eexists. exists (norm_day_button i n lps todayKey).
  split; [rewrite action_button_norm; reflexivity|]. split; [reflexivity|].
  split; [apply day_button_norm; exact Hj|].
  intro k. rewrite click_norm_day_button.
  unfold click. cbn [el_listeners run_click String.eqb Ascii.eqb Bool.eqb andb on_click].
  unfold tick_today. cbn [getp habit_obj lookup String.eqb Ascii.eqb Bool.eqb andb].
  apply bindM_retM.
Qed.

(** X21: On a normalized state, clicking "Delete" in a habit's row changes nothing when the confirmation is cancelled; when it is confirmed, exactly the habits whose id differs from that habit's id are kept, the state stays normalized and the UI is redrawn once. *)
Theorem delete_button_spec : forall env todayKey confirmed today wk app k idx h row,
  normalized_state (app_state app) = true ->
  nth_error (habits_of (app_state app)) idx = Some h ->
  nth_error (fst (render_rows today wk (app_state app))) idx = Some row ->
  exists del i, action_button row 1 = Some del /\ el_text del = "Delete" /\ getp h "id" = JStr i /\
    (confirmed = false -> click env todayKey confirmed del app k = Ok (app, k)) /\
    (confirmed = true -> exists app',
       click env todayKey confirmed del app k = Ok (app', k) /\
       habits_of (app_state app')
       = filter (fun x => strict_neq_str (getp x "id") i) (habits_of (app_state app)) /\
       normalized_state (app_state app') = true /\
       app_trace app' = (app_trace app ++ [ERender])%list).
Proof.
  intros env todayKey confirmed today wk app k idx h row Hn Hidx Hrow.
  destruct (nth_row_norm today wk (app_state app) idx h Hn Hidx) as (i & n & lps & -> & Hrow0).
  rewrite Hrow in Hrow0. injection Hrow0 as ->.
  eexists. exists i.
  split; [rewrite action_button_norm; reflexivity|]. split; [reflexivity|]. split; [reflexivity|].
  destruct (normalized_state_inv _ Hn) as [Hs Hhs].
  unfold click. cbn [el_listeners run_click String.eqb Ascii.eqb Bool.eqb andb on_click].
  split; intro Ec; subst confirmed.
  - unfold delete_habit. cbn. reflexivity.
  - set (hs' := filter (fun x => strict_neq_str (getp x "id") i) (habits_of (app_state app))).
    assert (Hn' : normalized_state (JObj [("habits", JArr hs')]) = true)
      by (cbn [normalized_state]; rewrite String.eqb_refl; cbn [andb]; unfold hs'; rewrite forallb_forall in Hhs |- *; intros x Hx; apply filter_In in Hx as [Hx _]; auto).
    eexists. split.
    + rewrite bindM_retM. unfold delete_habit, bindM, liftM.
      cbn [get_prop habit_obj getp lookup String.eqb Ascii.eqb Bool.eqb andb js_String bind negb].
      rewrite Hs. cbn [get_prop getp lookup String.eqb Ascii.eqb Bool.eqb andb].
      rewrite (filter_res_h_id (habit_obj i n lps) i) by (reflexivity || exact Hhs).
      cbn [spread define String.eqb Ascii.eqb Bool.eqb andb].
      rewrite saveState_fixed by exact Hn'. reflexivity.
    + split; [reflexivity|]. split; [exact Hn'|reflexivity].
Qed.

Lemma render_rows_normalized_witness :
  normalized_state (app_state app_two_habits) = true /\
  snd (render_rows date_2024_03_01 week_ex (app_state app_two_habits)) = None /\
  length (fst (render_rows date_2024_03_01 week_ex (app_state app_two_habits))) = 2%nat.
Proof.
  destruct (render_rows_normalized date_2024_03_01 week_ex (app_state app_two_habits) eq_refl)
    as (Hs & _ & Hl & _).
  split; [reflexivity|]. split; [exact Hs|]. rewrite Hl; [reflexivity|discriminate].
Defined.

Lemma render_day_buttons_witness :
  exists row btn,
    nth_error (fst (render_rows date_2024_03_01 week_ex (app_state app_two_habits))) 0 = Some row /\
    day_button row 1 = Some btn /\ getAttribute "aria-checked" btn = Some "true".
Proof.
  destruct (render_day_buttons date_2024_03_01 week_ex (app_state app_two_habits) 0
              (JObj [("id", JStr "a"); ("name", JStr "Water"); ("log", JObj [("2024-03-01", JBool true)])])
              1 "2024-03-01" eq_refl eq_refl eq_refl)
    as (row & btn & i & n & H1 & H2 & _ & _ & Ha & _).
  exists row, btn. split; [exact H1|]. split; [exact H2|]. rewrite Ha. reflexivity.
Defined.

Lemma render_no_row_handler_attrs_witness :
  In row_ex (flat_map subtree (fst (render_rows date_2024_03_01 week_ex (app_state app_two_habits)))) /\
  getAttribute "data-day-key" row_ex = None /\ getAttribute "data-action" row_ex = None.
Proof.
  assert (H : In row_ex (flat_map subtree (fst (render_rows date_2024_03_01 week_ex (app_state app_two_habits)))))
    by (vm_compute; left; reflexivity).
  split; [exact H|].
  exact (render_no_row_handler_attrs date_2024_03_01 week_ex (app_state app_two_habits) row_ex H).
Defined.

Lemma day_button_click_redraw_witness :
  nth_error (fst (render_rows date_2024_03_01 week_ex (app_state app_two_habits))) 0 = Some row_ex /\
  day_button row_ex 1 = Some day_button_ex /\
  exists app', click env_node "2024-03-01" true day_button_ex app_two_habits 0 = Ok (app', 0%nat) /\
    app_trace app' = [ERender].
Proof.
  split; [vm_compute; reflexivity|]. split; [vm_compute; reflexivity|].
  destruct (day_button_click_redraw env_node "2024-03-01" true date_2024_03_01 week_ex app_two_habits 0 0
              (JObj [("id", JStr "a"); ("name", JStr "Water"); ("log", JObj [("2024-03-01", JBool true)])])
              1 "2024-03-01" row_ex day_button_ex eq_refl eq_refl ltac:(intros; lia) eq_refl
              ltac:(vm_compute; reflexivity) ltac:(vm_compute; reflexivity))
    as (app' & E & _ & Ht & _).
  exists app'. split; [exact E|exact Ht].
Defined.

Lemma day_button_keydown_witness :
  keydown env_node "2024-03-01" true "Enter" day_button_ex app_two_habits 0
  = click env_node "2024-03-01" true day_button_ex app_two_habits 0.
Proof.
  rewrite (day_button_keydown env_node "2024-03-01" true "Enter" date_2024_03_01 week_ex
             (app_state app_two_habits) row_ex 1 day_button_ex app_two_habits 0
             ltac:(vm_compute; left; reflexivity) ltac:(cbn; lia) ltac:(vm_compute; reflexivity)).
  reflexivity.
Defined.

Lemma tick_today_is_day_click_witness :
  exists tick, action_button row_ex 0 = Some tick /\
    click env_node "2024-03-01" true tick app_two_habits 0
    = click env_node "2024-03-01" true day_button_ex app_two_habits 0.
Proof.
  destruct (tick_today_is_day_click env_node "2024-03-01" true date_2024_03_01 week_ex app_two_habits 0
              (JObj [("id", JStr "a"); ("name", JStr "Water"); ("log", JObj [("2024-03-01", JBool true)])])
              1 row_ex eq_refl eq_refl eq_refl ltac:(vm_compute; reflexivity))
    as (tick & btn & Ht & _ & Hb & Hc).
  exists tick. split; [exact Ht|].
  assert (Eb : btn = day_button_ex) by (vm_compute in Hb; injection Hb as <-; reflexivity).
  rewrite <- Eb. apply Hc.
Defined.

Lemma delete_button_spec_witness :
  exists del app', action_button row_ex 1 = Some del /\
    click env_node "2024-03-01" true del app_two_habits 0 = Ok (app', 0%nat) /\
    habits_of (app_state app') = [JObj [("id", JStr "b"); ("name", JStr "Read"); ("log", JObj [])]].
Proof.
  destruct (delete_button_spec env_node "2024-03-01" true date_2024_03_01 week_ex app_two_habits 0 0
              (JObj [("id", JStr "a"); ("name", JStr "Water"); ("log", JObj [("2024-03-01", JBool true)])])
              row_ex eq_refl eq_refl ltac:(vm_compute; reflexivity))
    as (del & i & Hd & _ & Hi & _ & Hc).
  destruct (Hc eq_refl) as (app' & E & Hh & _).
  exists del, app'. split; [exact Hd|]. split; [exact E|].
  rewrite Hh. injection Hi as <-. reflexivity.
Defined.

(** X22: For the local date of any day z, buildWeek returns the keys of the seven days z-6, ..., z, oldest first, across month and year ends; its last key is todayKey() and its seven keys are pairwise distinct. *)
Theorem buildWeek_days : forall z,
  buildWeek (civil_from_days z)
  = map (fun o => toKey (civil_from_days (z - Z.of_nat o))) [6; 5; 4; 3; 2; 1; 0]%nat /\
  last (buildWeek (civil_from_days z)) "" = todayKey (civil_from_days z) /\
  NoDup (buildWeek (civil_from_days z)).
Proof.
  intro z. rewrite buildWeek_eq.
  assert (E : map (day_key (civil_from_days z)) [6; 5; 4; 3; 2; 1; 0]%nat
              = map (fun o => toKey (civil_from_days (z - Z.of_nat o))) [6; 5; 4; 3; 2; 1; 0]%nat)
    by (apply map_ext; intro o; apply day_key_days).
  rewrite E. split; [reflexivity|]. split.
  - cbn [map last]. unfold todayKey. rewrite Z.sub_0_r. reflexivity.
  - apply NoDup_map_inj.
    + intros o1 o2 Eo. apply toKey_days_inj in Eo. lia.
    + repeat constructor; cbn; intuition discriminate.
Qed.

(** X23: toKey gives different keys to the local dates of different days. *)
Theorem toKey_days_distinct : forall a b, a <> b ->
  toKey (civil_from_days a) <> toKey (civil_from_days b).
Proof. intros a b Hab E. apply Hab. exact (toKey_days_inj a b E). Qed.

(** X24: For the local date of any day z, computeStreak(h) = n means that h.log is truthy at the keys of the n days z, z-1, ..., z-n+1 and, when n < 365, not at the key of day z-n: the streak counts consecutive calendar days back from today. *)
Theorem computeStreak_days : forall z h,
  let n := computeStreak (civil_from_days z) h in
  (forall i, (i < n)%nat ->
     truthy (getp (getp h "log") (toKey (civil_from_days (z - Z.of_nat i)))) = true) /\
  ((n < 365)%nat ->
     truthy (getp (getp h "log") (toKey (civil_from_days (z - Z.of_nat n)))) = false).
Proof.
  intros z h n.
  assert (H : (forall i, (i < n)%nat ->
                 truthy (getp (getp h "log") (day_key (civil_from_days z) i)) = true) /\
              ((n < 365)%nat ->
                 truthy (getp (getp h "log") (day_key (civil_from_days z) n)) = false)).
  2: { destruct H as [H1 H2]. split.
       - intros i Hi. rewrite <- day_key_days. exact (H1 i Hi).
       - intro Hn. rewrite <- day_key_days. exact (H2 Hn). }
  unfold n, computeStreak.
  destruct (truthy h) eqn:Eh; cbn [negb orb].
  - destruct (truthy (getp h "log")) eqn:El; cbn [negb orb].
    + destruct (streak_loop_spec (getp h "log") (civil_from_days z) 365 0 0) as [Hb [Hall Hstop]].
      cbv zeta in Hall, Hstop.
      rewrite Nat.sub_0_r, Nat.add_0_l in Hall, Hstop.
      split; [intros i Hi; apply Hall; lia|exact Hstop].
    + split; [intros i Hi; lia|].
      intros _. destruct (truthy (getp (getp h "log") (day_key (civil_from_days z) 0))) eqn:E; [|reflexivity].
      apply getp_log_truthy in E. rewrite El in E. destruct E as [_ E]; discriminate.
  - split; [intros i Hi; lia|].
    intros _. destruct (truthy (getp (getp h "log") (day_key (civil_from_days z) 0))) eqn:E; [|reflexivity].
    apply getp_log_truthy in E. rewrite Eh in E. destruct E as [E _]; discriminate.
Qed.

Lemma toKey_days_distinct_witness :
  (19782 <> 19783)%Z /\ toKey (civil_from_days 19782) <> toKey (civil_from_days 19783).
Proof. split; [lia|]. apply toKey_days_distinct. lia. Defined.
